(** * Hybrid property search: a shallow embedding of the search core

    The development follows three source files of the repository:

    - [src/database/mongo_client.py]  (class [PropertyDatabase]: the query
      composer, the search executor and the result formatter),
    - [src/tools/property_search.py]  ([execute_hybrid_search] and its helpers),
    - [src/tools/rtvi_messaging.py]   (the notification dispatcher).

    Python values are modelled by an inductive type of dynamically typed
    values, dictionaries by association lists in insertion order, exceptions
    by an explicit [Raise] outcome, and the external services (clock, UUID
    source, embedding service, document store, event loop, session) by a
    record of oracles.  Every call to an external service leaves an event in
    a trace, so that statements such as "the store is never queried" are
    statements about the trace. *)

From Stdlib Require Import ZArith NArith List String Ascii Bool Lia.
From Stdlib Require DecimalString.
Import ListNotations.

Set Implicit Arguments.
Set Warnings "-register-all".
Local Open Scope Z_scope.

(* ================================================================= *)
(** ** Python strings *)

(** A Python [str] is a finite sequence of Unicode code points. *)
Definition str := list N.

(** [lit "abc"] is the [str] of an ASCII literal of the source. *)
Definition lit (s : string) : str :=
  map N_of_ascii (list_ascii_of_string s).
Arguments lit s%_string.

Definition str_eqb (a b : str) : bool :=
  if list_eq_dec N.eq_dec a b then true else false.

(** [str.isspace] on one code point (the table of CPython's
    [_PyUnicode_IsWhitespace]). *)
Definition isspace (c : N) : bool :=
  ((9 <=? c) && (c <=? 13) || (28 <=? c) && (c <=? 32)
   || (c =? 133) || (c =? 160) || (c =? 5760)
   || (8192 <=? c) && (c <=? 8202)
   || (c =? 8232) || (c =? 8233) || (c =? 8239) || (c =? 8287)
   || (c =? 12288))%N.

Fixpoint lstrip (s : str) : str :=
  match s with
  | c :: s' => if isspace c then lstrip s' else s
  | [] => []
  end.

Definition rstrip (s : str) : str := rev (lstrip (rev s)).

(** [s.strip()] *)
Definition strip (s : str) : str := rstrip (lstrip s).

(** [s[:n]] for a non-negative constant [n]. *)
Definition slice_to {A} (n : nat) (l : list A) : list A := firstn n l.

(** The characters [re.escape] protects (Python 3.7 and later):
    [()[]{}?*+-|^$\.&~#] and the blanks space, \t, \n, \r, \v, \f. *)
Definition re_special (c : N) : bool :=
  existsb (N.eqb c)
    [40; 41; 91; 93; 123; 125; 63; 42; 43; 45; 124; 94; 36; 92; 46; 38;
     126; 35; 32; 9; 10; 13; 11; 12]%N.

(** [re.escape(s)] *)
Fixpoint re_escape (s : str) : str :=
  match s with
  | [] => []
  | c :: s' => if re_special c then 92%N :: c :: re_escape s'
               else c :: re_escape s'
  end.

(** [str(n)] for a Python [int]. *)
Definition str_of_int (z : Z) : str := lit (DecimalString.NilZero.string_of_int (Z.to_int z)).

(** [sub in s] for strings. *)
Definition contains (sub s : str) : Prop :=
  exists pre suf, s = pre ++ sub ++ suf.

(* ================================================================= *)
(** ** Python values *)

(** Dynamically typed values, as they occur in BSON documents and in the
    dictionaries the code builds.  [F] is the carrier of Python's [float].
    A [VDict] keeps its items in insertion order. *)
Inductive value (F : Type) : Type :=
| VNone
| VBool (b : bool)
| VInt (z : Z)
| VFloat (x : F)
| VStr (s : str)
| VOid (hex : str)                         (* bson.ObjectId *)
| VList (l : list (value F))
| VDict (d : list (str * value F)).

Arguments VNone {F}.
Arguments VBool {F} b.
Arguments VInt {F} z.
Arguments VStr {F} s.
Arguments VOid {F} hex.

(** What the model needs from the Python runtime and leaves abstract:
    binary floating point, and the text Python prints for containers. *)
Class PyRuntime : Type := {
  pyfloat : Type;
  float_sub : pyfloat -> pyfloat -> pyfloat;      (* x - y *)
  float_round : Z -> pyfloat -> pyfloat;          (* round(x, ndigits) *)
  float_fmt2 : pyfloat -> str;                    (* format(x, ".2f") *)
  float_str : pyfloat -> str;                     (* str(x) *)
  float_bool : pyfloat -> bool;                   (* bool(x) *)
  container_str : value pyfloat -> str            (* str of a list or dict *)
}.

(** Python exceptions: the class name and [str(e)]. *)
Inductive exn : Type := Exn (cls : string) (msg : str).

Definition exn_str (e : exn) : str := let (_, m) := e in m.

(** The outcome of a computation that may raise. *)
Inductive outcome (A : Type) : Type :=
| Return (a : A)
| Raise (e : exn).
Arguments Raise {A} e.

Definition obind {A B} (o : outcome A) (k : A -> outcome B) : outcome B :=
  match o with
  | Return a => k a
  | Raise e => Raise e
  end.

Fixpoint omap {A B} (f : A -> outcome B) (l : list A) : outcome (list B) :=
  match l with
  | [] => Return []
  | a :: l' => obind (f a) (fun b => obind (omap f l') (fun bs => Return (b :: bs)))
  end.

Section Values.
Context {R : PyRuntime}.

Definition val := value pyfloat.
Definition dict := list (str * val).

(** [bool(v)] *)
Definition truthy (v : val) : bool :=
  match v with
  | VNone => false
  | VBool b => b
  | VInt z => negb (z =? 0)
  | VFloat x => float_bool x
  | VStr s => match s with [] => false | _ => true end
  | VOid _ => true
  | VList l => match l with [] => false | _ => true end
  | VDict d => match d with [] => false | _ => true end
  end.

(** [isinstance(v, list)] *)
Definition is_list (v : val) : bool :=
  match v with VList _ => true | _ => false end.

(** [str(v)] *)
Definition py_str (v : val) : str :=
  match v with
  | VNone => lit "None"
  | VBool true => lit "True"
  | VBool false => lit "False"
  | VInt z => str_of_int z
  | VFloat x => float_str x
  | VStr s => s
  | VOid h => h
  | VList _ | VDict _ => container_str v
  end.

(** [d[k]] as an optional value. *)
Fixpoint lookup (k : str) (d : dict) : option val :=
  match d with
  | [] => None
  | (k', v) :: d' => if str_eqb k k' then Some v else lookup k d'
  end.

(** [d.get(k, default)] *)
Definition dict_get (d : dict) (k : str) (default : val) : val :=
  match lookup k d with Some v => v | None => default end.

(** [d[k] = v]: a present key keeps its place, a new key goes last. *)
Fixpoint dict_set (d : dict) (k : str) (v : val) : dict :=
  match d with
  | [] => [(k, v)]
  | (k', v') :: d' =>
      if str_eqb k k' then (k, v) :: d' else (k', v') :: dict_set d' k v
  end.

(** [v.get(k, default)] on a value that need not be a dict. *)
Definition py_get (v : val) (k : str) (default : val) : outcome val :=
  match v with
  | VDict d => Return (dict_get d k default)
  | _ => Raise (Exn "AttributeError" (lit "object has no attribute 'get'"))
  end.

(** [repr(k)] of a key made of letters, digits and underscores, as are
    the keys the program subscripts with: the key in single quotes. *)
Definition key_repr (k : str) : str := lit "'" ++ k ++ lit "'".

(** [v[k]] for a string key; [str] of a [KeyError] is [repr] of the key. *)
Definition py_item (v : val) (k : str) : outcome val :=
  match v with
  | VDict d =>
      match lookup k d with
      | Some x => Return x
      | None => Raise (Exn "KeyError" (key_repr k))
      end
  | _ => Raise (Exn "TypeError" (lit "indices must be integers"))
  end.

(** [round(v, ndigits)] *)
Definition py_round (v : val) (ndigits : Z) : outcome val :=
  match v with
  | VInt z => Return (VInt z)
  | VBool b => Return (VInt (if b then 1 else 0))
  | VFloat x => Return (VFloat (float_round ndigits x))
  | _ => Raise (Exn "TypeError" (lit "type doesn't define __round__ method"))
  end.

End Values.

Notation "'let*' x ':=' c 'in' k" := (obind c (fun x => k))
  (at level 10, x name, c at level 100, k at level 200).

(* ================================================================= *)
(** ** [PropertyDatabase]: query composer and result formatter
       (src/database/mongo_client.py) *)

Section Database.
Context {R : PyRuntime}.

(** [build_match_conditions].  The prices are Python numbers and are passed
    through unchanged; [None] is an absent argument. *)
Definition build_match_conditions
    (min_price max_price : option val)
    (bedrooms bathrooms property_type location_keywords : option str)
    (mls_genuine : option bool) : dict :=
  let match_conditions : dict := [] in
  (* Price range filter *)
  let match_conditions :=
    match min_price, max_price with
    | None, None => match_conditions
    | _, _ =>
        let price_filter : dict := [] in
        let price_filter :=
          match min_price with
          | Some p => dict_set price_filter (lit "$gte") p
          | None => price_filter
          end in
        let price_filter :=
          match max_price with
          | Some p => dict_set price_filter (lit "$lte") p
          | None => price_filter
          end in
        dict_set match_conditions (lit "property_details.listed_price")
                 (VDict price_filter)
    end in
  (* Bedrooms filter *)
  let match_conditions :=
    match bedrooms with
    | Some b => dict_set match_conditions (lit "property_details.bedrooms") (VStr b)
    | None => match_conditions
    end in
  (* Bathrooms filter *)
  let match_conditions :=
    match bathrooms with
    | Some b => dict_set match_conditions (lit "property_details.bathrooms") (VStr b)
    | None => match_conditions
    end in
  (* Property type filter *)
  let match_conditions :=
    match property_type with
    | Some t =>
        dict_set match_conditions (lit "property_details.property_type")
          (VDict [(lit "$regex", VStr (re_escape t)); (lit "$options", VStr (lit "i"))])
    | None => match_conditions
    end in
  (* Location filter *)
  let match_conditions :=
    match location_keywords with
    | Some l =>
        dict_set match_conditions (lit "property_details.address")
          (VDict [(lit "$regex", VStr (re_escape l)); (lit "$options", VStr (lit "i"))])
    | None => match_conditions
    end in
  (* MLS genuine filter *)
  let match_conditions :=
    match mls_genuine with
    | Some g => dict_set match_conditions (lit "property_details.mls_is_genuine") (VBool g)
    | None => match_conditions
    end in
  match_conditions.

(** The [$project] stage of the pipeline. *)
Definition projection : val :=
  VDict [(lit "$project", VDict
    [(lit "_id", VInt 1);
     (lit "property_url", VInt 1);
     (lit "property_details.address", VInt 1);
     (lit "property_details.listed_price", VInt 1);
     (lit "property_details.currency", VInt 1);
     (lit "property_details.bedrooms", VInt 1);
     (lit "property_details.bathrooms", VInt 1);
     (lit "property_details.property_type", VInt 1);
     (lit "property_details.mls_description", VInt 1);
     (lit "property_details.mls_number", VInt 1);
     (lit "property_details.mls_is_genuine", VInt 1);
     (lit "processing_info.images_analyzed", VInt 1);
     (lit "processing_info.status", VInt 1);
     (lit "ai_analysis_raw", VInt 1);
     (lit "search_score", VInt 1)])].

(** [build_search_pipeline] *)
Definition build_search_pipeline
    (embedding_vector : list pyfloat) (match_conditions : dict)
    (limit : Z) (vector_search_index : str) : list val :=
  let pipeline : list val :=
    [ VDict [(lit "$vectorSearch", VDict
        [(lit "index", VStr vector_search_index);
         (lit "path", VStr (lit "embedding"));
         (lit "queryVector", VList (map (@VFloat _) embedding_vector));
         (lit "numCandidates", VInt (Z.min 100 (limit * 10)));
         (lit "limit", VInt (limit * 5))])];
      VDict [(lit "$addFields", VDict
        [(lit "search_score", VDict [(lit "$meta", VStr (lit "vectorSearchScore"))])])]
    ] in
  (* Add match conditions if any *)
  let pipeline :=
    if truthy (VDict match_conditions)
    then pipeline ++ [VDict [(lit "$match", VDict match_conditions)]]
    else pipeline in
  (* Add projection for nested structure *)
  pipeline ++
    [ projection;
      VDict [(lit "$sort", VDict [(lit "search_score", VInt (-1))])];
      VDict [(lit "$limit", VInt limit)] ].

(** [v[:n]] *)
Definition py_slice_to (v : val) (n : nat) : outcome val :=
  match v with
  | VStr s => Return (VStr (slice_to n s))
  | VList l => Return (VList (slice_to n l))
  | _ => Raise (Exn "TypeError" (lit "object is not subscriptable"))
  end.

(** [v + s] for a string [s] *)
Definition py_add_str (v : val) (s : str) : outcome val :=
  match v with
  | VStr a => Return (VStr (a ++ s))
  | _ => Raise (Exn "TypeError" (lit "unsupported operand type(s) for +"))
  end.

(** The three placeholder URLs built from the record identifier. *)
Definition placeholder_urls (property_id : str) : list val :=
  [ VStr (lit "https://images.realtor.com/property/" ++ property_id ++ lit "/main.jpg");
    VStr (lit "https://images.realtor.com/property/" ++ property_id ++ lit "/interior.jpg");
    VStr (lit "https://images.realtor.com/property/" ++ property_id ++ lit "/exterior.jpg") ].

(** [v[0]] *)
Definition py_first (v : val) : outcome val :=
  match v with
  | VList (x :: _) => Return x
  | VStr (c :: _) => Return (VStr [c])
  | VList [] | VStr [] => Raise (Exn "IndexError" (lit "index out of range"))
  | VDict _ => Raise (Exn "KeyError" (lit "0"))
  | _ => Raise (Exn "TypeError" (lit "object is not subscriptable"))
  end.

(** The image list of one raw match (lines 171-184 of the source). *)
Definition derive_image_urls (result : dict) (processing_info : val)
  : outcome val :=
  let* images_analyzed := py_get processing_info (lit "images_analyzed") (VList []) in
  if truthy images_analyzed && is_list images_analyzed then
    py_slice_to images_analyzed 3                     (* Use first 3 images *)
  else
    (* Generate placeholder URLs if no images *)
    let property_id := py_str (dict_get result (lit "_id") (VStr [])) in
    Return (VList (placeholder_urls property_id)).

(** The body of the loop of [format_search_results]: one raw match. *)
Definition format_property (result : dict) : outcome val :=
  let search_score := dict_get result (lit "search_score") (VInt 0) in
  let property_details := dict_get result (lit "property_details") (VDict []) in
  let processing_info := dict_get result (lit "processing_info") (VDict []) in
  let* image_urls := derive_image_urls result processing_info in
  let property_id := py_str (dict_get result (lit "_id") (VStr [])) in
  let url := dict_get result (lit "property_url") (VStr []) in
  let* primary_image :=
    if truthy image_urls then py_first image_urls else Return (VStr []) in
  let* address := py_get property_details (lit "address") (VStr (lit "N/A")) in
  let* price := py_get property_details (lit "listed_price") (VStr (lit "N/A")) in
  let* currency := py_get property_details (lit "currency") (VStr (lit "CAD")) in
  let* bedrooms := py_get property_details (lit "bedrooms") (VStr (lit "N/A")) in
  let* bathrooms := py_get property_details (lit "bathrooms") (VStr (lit "N/A")) in
  let* property_type := py_get property_details (lit "property_type") (VStr (lit "N/A")) in
  let* mls_number := py_get property_details (lit "mls_number") (VStr (lit "N/A")) in
  let* mls_genuine := py_get property_details (lit "mls_is_genuine") (VStr (lit "N/A")) in
  let* score := py_round search_score 4 in
  let* status := py_get processing_info (lit "status") (VStr (lit "N/A")) in
  let* cond := py_get property_details (lit "mls_description") (VStr []) in
  let* description :=
    if truthy cond then
      let* d := py_get property_details (lit "mls_description") (VStr []) in
      let* d200 := py_slice_to d 200 in
      py_add_str d200 (lit "...")
    else Return (VStr []) in
  Return (VDict
    [(lit "property_id", VStr property_id);
     (lit "url", url);
     (lit "image_urls", image_urls);
     (lit "primary_image", primary_image);
     (lit "address", address);
     (lit "price", price);
     (lit "currency", currency);
     (lit "bedrooms", bedrooms);
     (lit "bathrooms", bathrooms);
     (lit "property_type", property_type);
     (lit "mls_number", mls_number);
     (lit "mls_genuine", mls_genuine);
     (lit "search_score", score);
     (lit "status", status);
     (lit "description", description)]).

(** [format_search_results] *)
Definition format_search_results (results : list dict) : outcome (list val) :=
  omap format_property results.

End Database.

(* ================================================================= *)
(** ** Effects: external services, trace, exceptions *)

(** An event loop or an RTVI processor, as an opaque handle. *)
Definition handle := nat.

Inductive level := DEBUG | INFO | WARNING | ERROR.

(** How [asyncio.wait_for(rtvi_instance.push_frame(frame), timeout)] ends. *)
Inductive push_result :=
| Pushed
| PushTimeout                                (* asyncio.TimeoutError *)
| PushRaised (e : exn).

Section Effects.
Context {R : PyRuntime}.

(** The observable calls of one run, in the order they are made. *)
Inductive event :=
| Log (lv : level) (msg : str)               (* loguru *)
| EmbeddingsCreate (input : str)             (* openai embeddings.create *)
| MongoConnect (opened : bool)               (* MongoClient(connection_string) *)
| MongoAggregate (pipeline : list val)       (* collection.aggregate *)
| MongoClose                                 (* client.close() *)
| LoopSubmit (loop : handle)                 (* asyncio.run_coroutine_threadsafe *)
| PushFrame (rtvi : handle) (data : val) (timeout : Z).

(** The world outside the program.  [clock k] is the [k]-th reading of
    [time.time()], [uuid4 k] the [k]-th [str(uuid.uuid4())]. *)
Record env := {
  OPENAI_API_KEY : option str;
  clock : nat -> pyfloat;
  uuid4 : nat -> str;
  embeddings_create : str -> outcome (list pyfloat);
  mongo_client : option exn;
  aggregate : list val -> outcome (list dict);
  run_coroutine_threadsafe : handle -> option exn;
  push_frame : handle -> val -> push_result;
  format_exc : exn -> str
}.

(** The mutable state of a run.  [debug_log] is the list object that
    [execute_hybrid_search] creates and its closure [log_debug] appends to. *)
Record state := {
  ticks : nat;
  uuids : nat;
  debug_log : list str;
  trace : list event
}.

Definition initial : state :=
  {| ticks := 0; uuids := 0; debug_log := []; trace := [] |}.

(** Computations: a state change survives the exception that ends it. *)
Definition M (A : Type) : Type := state -> outcome A * state.

Definition ret {A} (a : A) : M A := fun s => (Return a, s).

Definition bind {A B} (c : M A) (k : A -> M B) : M B :=
  fun s => match c s with
           | (Return a, s') => k a s'
           | (Raise e, s') => (Raise e, s')
           end.

Definition raise {A} (e : exn) : M A := fun s => (Raise e, s).

(** [try: c  except Exception as e: h e] *)
Definition try_catch {A} (c : M A) (h : exn -> M A) : M A :=
  fun s => match c s with
           | (Return a, s') => (Return a, s')
           | (Raise e, s') => h e s'
           end.

(** A [try] block whose handler returns from the enclosing function: the
    caller inspects the reified outcome. *)
Definition attempt {A} (c : M A) : M (outcome A) :=
  fun s => let (o, s') := c s in (Return o, s').

Definition lift {A} (o : outcome A) : M A := fun s => (o, s).

Definition emit (ev : event) : M unit :=
  fun s => (Return tt,
            {| ticks := ticks s; uuids := uuids s; debug_log := debug_log s;
               trace := trace s ++ [ev] |}).

Definition log (lv : level) (msg : str) : M unit := emit (Log lv msg).

End Effects.

Declare Scope py_scope.
Delimit Scope py_scope with py.
Notation "x <- c ;; k" := (bind c (fun x => k))
  (at level 61, c at next level, right associativity) : py_scope.
Notation "c ;; k" := (bind c (fun _ => k))
  (at level 61, right associativity) : py_scope.
Local Open Scope py_scope.

Section Program.
Context {R : PyRuntime}.
Variable E : env.

(** [time.time()] *)
Definition time_time : M pyfloat :=
  fun s => (Return (clock E (ticks s)),
            {| ticks := S (ticks s); uuids := uuids s; debug_log := debug_log s;
               trace := trace s |}).

(** [str(uuid.uuid4())] *)
Definition new_uuid : M str :=
  fun s => (Return (uuid4 E (uuids s)),
            {| ticks := ticks s; uuids := S (uuids s); debug_log := debug_log s;
               trace := trace s |}).

(* ----------------------------------------------------------------- *)
(** *** The search executor (src/database/mongo_client.py) *)

(** [self.get_client()] *)
Definition get_client : M unit :=
  match mongo_client E with
  | None => emit (MongoConnect true)
  | Some e => emit (MongoConnect false) ;; raise e
  end.

(** [list(collection.aggregate(pipeline))] *)
Definition collection_aggregate (pipeline : list val) : M (list dict) :=
  emit (MongoAggregate pipeline) ;; lift (aggregate E pipeline).

(** [client.close()] *)
Definition client_close : M unit := emit MongoClose.

(** [execute_search_query] *)
Definition execute_search_query (pipeline : list val) : M (list dict) :=
  try_catch
    (get_client ;;
     results <- collection_aggregate pipeline ;;
     client_close ;;
     ret results)
    (fun e =>
       log ERROR (lit "MongoDB search query failed: " ++ exn_str e) ;;
       raise e).

(* ----------------------------------------------------------------- *)
(** *** The notification dispatcher (src/tools/rtvi_messaging.py) *)

(** [RTVI_MESSAGE_TIMEOUT = 5.0] and [RTVI_ERROR_TIMEOUT = 3.0], in seconds
    (src/config/settings.py). *)
Definition RTVI_MESSAGE_TIMEOUT : Z := 5.
Definition RTVI_ERROR_TIMEOUT : Z := 3.

Definition warning_sign : str := [9888; 65039]%N.
Definition check_mark : str := [9989]%N.
Definition cross_mark : str := [10060]%N.
Definition rocket : str := [128640]%N.
Definition magnifier : str := [128269]%N.

(** [await asyncio.wait_for(rtvi_instance.push_frame(frame), timeout=t)] *)
Definition wait_for_push (rtvi : handle) (data : val) (t : Z) : M unit :=
  emit (PushFrame rtvi data t) ;;
  match push_frame E rtvi data with
  | Pushed => ret tt
  | PushTimeout => raise (Exn "TimeoutError" [])
  | PushRaised e => raise e
  end.

Definition is_timeout (e : exn) : bool :=
  let (cls, _) := e in String.eqb cls "TimeoutError".

(** [try: c  except asyncio.TimeoutError: h] *)
Definition try_timeout (c : M unit) (h : M unit) : M unit :=
  try_catch c (fun e => if is_timeout e then h else raise e).

(** [len(v)] *)
Definition py_len (v : val) : outcome Z :=
  match v with
  | VStr s => Return (Z.of_nat (List.length s))
  | VList l => Return (Z.of_nat (List.length l))
  | VDict d => Return (Z.of_nat (List.length d))
  | _ => Raise (Exn "TypeError" (lit "object has no len()"))
  end.

(** The items a [for] loop over [v] visits. *)
Definition py_iter (v : val) : outcome (list val) :=
  match v with
  | VStr s => Return (map (fun c => VStr [c]) s)
  | VList l => Return l
  | VDict d => Return (map (fun kv => VStr (fst kv)) d)
  | _ => Raise (Exn "TypeError" (lit "object is not iterable"))
  end.

(** One element of the [properties] list of a results message. *)
Definition property_message (prop : val) : outcome val :=
  let* id := py_item prop (lit "property_id") in
  let* url := py_item prop (lit "url") in
  let* primary := py_item prop (lit "primary_image") in
  let* all := py_item prop (lit "image_urls") in
  let* address := py_item prop (lit "address") in
  let* price := py_item prop (lit "price") in
  let* currency := py_item prop (lit "currency") in
  let* bedrooms := py_item prop (lit "bedrooms") in
  let* bathrooms := py_item prop (lit "bathrooms") in
  let* type := py_item prop (lit "property_type") in
  let* description := py_item prop (lit "description") in
  let* search_score := py_item prop (lit "search_score") in
  let* mls_genuine := py_item prop (lit "mls_genuine") in
  let* status := py_item prop (lit "status") in
  Return (VDict
    [(lit "id", id);
     (lit "url", url);
     (lit "images", VDict [(lit "primary", primary); (lit "all", all)]);
     (lit "details", VDict
        [(lit "address", address); (lit "price", price);
         (lit "currency", currency); (lit "bedrooms", bedrooms);
         (lit "bathrooms", bathrooms); (lit "type", type);
         (lit "description", description)]);
     (lit "metadata", VDict
        [(lit "search_score", search_score); (lit "mls_genuine", mls_genuine);
         (lit "status", status)])]).

(** [send_property_search_error] *)
Definition send_property_search_error
    (rtvi_instance : option handle) (search_data : dict) (text_query : str)
  : M unit :=
  try_catch
    match rtvi_instance with
    | None =>
        log WARNING (warning_sign ++ lit " RTVI processor not available for error message")
    | Some rtvi =>
        timestamp <- time_time ;;
        search_id <- new_uuid ;;
        let rtvi_message_data := VDict
          [(lit "type", VStr (lit "property_search_error"));
           (lit "timestamp", VFloat timestamp);
           (lit "search_id", VStr search_id);
           (lit "query", VStr text_query);
           (lit "error",
              dict_get search_data (lit "error") (VStr (lit "No properties found")));
           (lit "failure_point",
              dict_get search_data (lit "failure_point") (VStr (lit "unknown")))] in
        try_timeout
          (wait_for_push rtvi rtvi_message_data RTVI_ERROR_TIMEOUT ;;
           log INFO (check_mark ++ lit " RTVI error message sent"))
          (log WARNING (warning_sign ++ lit " RTVI error message send timed out"))
    end
    (fun e => log ERROR (cross_mark ++ lit " Error sending RTVI error message: " ++ exn_str e)).

(** [send_property_search_results] *)
Definition send_property_search_results
    (rtvi_instance : option handle) (search_data : dict) (text_query : str)
  : M unit :=
  try_catch
    match rtvi_instance with
    | None => log WARNING (warning_sign ++ lit " RTVI processor not available")
    | Some rtvi =>
        if truthy (dict_get search_data (lit "search_completed") VNone)
           && truthy (dict_get search_data (lit "properties") VNone)
        then
          (* Create structured message for successful search *)
          timestamp <- time_time ;;
          search_id <- new_uuid ;;
          properties <- lift (py_item (VDict search_data) (lit "properties")) ;;
          showing <- lift (py_len properties) ;;
          props <- lift (py_iter properties) ;;
          messages <- lift (omap property_message props) ;;
          let rtvi_message_data := VDict
            [(lit "type", VStr (lit "property_search_results"));
             (lit "timestamp", VFloat timestamp);
             (lit "search_id", VStr search_id);
             (lit "query", VStr text_query);
             (lit "summary", VDict
                [(lit "total_found", dict_get search_data (lit "results_found") (VInt 0));
                 (lit "showing", VInt showing);
                 (lit "execution_time",
                    dict_get search_data (lit "execution_time_seconds") (VInt 0));
                 (lit "search_type",
                    dict_get search_data (lit "search_type") (VStr (lit "hybrid")))]);
             (lit "filters_applied",
                dict_get search_data (lit "filters_applied") (VDict []));
             (lit "properties", VList messages)] in
          (* Send RTVI message with timeout *)
          try_timeout
            (wait_for_push rtvi rtvi_message_data RTVI_MESSAGE_TIMEOUT ;;
             n <- lift (py_len properties) ;;
             log INFO (check_mark ++ lit " RTVI message sent - " ++ str_of_int n
                       ++ lit " properties"))
            (log WARNING (warning_sign ++ lit " RTVI message send timed out"))
        else
          (* Send error message for failed search *)
          send_property_search_error rtvi_instance search_data text_query
    end
    (fun e => log ERROR (cross_mark ++ lit " Error sending RTVI search results: " ++ exn_str e)).

(** [asyncio.run_coroutine_threadsafe(coro, event_loop)]: the loop either
    refuses the coroutine or takes it.  The caller does not wait for the
    future, so in the program the coroutine runs on the thread of the loop,
    at some time after the submission.  The trace puts the events of the
    coroutine right after the event of the submission: it is the record of
    the call together with what the loop does with the coroutine, and does
    not say that a frame is pushed by the time the call returns.  What is
    sent is therefore stated on the coroutines; of a scheduling call only
    that it returns, and bounds on its events. *)
Definition submit (event_loop : handle) (coro : M unit) : M unit :=
  match run_coroutine_threadsafe E event_loop with
  | Some e => raise e
  | None => emit (LoopSubmit event_loop) ;; _ <- attempt coro ;; ret tt
  end.

(** [schedule_rtvi_message] *)
Definition schedule_rtvi_message
    (event_loop rtvi_instance : option handle) (search_data : dict)
    (text_query : str) : M unit :=
  match event_loop, rtvi_instance with
  | Some loop, Some _ =>
      try_catch
        (submit loop (send_property_search_results rtvi_instance search_data text_query) ;;
         log INFO (rocket ++ lit " RTVI message scheduled"))
        (fun e => log ERROR (cross_mark ++ lit " Error scheduling RTVI message: " ++ exn_str e))
  | _, _ => log WARNING (warning_sign ++ lit " Event loop or RTVI instance not available")
  end.

End Program.

(* ================================================================= *)
(** ** The orchestrator (src/tools/property_search.py) *)

Section Orchestrator.
Context {R : PyRuntime}.
Variable E : env.

(** [_generate_embedding] *)
Definition _generate_embedding (text : str) : M (list pyfloat) :=
  if negb (match OPENAI_API_KEY E with Some k => truthy (VStr k) | None => false end)
  then raise (Exn "ValueError" (lit "OPENAI_API_KEY not found"))
  else emit (EmbeddingsCreate text) ;; lift (embeddings_create E text).

(** [_create_error_result].  [debug_log] is the list as it stands when the
    dictionary is built; no entry is appended afterwards. *)
Definition _create_error_result
    (error_msg : str) (debug_log : list str) (failure_point : str)
    (text_query : str) (full_traceback : option str) : dict :=
  let error_result : dict :=
    [(lit "error", VStr error_msg);
     (lit "debug_log", VList (map (@VStr _) debug_log));
     (lit "failure_point", VStr failure_point);
     (lit "query", VStr text_query)] in
  match full_traceback with
  | Some tb =>
      if truthy (VStr tb)
      then dict_set error_result (lit "full_traceback") (VStr tb)
      else error_result
  | None => error_result
  end.

(** [_schedule_error_message] *)
Definition _schedule_error_message
    (event_loop rtvi_instance : option handle) (error_result : dict)
    (text_query : str) : M unit :=
  match event_loop, rtvi_instance with
  | Some _, Some _ =>
      try_catch
        (schedule_rtvi_message E event_loop rtvi_instance error_result text_query)
        (fun e => log ERROR (cross_mark ++ lit " Error scheduling RTVI error: " ++ exn_str e))
  | _, _ => ret tt
  end.

(** [debug_log = []] *)
Definition new_debug_log : M unit :=
  fun s => (Return tt,
            {| ticks := ticks s; uuids := uuids s; debug_log := [];
               trace := trace s |}).

Definition append_debug_log (entry : str) : M unit :=
  fun s => (Return tt,
            {| ticks := ticks s; uuids := uuids s;
               debug_log := debug_log s ++ [entry]; trace := trace s |}).

Definition read_debug_log : M (list str) :=
  fun s => (Return (debug_log s), s).

(** The closure [log_debug] of [execute_hybrid_search]. *)
Definition log_debug (start_time : pyfloat) (message : str) (data : option val)
  : M unit :=
  now <- time_time E ;;
  let timestamp := float_sub now start_time in
  let log_entry := lit "[" ++ float_fmt2 timestamp ++ lit "s] " ++ message in
  let log_entry :=
    match data with
    | Some d => log_entry ++ lit " | Data: " ++ slice_to 200 (py_str d) ++ lit "..."
    | None => log_entry
    end in
  append_debug_log log_entry ;;
  log DEBUG (magnifier ++ lit " SEARCH: " ++ log_entry).

Definition opt_val (o : option val) : val :=
  match o with Some v => v | None => VNone end.
Definition opt_str (o : option str) : val :=
  match o with Some s => VStr s | None => VNone end.
Definition opt_bool (o : option bool) : val :=
  match o with Some b => VBool b | None => VNone end.

(** [execute_hybrid_search] *)
Definition execute_hybrid_search
    (text_query : str)
    (min_price max_price : option val)
    (bedrooms bathrooms property_type location_keywords : option str)
    (mls_genuine : option bool)
    (limit : Z) (vector_search_index : str)
    (event_loop rtvi_instance : option handle) : M dict :=
  new_debug_log ;;
  start_time <- time_time E ;;
  log_debug start_time (lit "=== HYBRID SEARCH DEBUG SESSION STARTED ===") None ;;
  try_catch
    ((* ====== STEP 1: VALIDATE INPUT ====== *)
     if negb (truthy (VStr text_query)) || negb (truthy (VStr (strip text_query)))
     then
       debug_log <- read_debug_log ;;
       let error_result :=
         _create_error_result (lit "Text query is empty or None") debug_log
           (lit "input_validation") text_query None in
       _schedule_error_message event_loop rtvi_instance error_result text_query ;;
       ret error_result
     else
     (* ====== STEP 2: GENERATE EMBEDDING ====== *)
     step2 <- attempt
       (embedding_vector <- _generate_embedding (strip text_query) ;;
        log_debug start_time
          (check_mark ++ lit " Embedding generated. Dimensions: "
           ++ str_of_int (Z.of_nat (List.length embedding_vector))) None ;;
        ret embedding_vector) ;;
     match step2 with
     | Raise openai_error =>
         debug_log <- read_debug_log ;;
         let error_result :=
           _create_error_result (lit "OpenAI API error: " ++ exn_str openai_error)
             debug_log (lit "openai_api_call") text_query None in
         _schedule_error_message event_loop rtvi_instance error_result text_query ;;
         ret error_result
     | Return embedding_vector =>
     (* ====== STEP 3: DATABASE SEARCH ====== *)
     step3 <- attempt
       ((* Build filters *)
        let match_conditions :=
          build_match_conditions min_price max_price bedrooms bathrooms
            property_type location_keywords mls_genuine in
        log_debug start_time
          (lit "Match conditions: " ++ py_str (VDict match_conditions)) None ;;
        (* Build and execute search pipeline *)
        let pipeline :=
          build_search_pipeline embedding_vector match_conditions limit
            vector_search_index in
        log_debug start_time
          (lit "Pipeline stages: " ++ str_of_int (Z.of_nat (List.length pipeline)))
          None ;;
        results <- execute_search_query E pipeline ;;
        log_debug start_time
          (lit "Found " ++ str_of_int (Z.of_nat (List.length results)) ++ lit " results")
          None ;;
        ret results) ;;
     match step3 with
     | Raise mongo_error =>
         debug_log <- read_debug_log ;;
         let error_result :=
           _create_error_result (lit "MongoDB error: " ++ exn_str mongo_error)
             debug_log (lit "mongodb_operation") text_query None in
         _schedule_error_message event_loop rtvi_instance error_result text_query ;;
         ret error_result
     | Return results =>
     (* ====== STEP 4: FORMAT RESULTS ====== *)
     formatted_results <- lift (format_search_results results) ;;
     similarity_scores <-
       lift (omap (fun prop => py_item prop (lit "search_score")) formatted_results) ;;
     now <- time_time E ;;
     let total_time := float_sub now start_time in
     log_debug start_time
       (lit "=== HYBRID SEARCH COMPLETED SUCCESSFULLY in " ++ float_fmt2 total_time
        ++ lit "s ===") None ;;
     debug_log <- read_debug_log ;;
     let search_result : dict :=
       [(lit "search_completed", VBool true);
        (lit "search_type", VStr (lit "hybrid_vector_traditional"));
        (lit "query", VStr text_query);
        (lit "embedding_dimensions", VInt (Z.of_nat (List.length embedding_vector)));
        (lit "filters_applied", VDict
           [(lit "min_price", opt_val min_price);
            (lit "max_price", opt_val max_price);
            (lit "bedrooms", opt_str bedrooms);
            (lit "bathrooms", opt_str bathrooms);
            (lit "property_type", opt_str property_type);
            (lit "location_keywords", opt_str location_keywords);
            (lit "mls_genuine", opt_bool mls_genuine)]);
        (lit "results_found", VInt (Z.of_nat (List.length results)));
        (lit "top_similarity_scores", VList similarity_scores);
        (lit "properties", VList formatted_results);
        (lit "search_method", VStr (lit "MongoDB vector search + traditional filters"));
        (lit "execution_time_seconds", VFloat (float_round 2 total_time));
        (lit "debug_log", VList (map (@VStr _) debug_log));
        (lit "note", VStr (lit
           "Hybrid search combining semantic similarity with structured filters"))] in
     (* Send RTVI message *)
     schedule_rtvi_message E event_loop rtvi_instance search_result text_query ;;
     ret search_result
     end end)
    (fun e =>
       debug_log <- read_debug_log ;;
       let error_result :=
         _create_error_result
           (lit "Unexpected error in hybrid search: " ++ exn_str e)
           debug_log (lit "unexpected_error") text_query (Some (format_exc E e)) in
       _schedule_error_message event_loop rtvi_instance error_result text_query ;;
       ret error_result).

End Orchestrator.

(* ================================================================= *)
(** ** A runtime for evaluation

    Floats restricted to integral values (exact for Python floats below
    2^53), with the text Python prints for them; container text without the
    escapes of unprintable characters. *)

Module IntegralRuntime.

Fixpoint join (sep : str) (l : list str) : str :=
  match l with
  | [] => []
  | [a] => a
  | a :: l' => a ++ sep ++ join sep l'
  end.

Definition repr_char (q c : N) : str :=
  if (c =? q)%N || (c =? 92)%N then [92; c]%N
  else if (c =? 10)%N then lit "\n"
  else if (c =? 13)%N then lit "\r"
  else if (c =? 9)%N then lit "\t"
  else [c].

(** [repr(s)] of a string of printable characters. *)
Definition repr_str (s : str) : str :=
  let q := if existsb (N.eqb 39) s && negb (existsb (N.eqb 34) s)
           then 34%N else 39%N in
  q :: flat_map (repr_char q) s ++ [q].

Fixpoint repr (v : value Z) : str :=
  match v with
  | VNone => lit "None"
  | VBool true => lit "True"
  | VBool false => lit "False"
  | VInt z => str_of_int z
  | VFloat x => str_of_int x ++ lit ".0"
  | VStr s => repr_str s
  | VOid h => lit "ObjectId('" ++ h ++ lit "')"
  | VList l => lit "[" ++ join (lit ", ") (map repr l) ++ lit "]"
  | VDict d =>
      lit "{" ++
      join (lit ", ")
        (map (fun kv => match kv with
                        | (k, x) => repr_str k ++ lit ": " ++ repr x
                        end) d)
      ++ lit "}"
  end.

#[export] Instance runtime : PyRuntime := {
  pyfloat := Z;
  float_sub := Z.sub;
  float_round := fun _ x => x;
  float_fmt2 := fun x => str_of_int x ++ lit ".00";
  float_str := fun x => str_of_int x ++ lit ".0";
  float_bool := fun x => negb (x =? 0);
  container_str := repr
}.

(** A world in which the clock advances by one second per reading, the
    event loop accepts every coroutine and the session every frame; the
    embedding service answers [embedding] and the store answers [matches]. *)
Definition world (embedding : outcome (list Z))
    (matches : outcome (list (list (str * value Z)))) : env :=
  {| OPENAI_API_KEY := Some (lit "sk-test");
     clock := fun k => Z.of_nat k;
     uuid4 := fun k => lit "uuid-" ++ str_of_int (Z.of_nat k);
     embeddings_create := fun _ => embedding;
     mongo_client := None;
     aggregate := fun _ => matches;
     run_coroutine_threadsafe := fun _ => None;
     push_frame := fun _ _ => Pushed;
     format_exc := fun e => lit "Traceback (most recent call last): " ++ exn_str e |}.

End IntegralRuntime.

(* ================================================================= *)
(** ** Observations used in the statements *)

Section Observations.
Context {R : PyRuntime}.

Definition is_embedding_call (ev : event) : bool :=
  match ev with EmbeddingsCreate _ => true | _ => false end.

Definition is_store_call (ev : event) : bool :=
  match ev with
  | MongoConnect _ | MongoAggregate _ | MongoClose => true
  | _ => false
  end.

Definition is_open (ev : event) : bool :=
  match ev with MongoConnect true => true | _ => false end.

Definition is_close (ev : event) : bool :=
  match ev with MongoClose => true | _ => false end.

(** Number of requests sent to the embedding service. *)
Definition embedding_calls (t : list event) : nat :=
  List.length (filter is_embedding_call t).

(** Number of operations attempted on the document store. *)
Definition store_calls (t : list event) : nat :=
  List.length (filter is_store_call t).

(** Connections opened and not yet closed. *)
Definition open_connections (t : list event) : Z :=
  Z.of_nat (List.length (filter is_open t))
  - Z.of_nat (List.length (filter is_close t)).

(** The envelopes handed to the session, oldest first. *)
Definition pushed_frames (t : list event) : list val :=
  flat_map (fun ev => match ev with PushFrame _ d _ => [d] | _ => [] end) t.

(** The kind of an envelope. *)
Definition envelope_kind (data : val) : option str :=
  match data with
  | VDict d => match lookup (lit "type") d with
               | Some (VStr k) => Some k
               | _ => None
               end
  | _ => None
  end.

(** The stage tag of an outcome. *)
Definition failure_stage (r : dict) : option str :=
  match lookup (lit "failure_point") r with
  | Some (VStr stage) => Some stage
  | _ => None
  end.

(** The [Failure] variant: an error message and a stage tag, and no
    completion flag. *)
Definition is_failure (r : dict) : Prop :=
  (exists msg, lookup (lit "error") r = Some (VStr msg))
  /\ (exists stage, lookup (lit "failure_point") r = Some (VStr stage))
  /\ lookup (lit "search_completed") r = None.

(** The [Success] variant: the completion flag, and neither an error message
    nor a stage tag. *)
Definition is_success (r : dict) : Prop :=
  lookup (lit "search_completed") r = Some (VBool true)
  /\ lookup (lit "error") r = None
  /\ lookup (lit "failure_point") r = None.

(** A query text that is empty or made of blanks only. *)
Definition whitespace_only (q : str) : bool := forallb isspace q.

(** The analysed images a raw match carries. *)
Definition analyzed_images (result : dict) : list val :=
  match dict_get result (lit "processing_info") (VDict []) with
  | VDict info =>
      match dict_get info (lit "images_analyzed") (VList []) with
      | VList l => l
      | _ => []
      end
  | _ => []
  end.

(** The record identifier as the formatter prints it. *)
Definition record_id (result : dict) : str :=
  py_str (dict_get result (lit "_id") (VStr [])).

(** The description a raw match carries, when its details are a document. *)
Definition source_description (result : dict) : option val :=
  match dict_get result (lit "property_details") (VDict []) with
  | VDict details => lookup (lit "mls_description") details
  | _ => None
  end.

(** The outcome of the embedding call for a text; it does not depend on
    the state in which the call is made. *)
Definition embedding_generation (E : env) (text : str) : outcome (list pyfloat) :=
  fst (_generate_embedding E text initial).

(** The outcome of the store operation for a pipeline. *)
Definition store_operation (E : env) (pipeline : list val) : outcome (list dict) :=
  fst (execute_search_query E pipeline initial).

(** A step of the run made no request to the embedding service and no
    operation on the store. *)
Definition quiet (s s' : state) : Prop :=
  embedding_calls (trace s') = embedding_calls (trace s)
  /\ store_calls (trace s') = store_calls (trace s).

(** A computation that makes no such call, whether it returns or raises. *)
Definition quietly {A} (c : M A) : Prop :=
  forall s, quiet s (snd (c s)).

(** A computation that makes no such call and always returns. *)
Definition safe {A} (c : M A) : Prop :=
  forall s, exists a s', c s = (Return a, s') /\ quiet s s'.

End Observations.

(* ================================================================= *)
(** ** Sample data *)

Module Samples.
Import IntegralRuntime.

(** A listing with four analysed images and a short description. *)
Definition bungalow : dict :=
  [(lit "_id", VOid (lit "65a1f0c2"));
   (lit "property_url", VStr (lit "https://example.com/listing/1"));
   (lit "search_score", VFloat 1);
   (lit "property_details", VDict
      [(lit "address", VStr (lit "12 King St, Toronto"));
       (lit "listed_price", VInt 450000);
       (lit "bedrooms", VStr (lit "3"));
       (lit "mls_description", VStr (lit "Cozy bungalow"))]);
   (lit "processing_info", VDict
      [(lit "images_analyzed", VList
          [VStr (lit "a.jpg"); VStr (lit "b.jpg"); VStr (lit "c.jpg");
           VStr (lit "d.jpg")]);
       (lit "status", VStr (lit "completed"))])].

(** A listing that carries an identifier and nothing else. *)
Definition bare : dict := [(lit "_id", VOid (lit "65a1f0c3"))].

(** A listing whose description has 250 characters. *)
Definition verbose : dict :=
  [(lit "_id", VOid (lit "65a1f0c4"));
   (lit "property_details", VDict
      [(lit "mls_description", VStr (repeat 120%N 250))])].

(** A failing store. *)
Definition store_down : exn := Exn "OperationFailure" (lit "connection refused").

(** A failing embedding service. *)
Definition embedding_down : exn := Exn "APIConnectionError" (lit "Connection error.").

(** A listing whose details are a string instead of a document. *)
Definition malformed : dict :=
  [(lit "_id", VOid (lit "65a1f0c5"));
   (lit "property_details", VStr (lit "n/a"))].

(** The call of the scenarios: a query, no filter, the default limit and
    index, a live event loop and session. *)
Definition search (E : env) (text_query : str) : M dict :=
  execute_hybrid_search E text_query None None None None None None None
    10 (lit "vector_index") (Some 1%nat) (Some 2%nat).

End Samples.

(* ================================================================= *)
(** ** Further readings of filters, pipelines, matches and traces *)

Section Readings.
Context {R : PyRuntime}.

(** 1 for an argument that is given, 0 for [None]. *)
Definition given {A} (o : option A) : nat :=
  match o with Some _ => 1 | None => 0 end.

(** 1 when at least one price bound is given. *)
Definition given_price (min_price max_price : option val) : nat :=
  match min_price, max_price with None, None => 0 | _, _ => 1 end.

(** The range predicate the two price bounds give. *)
Definition price_range (min_price max_price : option val) : option val :=
  match min_price, max_price with
  | None, None => None
  | Some lo, None => Some (VDict [(lit "$gte", lo)])
  | None, Some hi => Some (VDict [(lit "$lte", hi)])
  | Some lo, Some hi => Some (VDict [(lit "$gte", lo); (lit "$lte", hi)])
  end.

(** The case-insensitive predicate on a pattern. *)
Definition regex_i (pattern : str) : val :=
  VDict [(lit "$regex", VStr pattern); (lit "$options", VStr (lit "i"))].

(** Keys without repetition. *)
Fixpoint distinct (l : list str) : bool :=
  match l with
  | [] => true
  | k :: l' => negb (existsb (str_eqb k) l') && distinct l'
  end.

(** The operator of a stage: the one key of its document. *)
Definition stage_name (stage : val) : option str :=
  match stage with
  | VDict [(operator, _)] => Some operator
  | _ => None
  end.

(** The body of the first stage of a pipeline that has the operator
    [stage]. *)
Fixpoint stage_body (stage : str) (pipeline : list val) : option val :=
  match pipeline with
  | [] => None
  | VDict d :: rest =>
      match lookup stage d with
      | Some body => Some body
      | None => stage_body stage rest
      end
  | _ :: rest => stage_body stage rest
  end.

(** A parameter of that stage. *)
Definition stage_param (stage key : str) (pipeline : list val) : option val :=
  match stage_body stage pipeline with
  | Some (VDict d) => lookup key d
  | _ => None
  end.

Definition is_dict (v : val) : bool :=
  match v with VDict _ => true | _ => false end.

Definition is_str (v : val) : bool :=
  match v with VStr _ => true | _ => false end.

(** The values [round] accepts. *)
Definition is_number (v : val) : bool :=
  match v with VInt _ | VBool _ | VFloat _ => true | _ => false end.

(** A raw match the formatter can read: its details and its processing
    information are documents (or absent), its score is a number (or
    absent), and its description is a string or a false value. *)
Definition readable (result : dict) : bool :=
  match dict_get result (lit "property_details") (VDict []) with
  | VDict details =>
      is_dict (dict_get result (lit "processing_info") (VDict []))
      && is_number (dict_get result (lit "search_score") (VInt 0))
      && (let d := dict_get details (lit "mls_description") (VStr []) in
          negb (truthy d) || is_str d)
  | _ => false
  end.

Definition count_ev (P : event -> bool) (t : list event) : nat :=
  List.length (filter P t).

Definition is_connect (ev : event) : bool :=
  match ev with MongoConnect _ => true | _ => false end.

Definition is_aggregate (ev : event) : bool :=
  match ev with MongoAggregate _ => true | _ => false end.

Definition is_submit (ev : event) : bool :=
  match ev with LoopSubmit _ => true | _ => false end.

Definition is_push (ev : event) : bool :=
  match ev with PushFrame _ _ _ => true | _ => false end.

(** A computation that adds no event of the kind [P], whether it returns
    or raises. *)
Definition keeps {A} (P : event -> bool) (c : M A) : Prop :=
  forall s, count_ev P (trace (snd (c s))) = count_ev P (trace s).

(** A computation that adds at most [n] events of the kind [P]. *)
Definition grows {A} (P : event -> bool) (n : nat) (c : M A) : Prop :=
  forall s, (count_ev P (trace (snd (c s))) <= count_ev P (trace s) + n)%nat.

(** The events of the dispatcher: logs, submissions and frames. *)
Definition is_notification (ev : event) : bool :=
  match ev with
  | Log _ _ | LoopSubmit _ | PushFrame _ _ _ => true
  | _ => false
  end.

(** The calls to the embedding service and to the store. *)
Definition is_service_call (ev : event) : bool :=
  is_embedding_call ev || is_store_call ev.

(** A computation that only appends to the trace, and only events of the
    kind [P]. *)
Definition adds_only {A} (P : event -> bool) (c : M A) : Prop :=
  forall s, exists evs,
    trace (snd (c s)) = trace s ++ evs /\ forallb P evs = true.

(** 1 when a notification can be scheduled: both handles are there and the
    event loop accepts the coroutine. *)
Definition schedulable (E : env) (event_loop rtvi_instance : option handle) : nat :=
  match event_loop, rtvi_instance with
  | Some loop, Some _ =>
      match run_coroutine_threadsafe E loop with
      | None => 1
      | Some _ => 0
      end
  | _, _ => 0
  end.

End Readings.

(* ================================================================= *)
(** ** The connection test (src/database/mongo_client.py) *)

Section ConnectionTest.
Context {R : PyRuntime}.
Variable E : env.

(** [client.admin.command("ping")]: the answer of the server is the
    parameter [ping], [None] when the command succeeds. *)
Definition admin_ping (ping : option exn) : M unit :=
  match ping with
  | None => ret tt
  | Some e => raise e
  end.

(** [test_connection] *)
Definition test_connection (ping : option exn) : M bool :=
  try_catch
    (get_client E ;;
     admin_ping ping ;;
     client_close ;;
     ret true)
    (fun e =>
       log ERROR (lit "MongoDB connection test failed: " ++ exn_str e) ;;
       ret false).

End ConnectionTest.

(* ================================================================= *)
(** ** More sample data *)

Module MoreSamples.
Import IntegralRuntime Samples.

(** The formatted record of the sample listing. *)
Definition bungalow_record : value Z :=
  Eval vm_compute in
    match format_property bungalow with
    | Return p => p
    | Raise _ => VNone
    end.

(** A completed outcome that carries this record. *)
Definition one_result : dict :=
  [(lit "search_completed", VBool true);
   (lit "search_type", VStr (lit "hybrid_vector_traditional"));
   (lit "results_found", VInt 1);
   (lit "properties", VList [bungalow_record])].

(** A completed outcome whose only property has no field but an
    identifier. *)
Definition broken_result : dict :=
  [(lit "search_completed", VBool true);
   (lit "results_found", VInt 1);
   (lit "properties", VList [VDict [(lit "property_id", VStr (lit "65a1f0c2"))]])].

(** The outcome of a failed store operation. *)
Definition store_failure : dict :=
  [(lit "error", VStr (lit "MongoDB error: connection refused"));
   (lit "debug_log", VList []);
   (lit "failure_point", VStr (lit "mongodb_operation"));
   (lit "query", VStr (lit "house"))].

(** A world whose API key for the embedding service is the empty
    string. *)
Definition world_with_empty_key : env :=
  {| OPENAI_API_KEY := Some [];
     clock := fun k => Z.of_nat k;
     uuid4 := fun k => lit "uuid-" ++ str_of_int (Z.of_nat k);
     embeddings_create := fun _ => Return [1; 2; 3];
     mongo_client := None;
     aggregate := fun _ => Return [];
     run_coroutine_threadsafe := fun _ => None;
     push_frame := fun _ _ => Pushed;
     format_exc := fun e => exn_str e |}.

(** The exception of a closed event loop. *)
Definition loop_closed : exn := Exn "RuntimeError" (lit "Event loop is closed").

(** A world whose event loop refuses every coroutine. *)
Definition world_with_closed_loop : env :=
  {| OPENAI_API_KEY := Some (lit "sk-test");
     clock := fun k => Z.of_nat k;
     uuid4 := fun k => lit "uuid-" ++ str_of_int (Z.of_nat k);
     embeddings_create := fun _ => Return [1; 2; 3];
     mongo_client := None;
     aggregate := fun _ => Return [];
     run_coroutine_threadsafe := fun _ => Some loop_closed;
     push_frame := fun _ _ => Pushed;
     format_exc := fun e => exn_str e |}.

End MoreSamples.

(* ================================================================= *)
(** ** State and exceptions for the session handler and the web
       application *)

(** The outcome of a computation that may raise an exception of the
    type [X]. *)
Inductive result (X A : Type) : Type :=
| Ok (a : A)
| Err (x : X).
Arguments Ok {X A} a.
Arguments Err {X A} x.

Section StateExceptions.
Variables S X : Type.

(** Computations on a state of the type [S]; as for [M], a state change
    survives the exception that ends it. *)
Definition ST (A : Type) : Type := S -> result X A * S.

Definition st_ret {A} (a : A) : ST A := fun s => (Ok a, s).

Definition st_bind {A B} (c : ST A) (k : A -> ST B) : ST B :=
  fun s => match c s with
           | (Ok a, s') => k a s'
           | (Err x, s') => (Err x, s')
           end.

Definition st_raise {A} (x : X) : ST A := fun s => (Err x, s).

(** [try: c  except Exception as e: h e] *)
Definition st_try {A} (c : ST A) (h : X -> ST A) : ST A :=
  fun s => match c s with
           | (Ok a, s') => (Ok a, s')
           | (Err x, s') => h x s'
           end.

Definition st_get : ST S := fun s => (Ok s, s).

Definition st_put (s' : S) : ST unit := fun _ => (Ok tt, s').

End StateExceptions.

Arguments st_ret {S X A} a.
Arguments st_bind {S X A B} c k.
Arguments st_raise {S X A} x.
Arguments st_try {S X A} c h.
Arguments st_get {S X}.
Arguments st_put {S X} s'.

Declare Scope st_scope.
Delimit Scope st_scope with st.
Notation "x <- c ;; k" := (st_bind c (fun x => k))
  (at level 61, c at next level, right associativity) : st_scope.
Notation "c ;; k" := (st_bind c (fun _ => k))
  (at level 61, right associativity) : st_scope.

(* ================================================================= *)
(** ** The search handler of a session (src/bot.py) *)

Module Bot.
Section Handler.
Context {R : PyRuntime}.
Local Open Scope st_scope.

(** The tools of the agent are function objects: a registered tool with
    its [__name__], or the closure [execute_search_with_context] that one
    call of the handler creates around the event loop it runs on.  [ident]
    is the identity of the object. *)
Inductive tool :=
| Registered (name : str) (ident : nat)
| WithContext (ident : nat) (loop : handle).

(** [tool.__name__] *)
Definition tool_name (t : tool) : str :=
  match t with
  | Registered name _ => name
  | WithContext _ _ => lit "execute_search_with_context"
  end.

Definition tool_ident (t : tool) : nat :=
  match t with
  | Registered _ ident => ident
  | WithContext ident _ => ident
  end.

(** [a == b] for function objects: the same object. *)
Definition same_tool (a b : tool) : bool := Nat.eqb (tool_ident a) (tool_ident b).

Inductive bot_event :=
| BotLog (lv : level) (msg : str)
| AgentCall (tools : list tool) (query : str)     (* self.strands_agent(query) *)
| ResultCallback (message : val).                 (* params.result_callback *)

(** The bot: the tool list of its agent, the counter of the objects
    created so far, and what it did. *)
Record bot := {
  tools : list tool;
  objects : nat;
  events : list bot_event
}.

(** The world of the handler: the running event loop, the agent (what it
    answers or raises for a tool list and a query; it leaves the list as it
    is), the callback of the LLM service and the traceback text. *)
Record bot_env := {
  get_event_loop : handle;
  agent : list tool -> str -> outcome val;
  result_callback : val -> option exn;
  bot_format_exc : exn -> str
}.

Variable B : bot_env.

Definition record (ev : bot_event) : ST bot exn unit :=
  fun b => (Ok tt,
            {| tools := tools b; objects := objects b;
               events := events b ++ [ev] |}).

(** [def execute_search_with_context(...)]: a new function object. *)
Definition new_context_tool (loop : handle) : ST bot exn tool :=
  fun b => (Ok (WithContext (objects b) loop),
            {| tools := tools b; objects := S (objects b);
               events := events b |}).

(** The loop
    [for i, tool_func in enumerate(tools): if p(tool_func): tools[i] = new; break],
    with the tool it replaced. *)
Fixpoint replace_first (p : tool -> bool) (new : tool) (l : list tool)
  : option tool * list tool :=
  match l with
  | [] => (None, [])
  | t :: l' =>
      if p t then (Some t, new :: l')
      else let (found, l'') := replace_first p new l' in (found, t :: l'')
  end.

Definition is_search_tool (t : tool) : bool :=
  str_eqb (tool_name t) (lit "execute_hybrid_search").

(** The first loop of the handler, on [self.strands_agent.tools]. *)
Definition install (wrapper : tool) : ST bot exn (option tool) :=
  fun b => let (original, l) := replace_first is_search_tool wrapper (tools b) in
           (Ok original,
            {| tools := l; objects := objects b; events := events b |}).

(** The second loop of the handler. *)
Definition restore (wrapper original : tool) : ST bot exn unit :=
  fun b => (Ok tt,
            {| tools := snd (replace_first (fun t => same_tool t wrapper)
                               original (tools b));
               objects := objects b; events := events b |}).

(** [await loop.run_in_executor(None, self.strands_agent, query)] and
    [result.message] *)
Definition run_agent (query : str) : ST bot exn val :=
  fun b => match agent B (tools b) query with
           | Return message =>
               (Ok message,
                {| tools := tools b; objects := objects b;
                   events := events b ++ [AgentCall (tools b) query] |})
           | Raise e =>
               (Err e,
                {| tools := tools b; objects := objects b;
                   events := events b ++ [AgentCall (tools b) query] |})
           end.

(** [await params.result_callback(message)] *)
Definition call_back (message : val) : ST bot exn unit :=
  record (ResultCallback message) ;;
  match result_callback B message with
  | None => st_ret tt
  | Some e => st_raise e
  end.

Definition apology : str :=
  lit "I encountered an issue while searching for properties. "
  ++ lit "Please try rephrasing your request or try again in a moment.".

Definition speaker : str := [128266]%N.

(** [handle_property_search_queries] *)
Definition handle_property_search_queries (query : str) : ST bot exn unit :=
  record (BotLog INFO
            (magnifier ++ lit " Handling property search query: '" ++ query
             ++ lit "'")) ;;
  st_try
    ((* Get current event loop and RTVI instance *)
     let loop := get_event_loop B in
     (* Create a context-aware search tool *)
     execute_search_with_context <- new_context_tool loop ;;
     (* Temporarily replace the tool in Strands agent with context *)
     original_tool <- install execute_search_with_context ;;
     (* Execute search and summarization via Strands agent *)
     message <- run_agent query ;;
     (* Restore original tool *)
     match original_tool with
     | Some original => restore execute_search_with_context original
     | None => st_ret tt
     end ;;
     record (BotLog INFO
               (check_mark ++ lit " Property search completed successfully")) ;;
     (* Return the conversational response to the LLM *)
     call_back message ;;
     record (BotLog INFO (speaker ++ lit " Search results sent to TTS pipeline")))
    (fun e =>
       record (BotLog ERROR
                 (cross_mark ++ lit " Error in property search handler: "
                  ++ exn_str e)) ;;
       record (BotLog ERROR (lit "Traceback: " ++ bot_format_exc B e)) ;;
       (* Send user-friendly error response *)
       call_back (VStr apology)).

(** The messages handed to the callback, oldest first. *)
Definition callbacks (l : list bot_event) : list val :=
  flat_map (fun ev => match ev with ResultCallback m => [m] | _ => [] end) l.

(** The tool lists the agent ran on, oldest first. *)
Definition agent_calls (l : list bot_event) : list (list tool) :=
  flat_map (fun ev => match ev with AgentCall t _ => [t] | _ => [] end) l.

(** Every object of the list was created before the counter. *)
Definition known (b : bot) : Prop :=
  Forall (fun t => tool_ident t < objects b)%nat (tools b).

End Handler.
End Bot.

Module BotSamples.
Import IntegralRuntime Bot.

(** A bot as [_initialize_strands_agent] leaves it: one tool, the search
    tool. *)
Definition new_bot : bot :=
  {| tools := [Registered (lit "execute_hybrid_search") 0];
     objects := 1;
     events := [] |}.

(** A bot whose agent has a second tool in front of the search tool. *)
Definition bot_with_two_tools : bot :=
  {| tools := [Registered (lit "get_weather") 0;
               Registered (lit "execute_hybrid_search") 1];
     objects := 2;
     events := [] |}.

(** A bot after a failed search: the wrapper of that call is its only
    tool. *)
Definition bot_after_failure : bot :=
  {| tools := [WithContext 1 7%nat];
     objects := 2;
     events := [] |}.

Definition summary : value Z := VStr (lit "I found 2 homes in Toronto.").

(** An agent that answers, and a callback that accepts. *)
Definition answering : bot_env :=
  {| get_event_loop := 7%nat;
     agent := fun _ _ => Return summary;
     result_callback := fun _ => None;
     bot_format_exc := fun e => exn_str e |}.

(** An agent whose model call fails. *)
Definition failing : bot_env :=
  {| get_event_loop := 7%nat;
     agent := fun _ _ => Raise (Exn "RuntimeError" (lit "model unavailable"));
     result_callback := fun _ => None;
     bot_format_exc := fun e => exn_str e |}.

End BotSamples.

(* ================================================================= *)
(** ** The web server (app.py) *)

Module App.
Section Server.
Local Open Scope st_scope.

(** What a finished function call returned. *)
Context {payload : Type}.

(** The exceptions of the server: FastAPI's [HTTPException], or any other
    exception. *)
Inductive app_exn :=
| HTTPException (status_code : Z) (detail : str)
| Other (e : exn).

(** A value of [bot_jobs]: a [FunctionCall] object, or a value that is
    false. *)
Definition job := option nat.

Inductive app_event :=
| Printed (msg : str)
| CreateRoom                              (* daily_helpers["rest"].create_room *)
| GetToken (room_url : str)               (* daily_helpers["rest"].get_token *)
| Spawn (room_url token : str)            (* Function.from_name(..).spawn *)
| Cancel (function_call : nat)            (* function_call.cancel() *)
| FromId (fid : str)                      (* modal.FunctionCall.from_id *)
| GetOutput (function_call : nat).        (* func.get(timeout=0) *)

(** The globals of the module and what the server did: [bot_jobs] in
    insertion order, whether [daily_helpers] has the key "rest" (the
    lifespan manager puts it there at startup), and the events. *)
Record server := {
  bot_jobs : list (str * job);
  daily_helpers : bool;
  out : list app_event
}.

(** How [func.get(timeout=0)] ends, by the clause of [get_status] that
    takes it. *)
Inductive get_outcome :=
| Got (result : payload)
| OutputExpiredError
| TimeoutError
| GetRaised (e : exn).

(** The world of the server.  The services answer by what happened
    before.  [http_str] is [str] of an [HTTPException], [services_str] is
    [str] of the services dictionary. *)
Record app_env := {
  DAILY_SAMPLE_ROOM_URL : option str;
  DAILY_SAMPLE_ROOM_TOKEN : option str;
  create_room : list app_event -> outcome (option str);        (* room.url *)
  get_token : list app_event -> str -> outcome (option str);
  spawn : list app_event -> str -> str -> outcome job;
  cancel : list app_event -> nat -> option exn;
  from_id : list app_event -> str -> outcome job;
  get : list app_event -> nat -> get_outcome;
  http_str : Z -> str -> str;
  services_str : list (str * str) -> str
}.

Variable A : app_env.

(** [str(e)] *)
Definition app_str (e : app_exn) : str :=
  match e with
  | HTTPException status_code detail => http_str A status_code detail
  | Other e => exn_str e
  end.

Definition note (ev : app_event) : ST server app_exn unit :=
  fun s => (Ok tt,
            {| bot_jobs := bot_jobs s; daily_helpers := daily_helpers s;
               out := out s ++ [ev] |}).

Definition print (msg : str) : ST server app_exn unit := note (Printed msg).

(** A call of a service: the event, then its answer. *)
Definition call {T} (ev : app_event) (answer : list app_event -> outcome T)
  : ST server app_exn T :=
  fun s => let s' := {| bot_jobs := bot_jobs s;
                        daily_helpers := daily_helpers s;
                        out := out s ++ [ev] |} in
           match answer (out s) with
           | Return a => (Ok a, s')
           | Raise e => (Err (Other e), s')
           end.

(** [daily_helpers["rest"]] *)
Definition rest_helper : ST server app_exn unit :=
  fun s => if daily_helpers s then (Ok tt, s)
           else (Err (Other (Exn "KeyError" (lit "'rest'"))), s).

(** [bool(s)] of a string or [None]. *)
Definition truthy (o : option str) : bool :=
  match o with
  | Some (_ :: _) => true
  | _ => false
  end.

Definition text (o : option str) : str :=
  match o with
  | Some s => s
  | None => []
  end.

(** [create_room_and_token] *)
Definition create_room_and_token : ST server app_exn (str * str) :=
  let room_url := DAILY_SAMPLE_ROOM_URL A in
  let token := DAILY_SAMPLE_ROOM_TOKEN A in
  (* Create room if we don't have one *)
  room_url <- (if negb (truthy room_url) then
                 rest_helper ;;
                 room <- call CreateRoom (create_room A) ;;
                 if negb (truthy room) then
                   st_raise (HTTPException 500 (lit "Failed to create room"))
                 else st_ret (text room)
               else st_ret (text room_url)) ;;
  (* Generate token if we don't have one *)
  token <- (if negb (truthy token) then
              rest_helper ;;
              token <- call (GetToken room_url)
                         (fun h => get_token A h room_url) ;;
              if negb (truthy token) then
                st_raise (HTTPException 500
                            (lit "Failed to get token for room: " ++ room_url))
              else st_ret (text token)
            else st_ret (text token)) ;;
  st_ret (room_url, token).

(** [d[k] = v] on a dictionary kept in insertion order. *)
Fixpoint set_item (d : list (str * job)) (k : str) (v : job)
  : list (str * job) :=
  match d with
  | [] => [(k, v)]
  | (k', v') :: d' =>
      if str_eqb k' k then (k', v) :: d' else (k', v') :: set_item d' k v
  end.

(** [d.get(k)] *)
Fixpoint get_item {V} (d : list (str * V)) (k : str) : option V :=
  match d with
  | [] => None
  | (k', v) :: d' => if str_eqb k' k then Some v else get_item d' k
  end.

(** [bot_jobs[room_url] = function_call] *)
Definition set_job (room_url : str) (function_call : job)
  : ST server app_exn unit :=
  fun s => (Ok tt,
            {| bot_jobs := set_item (bot_jobs s) room_url function_call;
               daily_helpers := daily_helpers s;
               out := out s |}).

(** [start] *)
Definition start : ST server app_exn (str * str) :=
  credentials <- create_room_and_token ;;
  let (room_url, token) := credentials : str * str in
  function_call <- call (Spawn room_url token)
                     (fun h => spawn A h room_url token) ;;
  (* Store the FunctionCall object directly, with room_url as key *)
  set_job room_url function_call ;;
  st_ret (room_url, token).

(** [function_call.cancel()] *)
Definition call_cancel (function_call : nat) : ST server app_exn unit :=
  fun s => let s' := {| bot_jobs := bot_jobs s;
                        daily_helpers := daily_helpers s;
                        out := out s ++ [Cancel function_call] |} in
           match cancel A (out s) function_call with
           | None => (Ok tt, s')
           | Some e => (Err (Other e), s')
           end.

(** The loop of [cleanup] over the values of [bot_jobs]. *)
Fixpoint cancel_each (jobs : list job) : ST server app_exn unit :=
  match jobs with
  | [] => st_ret tt
  | function_call :: jobs' =>
      match function_call with
      | Some f =>
          st_try (call_cancel f)
            (fun e => print (lit "Error cancelling function: " ++ app_str e))
      | None => st_ret tt
      end ;;
      cancel_each jobs'
  end.

(** [cleanup] *)
Definition cleanup : ST server app_exn unit :=
  fun s => cancel_each (map snd (bot_jobs s)) s.

(** The body of a request to /connect. *)
Record ConnectData := { services : list (str * str) }.

Definition link : str := [128279]%N.
Definition folder : str := [128193]%N.
Definition tools_sign : str := [128736; 65039]%N.
Definition pin : str := [128205]%N.

(** [a != b] for the result of [dict.get] and a string. *)
Definition differs (o : option str) (s : str) : bool :=
  match o with
  | Some v => negb (str_eqb v s)
  | None => true
  end.

Definition nonempty {T} (l : list T) : bool :=
  match l with
  | [] => false
  | _ :: _ => true
  end.

(** [rtvi_connect], the endpoint POST /connect *)
Definition rtvi_connect (data : option ConnectData)
  : ST server app_exn (list (str * str)) :=
  print (link ++ lit " Starting Real Estate Bot from /connect endpoint") ;;
  print (folder ++ lit " Using refactored modular structure") ;;
  match data with
  | Some d =>
      if nonempty (services d) then
        print (tools_sign ++ lit " Services requested: "
               ++ services_str A (services d)) ;;
        (* Validate that the frontend is requesting the correct services *)
        if differs (get_item (services d) (lit "llm")) (lit "openai")
           || differs (get_item (services d) (lit "tts")) (lit "cartesia")
        then st_raise
               (HTTPException 400
                  (lit "This backend only supports OpenAI LLM and Cartesia TTS"))
        else st_ret tt
      else st_ret tt
  | None => st_ret tt
  end ;;
  st_try
    (credentials <- start ;;
     let (room_url, token) := credentials : str * str in
     print (check_mark ++ lit " Bot started successfully") ;;
     print (pin ++ lit " Room: " ++ room_url) ;;
     st_ret [(lit "room_url", room_url); (lit "token", token)])
    (fun e =>
       print (cross_mark ++ lit " Failed to start bot: " ++ app_str e) ;;
       st_raise (HTTPException 500 (lit "Failed to start bot: " ++ app_str e))).

(** The field "code" of a status: the result of the call, or a number. *)
Inductive code_value :=
| Result (result : payload)
| Code (n : Z).

(** The JSON body of a status response. *)
Record status_response := {
  bot_id : str;
  status : str;
  code : code_value;
  structure : str
}.

Definition call_get (func : nat) : ST server app_exn get_outcome :=
  fun s => (Ok (get A (out s) func),
            {| bot_jobs := bot_jobs s; daily_helpers := daily_helpers s;
               out := out s ++ [GetOutput func] |}).

(** [get_status], the endpoint GET /status/{fid} *)
Definition get_status (fid : str) : ST server app_exn status_response :=
  st_try
    (func <- call (FromId fid) (fun h => from_id A h fid) ;;
     match func with
     | None =>
         st_raise (HTTPException 404
                     (lit "Bot with process id: " ++ fid ++ lit " not found"))
     | Some f =>
         r <- call_get f ;;
         match r with
         | Got result =>
             st_ret {| bot_id := fid; status := lit "finished";
                       code := Result result; structure := lit "refactored" |}
         | OutputExpiredError =>
             st_ret {| bot_id := fid; status := lit "finished";
                       code := Code 404; structure := lit "refactored" |}
         | TimeoutError =>
             st_ret {| bot_id := fid; status := lit "running";
                       code := Code 202; structure := lit "refactored" |}
         | GetRaised e => st_raise (Other e)
         end
     end)
    (fun e =>
       print (cross_mark ++ lit " Status check error: " ++ app_str e) ;;
       st_raise (HTTPException 500
                   (lit "Error checking bot status: " ++ app_str e))).

(** The calls of [cancel] in a list of events, oldest first. *)
Definition cancelled (l : list app_event) : list nat :=
  flat_map (fun ev => match ev with Cancel f => [f] | _ => [] end) l.

(** The function calls among the values of [bot_jobs]. *)
Definition function_calls (d : list (str * job)) : list nat :=
  flat_map (fun kv => match snd kv with Some f => [f] | None => [] end) d.

(** The calls of the room service and of the launcher. *)
Definition is_service (ev : app_event) : bool :=
  match ev with
  | CreateRoom | GetToken _ | Spawn _ _ => true
  | _ => false
  end.

Definition is_spawn (ev : app_event) : bool :=
  match ev with
  | Spawn _ _ => true
  | _ => false
  end.

End Server.
End App.

Module AppSamples.
Import App.

(** A server after startup, and one whose lifespan manager has not
    run. *)
Definition idle : server :=
  {| bot_jobs := []; daily_helpers := true; out := [] |}.

Definition before_startup : server :=
  {| bot_jobs := []; daily_helpers := false; out := [] |}.

(** A deployment with one configured room: every bot joins it. *)
Definition fixed_room : @app_env Z :=
  {| DAILY_SAMPLE_ROOM_URL := Some (lit "https://example.daily.co/demo");
     DAILY_SAMPLE_ROOM_TOKEN := Some (lit "demo-token");
     create_room := fun _ => Raise (Exn "Exception" (lit "no API key"));
     get_token := fun _ _ => Raise (Exn "Exception" (lit "no API key"));
     spawn := fun h _ _ => Return (Some (List.length h));
     cancel := fun _ _ => None;
     from_id := fun _ _ => Return None;
     get := fun _ _ => TimeoutError;
     http_str := fun status_code detail =>
                   str_of_int status_code ++ lit ": " ++ detail;
     services_str := fun _ => lit "{...}" |}.

(** A deployment that creates a room for every bot. *)
Definition room_per_bot : @app_env Z :=
  {| DAILY_SAMPLE_ROOM_URL := None;
     DAILY_SAMPLE_ROOM_TOKEN := None;
     create_room := fun h =>
       Return (Some (lit "https://example.daily.co/room-"
                     ++ str_of_int (Z.of_nat (List.length h))));
     get_token := fun _ room_url => Return (Some (lit "token-for-" ++ room_url));
     spawn := fun h _ _ => Return (Some (List.length h));
     cancel := fun _ _ => Some (Exn "Exception" (lit "already finished"));
     from_id := fun _ fid => Return (Some 0%nat);
     get := fun _ _ => OutputExpiredError;
     http_str := fun status_code detail =>
                   str_of_int status_code ++ lit ": " ++ detail;
     services_str := fun _ => lit "{...}" |}.

(** A request for a language model the backend does not run. *)
Definition other_llm : ConnectData :=
  {| services := [(lit "llm", lit "anthropic"); (lit "tts", lit "cartesia")] |}.

End AppSamples.

(* ================================================================= *)
(** ** Basic facts *)

Lemma str_eqb_eq (a b : str) : str_eqb a b = true <-> a = b.
Proof.
  unfold str_eqb. destruct (list_eq_dec N.eq_dec a b); split; congruence.
Qed.

Lemma str_eqb_refl (a : str) : str_eqb a a = true.
Proof. now apply str_eqb_eq. Qed.

Lemma obind_Return {A B} (c : outcome A) (k : A -> outcome B) (b : B) :
  obind c k = Return b -> exists a, c = Return a /\ k a = Return b.
Proof.
  destruct c as [a|e]; simpl; intros H; [now exists a | discriminate].
Qed.

Lemma omap_Forall2 {A B} (f : A -> outcome B) (l : list A) (out : list B) :
  omap f l = Return out -> Forall2 (fun a b => f a = Return b) l out.
Proof.
  revert out. induction l as [|a l IH]; simpl; intros out H.
  - injection H as <-. constructor.
  - apply obind_Return in H as (b & Hb & H).
    apply obind_Return in H as (bs & Hbs & H).
    injection H as <-. constructor; auto.
Qed.

Section FormatterFacts.
Context {R : PyRuntime}.

Lemma py_get_Return (v : val) (k : str) (d x : val) :
  py_get v k d = Return x -> exists m, v = VDict m /\ x = dict_get m k d.
Proof.
  destruct v; simpl; try discriminate.
  intros H. injection H as <-. eauto.
Qed.

(** A formatted record comes from a raw match whose details and processing
    information are documents, and has the fifteen fields of the source. *)
Lemma format_property_inv (result : dict) (p : val) :
  format_property result = Return p ->
  exists details info image_urls primary score description,
    dict_get result (lit "property_details") (VDict []) = VDict details
    /\ dict_get result (lit "processing_info") (VDict []) = VDict info
    /\ derive_image_urls result (VDict info) = Return image_urls
    /\ (if truthy image_urls then py_first image_urls else Return (VStr []))
       = Return primary
    /\ py_round (dict_get result (lit "search_score") (VInt 0)) 4 = Return score
    /\ (if truthy (dict_get details (lit "mls_description") (VStr []))
        then let* d200 :=
               py_slice_to (dict_get details (lit "mls_description") (VStr [])) 200 in
             py_add_str d200 (lit "...")
        else Return (VStr [])) = Return description
    /\ p = VDict
        [(lit "property_id", VStr (record_id result));
         (lit "url", dict_get result (lit "property_url") (VStr []));
         (lit "image_urls", image_urls);
         (lit "primary_image", primary);
         (lit "address", dict_get details (lit "address") (VStr (lit "N/A")));
         (lit "price", dict_get details (lit "listed_price") (VStr (lit "N/A")));
         (lit "currency", dict_get details (lit "currency") (VStr (lit "CAD")));
         (lit "bedrooms", dict_get details (lit "bedrooms") (VStr (lit "N/A")));
         (lit "bathrooms", dict_get details (lit "bathrooms") (VStr (lit "N/A")));
         (lit "property_type", dict_get details (lit "property_type") (VStr (lit "N/A")));
         (lit "mls_number", dict_get details (lit "mls_number") (VStr (lit "N/A")));
         (lit "mls_genuine", dict_get details (lit "mls_is_genuine") (VStr (lit "N/A")));
         (lit "search_score", score);
         (lit "status", dict_get info (lit "status") (VStr (lit "N/A")));
         (lit "description", description)].
Proof.
  unfold format_property. intros H.
  apply obind_Return in H as (image_urls & Himg & H).
  apply obind_Return in H as (primary & Hprim & H).
  apply obind_Return in H as (address & Haddr & H).
  apply py_get_Return in Haddr as (details & Hdet & ->).
  rewrite Hdet in H. simpl py_get in H. simpl obind in H.
  apply obind_Return in H as (score & Hscore & H).
  apply obind_Return in H as (status & Hst & H).
  apply py_get_Return in Hst as (info & Hinfo & ->).
  rewrite Hinfo in Himg.
  apply obind_Return in H as (description & Hdesc & H).
  injection H as <-.
  exists details, info, image_urls, primary, score, description.
  repeat split; auto.
Qed.

End FormatterFacts.

(* ================================================================= *)
(** ** The result formatter *)

Section Formatter.
Context {R : PyRuntime}.

(** The image list is the first three analysed images when the source has a
    non-empty list of them, and the three placeholders otherwise. *)
Lemma derive_image_urls_cases (result info : dict) (image_urls : val) :
  derive_image_urls result (VDict info) = Return image_urls ->
  match dict_get info (lit "images_analyzed") (VList []) with
  | VList (x :: l) => image_urls = VList (slice_to 3 (x :: l))
  | _ => image_urls = VList (placeholder_urls (record_id result))
  end.
Proof.
  unfold derive_image_urls, record_id. simpl py_get. simpl obind.
  destruct (dict_get info (lit "images_analyzed") (VList [])) as
    [ | b | z | x | s | h | l | d ]; simpl; rewrite ?andb_false_r;
    try (intros H; injection H as <-; reflexivity).
  destruct l; simpl; intros H; injection H as <-; reflexivity.
Qed.

Lemma analyzed_images_info (result info : dict) :
  dict_get result (lit "processing_info") (VDict []) = VDict info ->
  analyzed_images result =
  match dict_get info (lit "images_analyzed") (VList []) with
  | VList l => l
  | _ => []
  end.
Proof. unfold analyzed_images. now intros ->. Qed.

(** The image list of one formatted record. *)
Lemma format_property_images (result : dict) (p : val) :
  format_property result = Return p ->
  exists first rest,
    py_item p (lit "image_urls") = Return (VList (first :: rest))
    /\ py_item p (lit "primary_image") = Return first
    /\ (analyzed_images result <> [] ->
        first :: rest = slice_to 3 (analyzed_images result))
    /\ (analyzed_images result = [] ->
        first :: rest = placeholder_urls (record_id result)).
Proof.
  intros H.
  apply format_property_inv in H as
    (details & info & image_urls & primary & score & description
     & Hdet & Hinfo & Himg & Hprim & _ & _ & ->).
  apply derive_image_urls_cases in Himg.
  rewrite (analyzed_images_info _ Hinfo).
  destruct (dict_get info (lit "images_analyzed") (VList [])) as
    [ | b | z | x | s | h | [|a l] | d ]; subst image_urls; simpl in Hprim;
    injection Hprim as <-.
  all: eexists; eexists; split; [reflexivity|]; split; [reflexivity|].
  all: split; [intros Hne; try (now elim Hne); reflexivity
              | intros He; try discriminate He; reflexivity].
Qed.

(** C9: every formatted record has at most three image URLs; a source
    without analysed images yields exactly the three placeholder URLs, and
    each of them contains the record identifier. *)
Theorem image_urls_at_most_three (results : list dict) (out : list val) :
  format_search_results results = Return out ->
  Forall2
    (fun result p =>
       exists urls,
         py_item p (lit "image_urls") = Return (VList urls)
         /\ (List.length urls <= 3)%nat
         /\ (analyzed_images result = [] ->
             urls = placeholder_urls (record_id result)
             /\ List.length urls = 3%nat
             /\ Forall (fun u => exists s, u = VStr s /\ contains (record_id result) s)
                       urls))
    results out.
Proof.
  intros H. apply omap_Forall2 in H.
  eapply Forall2_impl; [|exact H]. clear. intros result p H. simpl in H.
  apply format_property_images in H as (first & rest & Hurls & _ & Hsome & Hnone).
  exists (first :: rest). split; [exact Hurls|]. split.
  - destruct (analyzed_images result) as [|a l] eqn:Ha.
    + rewrite (Hnone eq_refl). simpl. lia.
    + rewrite Hsome by discriminate. apply firstn_le_length.
  - intros Ha. rewrite (Hnone Ha). split; [reflexivity|]. split; [reflexivity|].
    unfold placeholder_urls, contains.
    repeat constructor; eexists; (split; [reflexivity|]); eauto.
Qed.

(** C10: the image list of a formatted record is never empty: it holds the
    first one to three analysed images or the three placeholders, and the
    primary image is its first element, never the empty-string fallback of
    an empty list. *)
Theorem primary_image_is_first (results : list dict) (out : list val) :
  format_search_results results = Return out ->
  Forall2
    (fun result p =>
       exists first rest,
         py_item p (lit "image_urls") = Return (VList (first :: rest))
         /\ (1 <= List.length (first :: rest) <= 3)%nat
         /\ truthy (VList (first :: rest)) = true
         /\ py_item p (lit "primary_image") = Return first
         /\ (analyzed_images result <> [] ->
             first :: rest = slice_to 3 (analyzed_images result))
         /\ (analyzed_images result = [] ->
             first :: rest = placeholder_urls (record_id result)))
    results out.
Proof.
  intros H. apply omap_Forall2 in H.
  eapply Forall2_impl; [|exact H]. clear. intros result p H. simpl in H.
  apply format_property_images in H as (first & rest & Hurls & Hprim & Hsome & Hnone).
  exists first, rest. repeat split; auto.
  - simpl. lia.
  - destruct (analyzed_images result) as [|a l] eqn:Ha.
    + rewrite (Hnone eq_refl). simpl. lia.
    + rewrite Hsome by discriminate. apply firstn_le_length.
Qed.

(** The description of one formatted record. *)
Lemma format_property_description (result : dict) (p : val) :
  format_property result = Return p ->
  (forall s, source_description result = Some (VStr s) -> s <> [] ->
     py_item p (lit "description") = Return (VStr (slice_to 200 s ++ lit "...")))
  /\ (source_description result = None
      \/ source_description result = Some (VStr []) ->
      py_item p (lit "description") = Return (VStr [])).
Proof.
  intros H.
  apply format_property_inv in H as
    (details & info & image_urls & primary & score & description
     & Hdet & _ & _ & _ & _ & Hdesc & ->).
  unfold source_description. rewrite Hdet.
  unfold dict_get in Hdesc.
  split.
  - intros s Hs Hne. rewrite Hs in Hdesc.
    destruct s as [|c s]; [now elim Hne|].
    simpl in Hdesc. injection Hdesc as <-. reflexivity.
  - intros [Hs | Hs]; rewrite Hs in Hdesc; simpl in Hdesc;
      injection Hdesc as <-; reflexivity.
Qed.

(** C5, as the code has it: a non-empty description is cut to its first 200
    characters and always followed by the ellipsis marker, so a description
    of at most 200 characters comes back whole with the marker appended; an
    absent or empty description gives the empty string. *)
Theorem description_truncation (results : list dict) (out : list val) :
  format_search_results results = Return out ->
  Forall2
    (fun result p =>
       (forall s, source_description result = Some (VStr s) ->
          (200 < List.length s)%nat ->
          py_item p (lit "description")
          = Return (VStr (slice_to 200 s ++ lit "...")))
       /\ (source_description result = None
           \/ source_description result = Some (VStr []) ->
           py_item p (lit "description") = Return (VStr []))
       /\ (forall s, source_description result = Some (VStr s) ->
             s <> [] -> (List.length s <= 200)%nat ->
             py_item p (lit "description") = Return (VStr (s ++ lit "..."))))
    results out.
Proof.
  intros H. apply omap_Forall2 in H.
  eapply Forall2_impl; [|exact H]. clear. intros result p H. simpl in H.
  apply format_property_description in H as [Hcut Hempty].
  split; [|split].
  - intros s Hs Hlen. apply Hcut; [exact Hs|].
    intros ->. simpl in Hlen. lia.
  - exact Hempty.
  - intros s Hs Hne Hlen. rewrite (Hcut s Hs Hne).
    unfold slice_to. now rewrite firstn_all2.
Qed.

End Formatter.

(** Runs of the formatter on the sample listings. *)
Section FormatterRuns.
Import IntegralRuntime Samples.

Lemma image_urls_at_most_three_witness :
  exists p q,
    format_search_results [bungalow; bare] = Return [p; q]
    /\ py_item p (lit "image_urls")
       = Return (VList [VStr (lit "a.jpg"); VStr (lit "b.jpg"); VStr (lit "c.jpg")])
    /\ exists urls,
         py_item q (lit "image_urls") = Return (VList urls)
         /\ Forall (fun u => exists s, u = VStr s /\ contains (lit "65a1f0c3") s) urls.
Proof.
  eexists. eexists. split; [vm_compute; reflexivity|].
  split; [reflexivity|].
  pose proof (@image_urls_at_most_three _ [bungalow; bare] _ eq_refl) as H.
  inversion H as [|? ? ? ? _ H']; subst. inversion H' as [|? ? ? ? Hq _]; subst.
  destruct Hq as (urls & Hurls & _ & Hq).
  exists urls. split; [exact Hurls|]. now apply Hq.
Defined.

Lemma primary_image_is_first_witness :
  exists p q,
    format_search_results [bungalow; bare] = Return [p; q]
    /\ py_item p (lit "primary_image") = Return (VStr (lit "a.jpg"))
    /\ py_item q (lit "primary_image")
       = Return (VStr (lit "https://images.realtor.com/property/65a1f0c3/main.jpg")).
Proof.
  eexists. eexists. split; [vm_compute; reflexivity|].
  pose proof (@primary_image_is_first _ [bungalow; bare] _ eq_refl) as H.
  inversion H as [|? ? ? ? Hp H']; subst. inversion H' as [|? ? ? ? Hq _]; subst.
  destruct Hp as (fp & rp & _ & _ & _ & Hp & Hp' & _).
  destruct Hq as (fq & rq & _ & _ & _ & Hq & _ & Hq').
  split.
  - specialize (Hp' ltac:(discriminate)). vm_compute in Hp'.
    injection Hp' as -> _. exact Hp.
  - specialize (Hq' eq_refl). vm_compute in Hq'.
    injection Hq' as -> _. exact Hq.
Defined.

Lemma description_truncation_witness :
  exists p q r,
    format_search_results [bungalow; bare; verbose] = Return [p; q; r]
    /\ py_item p (lit "description") = Return (VStr (lit "Cozy bungalow..."))
    /\ py_item q (lit "description") = Return (VStr [])
    /\ py_item r (lit "description") = Return (VStr (repeat 120%N 200 ++ lit "...")).
Proof.
  eexists. eexists. eexists. split; [vm_compute; reflexivity|].
  pose proof (@description_truncation _ [bungalow; bare; verbose] _ eq_refl) as H.
  inversion H as [|? ? ? ? Hp H']; subst. inversion H' as [|? ? ? ? Hq H'']; subst.
  inversion H'' as [|? ? ? ? Hr _]; subst.
  destruct Hp as (_ & _ & Hp). destruct Hq as (_ & Hq & _). destruct Hr as (Hr & _).
  split; [|split].
  - apply (Hp (lit "Cozy bungalow")); [reflexivity | discriminate | vm_compute; lia].
  - apply Hq. now left.
  - apply (Hr (repeat 120%N 250)); [reflexivity | vm_compute; lia].
Defined.

(** C5 as stated fails: a short description does not come back unmodified,
    the marker is appended to it. *)
Lemma short_description_gets_marker :
  exists p,
    format_search_results [bungalow] = Return [p]
    /\ source_description bungalow = Some (VStr (lit "Cozy bungalow"))
    /\ (List.length (lit "Cozy bungalow") <= 200)%nat
    /\ py_item p (lit "description") = Return (VStr (lit "Cozy bungalow..."))
    /\ py_item p (lit "description") <> Return (VStr (lit "Cozy bungalow")).
Proof.
  eexists. split; [vm_compute; reflexivity|].
  split; [reflexivity|]. split; [vm_compute; lia|].
  split; [reflexivity|]. vm_compute. discriminate.
Qed.

End FormatterRuns.

(* ================================================================= *)
(** ** The query composer *)

Section Composer.
Context {R : PyRuntime}.

(** C4, as the code has it: the request of the Toronto scenario gives a
    filter of exactly four predicates (price upper bound, bedrooms equal to
    the string "3", case-insensitive match on "house", case-insensitive
    match on "Toronto"); the vector stage of the plan has a candidate pool
    of 50 and an intermediate limit of 25, and the final limit is 5. *)
Theorem toronto_scenario_plan (embedding_vector : list pyfloat) (index : str) :
  let match_conditions :=
    build_match_conditions None (Some (VInt 500000)) (Some (lit "3")) None
      (Some (lit "house")) (Some (lit "Toronto")) None in
  match_conditions =
    [(lit "property_details.listed_price", VDict [(lit "$lte", VInt 500000)]);
     (lit "property_details.bedrooms", VStr (lit "3"));
     (lit "property_details.property_type",
        VDict [(lit "$regex", VStr (lit "house")); (lit "$options", VStr (lit "i"))]);
     (lit "property_details.address",
        VDict [(lit "$regex", VStr (lit "Toronto")); (lit "$options", VStr (lit "i"))])]
  /\ List.length match_conditions = 4%nat
  /\ build_search_pipeline embedding_vector match_conditions 5 index =
     [ VDict [(lit "$vectorSearch", VDict
         [(lit "index", VStr index);
          (lit "path", VStr (lit "embedding"));
          (lit "queryVector", VList (map (@VFloat _) embedding_vector));
          (lit "numCandidates", VInt 50);
          (lit "limit", VInt 25)])];
       VDict [(lit "$addFields", VDict
         [(lit "search_score", VDict [(lit "$meta", VStr (lit "vectorSearchScore"))])])];
       VDict [(lit "$match", VDict match_conditions)];
       projection;
       VDict [(lit "$sort", VDict [(lit "search_score", VInt (-1))])];
       VDict [(lit "$limit", VInt 5)] ].
Proof. repeat split. Qed.

End Composer.

(** C4 as stated fails: the filter of the Toronto scenario does not have
    exactly three predicates. *)
Lemma toronto_filter_not_three_predicates :
  List.length
    (build_match_conditions (R := IntegralRuntime.runtime)
       None (Some (VInt 500000)) (Some (lit "3")) None
       (Some (lit "house")) (Some (lit "Toronto")) None) <> 3%nat.
Proof. vm_compute. discriminate. Qed.

(* ================================================================= *)
(** ** The search executor *)

Section Executor.
Context {R : PyRuntime}.
Variable E : env.

Lemma open_connections_app (t u : list event) :
  open_connections (t ++ u) = open_connections t + open_connections u.
Proof.
  unfold open_connections. rewrite !filter_app, !length_app. lia.
Qed.

(** On a normal return the connection opened for the query was closed. *)
Lemma execute_search_query_closes_on_return
    (pipeline : list val) (s s' : state) (results : list dict) :
  execute_search_query E pipeline s = (Return results, s') ->
  open_connections (trace s') = open_connections (trace s).
Proof.
  unfold execute_search_query, get_client, collection_aggregate, client_close,
    try_catch, bind, lift, ret, raise, log, emit.
  destruct (mongo_client E) as [e|]; simpl; [discriminate|].
  destruct (aggregate E pipeline) as [r|e]; simpl; [|discriminate].
  intros H. injection H as _ <-. simpl.
  rewrite !open_connections_app. unfold open_connections. simpl. lia.
Qed.

(** When the query raises after the connection was opened, the exception
    reaches the caller and the connection is still open. *)
Lemma execute_search_query_leaks_on_raise
    (pipeline : list val) (s : state) (e : exn) :
  mongo_client E = None ->
  aggregate E pipeline = Raise e ->
  exists s',
    execute_search_query E pipeline s = (Raise e, s')
    /\ open_connections (trace s') = open_connections (trace s) + 1.
Proof.
  intros Hc Ha.
  unfold execute_search_query, get_client, collection_aggregate, client_close,
    try_catch, bind, lift, ret, raise, log, emit.
  rewrite Hc. simpl. rewrite Ha. simpl.
  eexists. split; [reflexivity|]. simpl.
  rewrite !open_connections_app. unfold open_connections. simpl. lia.
Qed.

End Executor.

(** C3 fails on the exception path: when the store rejects the query, the
    executor logs the error and re-raises it without closing the connection
    it opened. *)
Theorem connection_left_open_when_query_fails :
  let E := IntegralRuntime.world (Return [1; 2; 3]) (Raise Samples.store_down) in
  let pipeline :=
    build_search_pipeline (R := IntegralRuntime.runtime) [1; 2; 3] [] 10
      (lit "vector_index") in
  exists s',
    execute_search_query E pipeline initial = (Raise Samples.store_down, s')
    /\ trace s' =
       [ MongoConnect true;
         MongoAggregate pipeline;
         Log ERROR (lit "MongoDB search query failed: connection refused") ]
    /\ open_connections (trace s') = 1.
Proof. eexists. repeat split. Qed.

(* ================================================================= *)
(** ** Reasoning about computations *)

Section Calculus.
Context {R : PyRuntime}.

Lemma embedding_calls_app (t u : list event) :
  embedding_calls (t ++ u) = (embedding_calls t + embedding_calls u)%nat.
Proof. unfold embedding_calls. now rewrite filter_app, length_app. Qed.

Lemma store_calls_app (t u : list event) :
  store_calls (t ++ u) = (store_calls t + store_calls u)%nat.
Proof. unfold store_calls. now rewrite filter_app, length_app. Qed.

Lemma embedding_calls_snoc (t : list event) (ev : event) :
  embedding_calls (t ++ [ev]) =
  if is_embedding_call ev then S (embedding_calls t) else embedding_calls t.
Proof.
  rewrite embedding_calls_app. unfold embedding_calls at 2. simpl.
  destruct (is_embedding_call ev); simpl; lia.
Qed.

Lemma store_calls_snoc (t : list event) (ev : event) :
  store_calls (t ++ [ev]) =
  if is_store_call ev then S (store_calls t) else store_calls t.
Proof.
  rewrite store_calls_app. unfold store_calls at 2. simpl.
  destruct (is_store_call ev); simpl; lia.
Qed.

Lemma pushed_frames_app (t u : list event) :
  pushed_frames (t ++ u) = pushed_frames t ++ pushed_frames u.
Proof. apply flat_map_app. Qed.

Lemma pushed_frames_snoc (t : list event) (ev : event) :
  pushed_frames (t ++ [ev]) =
  pushed_frames t ++ match ev with PushFrame _ d _ => [d] | _ => [] end.
Proof.
  rewrite pushed_frames_app. unfold pushed_frames at 2. simpl.
  now rewrite app_nil_r.
Qed.

Lemma quiet_refl (s : state) : quiet s s.
Proof. now split. Qed.

Lemma quiet_trans (s1 s2 s3 : state) : quiet s1 s2 -> quiet s2 s3 -> quiet s1 s3.
Proof. intros [H1 H2] [H3 H4]. split; congruence. Qed.

Lemma quietly_ret {A} (a : A) : quietly (ret a).
Proof. intros s. apply quiet_refl. Qed.

Lemma quietly_raise {A} (e : exn) : quietly (@raise _ A e).
Proof. intros s. apply quiet_refl. Qed.

Lemma quietly_lift {A} (o : outcome A) : quietly (lift o).
Proof. intros s. apply quiet_refl. Qed.

Lemma quietly_emit (ev : event) :
  is_embedding_call ev = false -> is_store_call ev = false -> quietly (emit ev).
Proof.
  intros He Hs s. split; simpl.
  - rewrite embedding_calls_app. unfold embedding_calls at 2. simpl.
    rewrite He. simpl. lia.
  - rewrite store_calls_app. unfold store_calls at 2. simpl.
    rewrite Hs. simpl. lia.
Qed.

Lemma quietly_log (lv : level) (msg : str) : quietly (log lv msg).
Proof. now apply quietly_emit. Qed.

Lemma quietly_bind {A B} (c : M A) (k : A -> M B) :
  quietly c -> (forall a, quietly (k a)) -> quietly (bind c k).
Proof.
  intros Hc Hk s. unfold bind. specialize (Hc s).
  destruct (c s) as [[a|e] s1]; simpl in *; [|exact Hc].
  eapply quiet_trans; [exact Hc | apply Hk].
Qed.

Lemma quietly_try_catch {A} (c : M A) (h : exn -> M A) :
  quietly c -> (forall e, quietly (h e)) -> quietly (try_catch c h).
Proof.
  intros Hc Hh s. unfold try_catch. specialize (Hc s).
  destruct (c s) as [[a|e] s1]; simpl in *; [exact Hc|].
  eapply quiet_trans; [exact Hc | apply Hh].
Qed.

Lemma quietly_attempt {A} (c : M A) : quietly c -> quietly (attempt c).
Proof.
  intros Hc s. unfold attempt. specialize (Hc s).
  now destruct (c s) as [o s1].
Qed.

Lemma quietly_time_time (E : env) : quietly (time_time E).
Proof. intros s. now split. Qed.

Lemma quietly_new_uuid (E : env) : quietly (new_uuid E).
Proof. intros s. now split. Qed.

Lemma safe_quietly {A} (c : M A) : safe c -> quietly c.
Proof. intros H s. destruct (H s) as (a & s' & -> & Hq). exact Hq. Qed.

Lemma safe_ret {A} (a : A) : safe (ret a).
Proof. intros s. exists a, s. split; [reflexivity | apply quiet_refl]. Qed.

Lemma safe_log (lv : level) (msg : str) : safe (log lv msg).
Proof.
  intros s. eexists. eexists. split; [reflexivity|].
  apply (quietly_log lv msg s).
Qed.

Lemma safe_bind {A B} (c : M A) (k : A -> M B) :
  safe c -> (forall a, safe (k a)) -> safe (bind c k).
Proof.
  intros Hc Hk s. unfold bind.
  destruct (Hc s) as (a & s1 & -> & Hq1).
  destruct (Hk a s1) as (b & s2 & -> & Hq2).
  exists b, s2. split; [reflexivity | eapply quiet_trans; eauto].
Qed.

(** A [try] whose handler always returns, always returns. *)
Lemma safe_try_catch {A} (c : M A) (h : exn -> M A) :
  quietly c -> (forall e, safe (h e)) -> safe (try_catch c h).
Proof.
  intros Hc Hh s. unfold try_catch. specialize (Hc s).
  destruct (c s) as [[a|e] s1]; simpl in *.
  - exists a, s1. now split.
  - destruct (Hh e s1) as (b & s2 & -> & Hq2).
    exists b, s2. split; [reflexivity | eapply quiet_trans; eauto].
Qed.

End Calculus.

Create HintDb py.
#[local] Hint Resolve quietly_ret quietly_raise quietly_lift quietly_log
  quietly_time_time quietly_new_uuid quietly_attempt safe_ret safe_log
  safe_quietly : py.

(** Decomposes a goal [quietly c] along the structure of [c]. *)
Ltac quietly_step :=
  cbv beta zeta;
  lazymatch goal with
  | |- quietly (bind _ _) => apply quietly_bind; [|intros ?]
  | |- quietly (try_catch _ _) => apply quietly_try_catch; [|intros ?]
  | |- quietly (attempt _) => apply quietly_attempt
  | |- quietly (emit _) => apply quietly_emit; reflexivity
  | |- quietly (match ?x with _ => _ end) => destruct x
  | |- quietly _ => solve [auto with py]
  end.

Ltac quietly_tac := repeat quietly_step.

(* ================================================================= *)
(** ** The notification dispatcher *)

Section Dispatcher.
Context {R : PyRuntime}.
Variable E : env.

Lemma wait_for_push_quietly (rtvi : handle) (data : val) (t : Z) :
  quietly (wait_for_push E rtvi data t).
Proof. unfold wait_for_push. quietly_tac. Qed.

Lemma try_timeout_quietly (c h : M unit) :
  quietly c -> quietly h -> quietly (try_timeout c h).
Proof.
  intros Hc Hh. unfold try_timeout. apply quietly_try_catch; [exact Hc|].
  intros e. destruct (is_timeout e); auto with py.
Qed.

(** The error message never raises back to its caller. *)
Lemma send_property_search_error_safe
    (rtvi_instance : option handle) (search_data : dict) (text_query : str) :
  safe (send_property_search_error E rtvi_instance search_data text_query).
Proof.
  unfold send_property_search_error.
  apply safe_try_catch; [|intros e; apply safe_log].
  destruct rtvi_instance as [rtvi|]; [|apply quietly_log].
  quietly_tac. apply try_timeout_quietly; quietly_tac.
  apply wait_for_push_quietly.
Qed.

(** The results message never raises back to its caller. *)
Lemma send_property_search_results_safe
    (rtvi_instance : option handle) (search_data : dict) (text_query : str) :
  safe (send_property_search_results E rtvi_instance search_data text_query).
Proof.
  unfold send_property_search_results.
  apply safe_try_catch; [|intros e; apply safe_log].
  destruct rtvi_instance as [rtvi|]; [|apply quietly_log].
  destruct (_ && _).
  - quietly_tac. apply try_timeout_quietly; quietly_tac.
    apply wait_for_push_quietly.
  - apply safe_quietly, send_property_search_error_safe.
Qed.

Lemma submit_quietly (loop : handle) (coro : M unit) :
  quietly coro -> quietly (submit E loop coro).
Proof. intros H. unfold submit. quietly_tac. Qed.

(** Scheduling never raises back to its caller. *)
Lemma schedule_rtvi_message_safe
    (event_loop rtvi_instance : option handle) (search_data : dict)
    (text_query : str) :
  safe (schedule_rtvi_message E event_loop rtvi_instance search_data text_query).
Proof.
  unfold schedule_rtvi_message.
  destruct event_loop as [loop|]; [destruct rtvi_instance as [rtvi|]|];
    try apply safe_log.
  apply safe_try_catch; [|intros e; apply safe_log].
  quietly_tac. apply submit_quietly, safe_quietly, send_property_search_results_safe.
Qed.

Lemma _schedule_error_message_safe
    (event_loop rtvi_instance : option handle) (error_result : dict)
    (text_query : str) :
  safe (_schedule_error_message E event_loop rtvi_instance error_result text_query).
Proof.
  unfold _schedule_error_message.
  destruct event_loop as [loop|]; [destruct rtvi_instance as [rtvi|]|];
    try apply safe_ret.
  apply safe_try_catch; [|intros e; apply safe_log].
  apply safe_quietly, schedule_rtvi_message_safe.
Qed.

(** The envelope sent for an outcome without properties, built in state
    [s]. *)
Lemma send_empty_success
    (rtvi : handle) (search_data : dict) (text_query : str) (s : state) :
  is_success search_data ->
  lookup (lit "properties") search_data = Some (VList []) ->
  exists s',
    send_property_search_results E (Some rtvi) search_data text_query s
    = (Return tt, s')
    /\ pushed_frames (trace s') =
       pushed_frames (trace s) ++
       [VDict
          [(lit "type", VStr (lit "property_search_error"));
           (lit "timestamp", VFloat (clock E (ticks s)));
           (lit "search_id", VStr (uuid4 E (uuids s)));
           (lit "query", VStr text_query);
           (lit "error", VStr (lit "No properties found"));
           (lit "failure_point", VStr (lit "unknown"))]].
Proof.
  intros (Hdone & Herr & Hstage) Hprops. destruct s as [tk uu dl tr].
  cbn [ticks uuids].
  unfold send_property_search_results, send_property_search_error, dict_get.
  rewrite Hprops, Herr, Hstage. cbn [truthy]. rewrite andb_false_r.
  cbv beta iota zeta delta
    [bind ret raise try_catch try_timeout lift emit log time_time new_uuid
     wait_for_push debug_log trace ticks uuids].
  destruct (push_frame E rtvi _) as [ | | e]; [| |destruct (is_timeout e)].
  all: cbv beta iota zeta delta [debug_log trace ticks uuids].
  all: eexists; split; [reflexivity|]; cbn [trace].
  all: now rewrite !pushed_frames_snoc, !app_nil_r.
Qed.

(** C6: an outcome of the [Success] variant whose property list is empty is
    handed to the session as one envelope of kind "property_search_error"
    with the message "No properties found", and not as an envelope of kind
    "property_search_results".  This is the coroutine that sends the
    message; the push may complete, time out or raise. *)
Theorem empty_success_is_sent_as_error
    (rtvi : handle) (search_data : dict) (text_query : str) (s : state) :
  is_success search_data ->
  lookup (lit "properties") search_data = Some (VList []) ->
  let envelope := VDict
    [(lit "type", VStr (lit "property_search_error"));
     (lit "timestamp", VFloat (clock E (ticks s)));
     (lit "search_id", VStr (uuid4 E (uuids s)));
     (lit "query", VStr text_query);
     (lit "error", VStr (lit "No properties found"));
     (lit "failure_point", VStr (lit "unknown"))] in
  (exists s',
     send_property_search_results E (Some rtvi) search_data text_query s
     = (Return tt, s')
     /\ pushed_frames (trace s') = pushed_frames (trace s) ++ [envelope])
  /\ envelope_kind envelope = Some (lit "property_search_error")
  /\ envelope_kind envelope <> Some (lit "property_search_results").
Proof.
  intros Hs Hprops envelope. split; [|split].
  - exact (send_empty_success rtvi text_query s Hs Hprops).
  - reflexivity.
  - vm_compute. discriminate.
Qed.

End Dispatcher.

(* ================================================================= *)
(** ** The orchestrator *)

(** Runs the deterministic steps of a computation applied to a state. *)
Ltac run_in H :=
  cbv beta iota zeta delta
    [bind ret raise try_catch attempt lift emit log new_debug_log
     append_debug_log read_debug_log time_time log_debug
     debug_log trace ticks uuids] in H.

(** Replaces a scheduling step by its result. *)
Ltac schedule_in H :=
  match type of H with
  | context [_schedule_error_message ?E ?a ?b ?r ?t ?st] =>
      let Heq := fresh "Heq" in
      let Hq := fresh "Hq" in
      destruct (_schedule_error_message_safe E a b r t st) as ([] & ? & Heq & Hq);
      rewrite Heq in H; clear Heq
  | context [schedule_rtvi_message ?E ?a ?b ?r ?t ?st] =>
      let Heq := fresh "Heq" in
      let Hq := fresh "Hq" in
      destruct (schedule_rtvi_message_safe E a b r t st) as ([] & ? & Heq & Hq);
      rewrite Heq in H; clear Heq
  end.

(** Recognises an explicit [Failure] dictionary. *)
Ltac failure_tac :=
  unfold is_failure; repeat split; try (eexists; reflexivity); reflexivity.

Section OrchestratorFacts.
Context {R : PyRuntime}.
Variable E : env.

Lemma lstrip_blank (q : str) : whitespace_only q = true -> lstrip q = [].
Proof.
  induction q as [|c q IH]; simpl; [reflexivity|].
  intros H. apply andb_prop in H as [-> H]. auto.
Qed.

Lemma strip_blank (q : str) : whitespace_only q = true -> strip q = [].
Proof. intros H. unfold strip. now rewrite (lstrip_blank q H). Qed.

(** The guard of step 1 holds for a blank query. *)
Lemma blank_query_rejected (q : str) :
  whitespace_only q = true ->
  negb (truthy (VStr q)) || negb (truthy (VStr (strip q))) = true.
Proof.
  intros H. rewrite (strip_blank q H). simpl. apply orb_true_r.
Qed.

(** The guard of step 1 fails for a query with text left after trimming. *)
Lemma valid_query_accepted (q : str) :
  strip q <> [] ->
  negb (truthy (VStr q)) || negb (truthy (VStr (strip q))) = false.
Proof.
  intros H. destruct q as [|c q]; [now elim H|].
  simpl. destruct (strip (c :: q)); [now elim H | reflexivity].
Qed.

(** An error result is a [Failure] with the given stage and message. *)
Lemma _create_error_result_failure
    (error_msg : str) (log : list str) (stage q : str) (tb : option str) :
  let r := _create_error_result error_msg log stage q tb in
  is_failure r
  /\ failure_stage r = Some stage
  /\ lookup (lit "error") r = Some (VStr error_msg).
Proof.
  unfold _create_error_result, is_failure, failure_stage.
  destruct tb as [tb|]; [destruct (truthy (VStr tb))|]; simpl; eauto 10.
Qed.

(** C7: a query that is empty or made of blanks only gives the [Failure]
    outcome with stage "input_validation", and neither the embedding service
    nor the document store is called. *)
Theorem blank_query_fails_validation
    (text_query : str) (min_price max_price : option val)
    (bedrooms bathrooms property_type location_keywords : option str)
    (mls_genuine : option bool) (limit : Z) (vector_search_index : str)
    (event_loop rtvi_instance : option handle) (s : state) :
  whitespace_only text_query = true ->
  exists r s',
    execute_hybrid_search E text_query min_price max_price bedrooms bathrooms
      property_type location_keywords mls_genuine limit vector_search_index
      event_loop rtvi_instance s = (Return r, s')
    /\ is_failure r
    /\ failure_stage r = Some (lit "input_validation")
    /\ embedding_calls (trace s') = embedding_calls (trace s)
    /\ store_calls (trace s') = store_calls (trace s).
Proof.
  intros Hblank. destruct s as [tk uu dl tr].
  destruct (execute_hybrid_search _ _ _ _ _ _ _ _ _ _ _ _ _ _) as [o s'] eqn:Hrun.
  unfold execute_hybrid_search in Hrun.
  rewrite (blank_query_rejected _ Hblank) in Hrun.
  run_in Hrun. schedule_in Hrun. injection Hrun as <- <-.
  eexists. eexists. split; [reflexivity|].
  split; [failure_tac|].
  split; [reflexivity|].
  destruct Hq as [-> ->]. cbn [trace].
  rewrite embedding_calls_snoc, store_calls_snoc. now split.
Qed.

(** The outcome of the embedding call is the same in every state; a call
    that raises leaves the store alone. *)
Lemma _generate_embedding_raises (text : str) (e : exn) (s : state) :
  embedding_generation E text = Raise e ->
  exists s',
    _generate_embedding E text s = (Raise e, s')
    /\ store_calls (trace s') = store_calls (trace s)
    /\ debug_log s' = debug_log s.
Proof.
  unfold embedding_generation, _generate_embedding.
  destruct (negb _); simpl.
  - intros H. injection H as <-. eexists. repeat split.
  - unfold bind, emit, lift. simpl.
    destruct (embeddings_create E text) as [v|e']; simpl; [discriminate|].
    intros H. injection H as <-. eexists. split; [reflexivity|]. simpl.
    now rewrite store_calls_snoc.
Qed.

(** A call that returns sent one request to the embedding service. *)
Lemma _generate_embedding_returns (text : str) (v : list pyfloat) (s : state) :
  embedding_generation E text = Return v ->
  _generate_embedding E text s =
  (Return v,
   {| ticks := ticks s; uuids := uuids s; debug_log := debug_log s;
      trace := trace s ++ [EmbeddingsCreate text] |}).
Proof.
  unfold embedding_generation, _generate_embedding.
  destruct (negb _); simpl; [discriminate|].
  unfold bind, emit, lift. simpl.
  destruct (embeddings_create E text) as [v'|e']; simpl; [|discriminate].
  intros H. now injection H as <-.
Qed.

(** A store operation that raises sends nothing to the embedding service. *)
Lemma execute_search_query_raises (pipeline : list val) (e : exn) (s : state) :
  store_operation E pipeline = Raise e ->
  exists s',
    execute_search_query E pipeline s = (Raise e, s')
    /\ embedding_calls (trace s') = embedding_calls (trace s).
Proof.
  unfold store_operation, execute_search_query, get_client, collection_aggregate,
    client_close, try_catch, bind, lift, ret, raise, log, emit.
  destruct (mongo_client E) as [e'|]; simpl.
  - intros H. injection H as <-. eexists. split; [reflexivity|]. simpl.
    now rewrite !embedding_calls_snoc.
  - destruct (aggregate E pipeline) as [r|e']; simpl; [discriminate|].
    intros H. injection H as <-. eexists. split; [reflexivity|]. simpl.
    now rewrite !embedding_calls_snoc.
Qed.

(** C1, as the code has it: when the query has text left after trimming and
    the embedding call raises, the outcome is the [Failure] variant with
    stage "openai_api_call", its message wraps the text of the exception,
    and the document store is not touched. *)
Theorem embedding_failure_is_reported
    (text_query : str) (min_price max_price : option val)
    (bedrooms bathrooms property_type location_keywords : option str)
    (mls_genuine : option bool) (limit : Z) (vector_search_index : str)
    (event_loop rtvi_instance : option handle) (s : state) (e : exn) :
  strip text_query <> [] ->
  embedding_generation E (strip text_query) = Raise e ->
  exists r s',
    execute_hybrid_search E text_query min_price max_price bedrooms bathrooms
      property_type location_keywords mls_genuine limit vector_search_index
      event_loop rtvi_instance s = (Return r, s')
    /\ is_failure r
    /\ failure_stage r = Some (lit "openai_api_call")
    /\ lookup (lit "error") r = Some (VStr (lit "OpenAI API error: " ++ exn_str e))
    /\ (exists started, lookup (lit "debug_log") r = Some (VList [VStr started]))
    /\ store_calls (trace s') = store_calls (trace s).
Proof.
  intros Hvalid Hemb. destruct s as [tk uu dl tr].
  destruct (execute_hybrid_search _ _ _ _ _ _ _ _ _ _ _ _ _ _) as [o s'] eqn:Hrun.
  unfold execute_hybrid_search in Hrun.
  rewrite (valid_query_accepted _ Hvalid) in Hrun.
  run_in Hrun.
  match type of Hrun with
  | context [_generate_embedding E ?t ?st] =>
      destruct (@_generate_embedding_raises _ _ st Hemb)
        as ([tk1 uu1 dl1 tr1] & Heq & Hs & Hlog);
      rewrite Heq in Hrun; clear Heq
  end.
  cbn [debug_log trace] in Hs, Hlog. subst dl1.
  run_in Hrun. schedule_in Hrun. injection Hrun as <- <-.
  eexists. eexists. split; [reflexivity|].
  split; [failure_tac|].
  split; [reflexivity|]. split; [reflexivity|].
  split; [eexists; reflexivity|].
  destruct Hq as [_ ->]. cbn [trace]. rewrite Hs.
  now rewrite store_calls_snoc.
Qed.

(** C2, as the code has it: when the embedding succeeds and the store
    operation raises, the outcome is the [Failure] variant with stage
    "mongodb_operation", its message wraps the text of the exception, and
    the embedding service was called exactly once. *)
Theorem store_failure_is_reported
    (text_query : str) (min_price max_price : option val)
    (bedrooms bathrooms property_type location_keywords : option str)
    (mls_genuine : option bool) (limit : Z) (vector_search_index : str)
    (event_loop rtvi_instance : option handle) (s : state)
    (embedding_vector : list pyfloat) (e : exn) :
  strip text_query <> [] ->
  embedding_generation E (strip text_query) = Return embedding_vector ->
  store_operation E
    (build_search_pipeline embedding_vector
       (build_match_conditions min_price max_price bedrooms bathrooms
          property_type location_keywords mls_genuine)
       limit vector_search_index) = Raise e ->
  exists r s',
    execute_hybrid_search E text_query min_price max_price bedrooms bathrooms
      property_type location_keywords mls_genuine limit vector_search_index
      event_loop rtvi_instance s = (Return r, s')
    /\ is_failure r
    /\ failure_stage r = Some (lit "mongodb_operation")
    /\ lookup (lit "error") r = Some (VStr (lit "MongoDB error: " ++ exn_str e))
    /\ embedding_calls (trace s') = S (embedding_calls (trace s)).
Proof.
  intros Hvalid Hemb Hstore. destruct s as [tk uu dl tr].
  destruct (execute_hybrid_search _ _ _ _ _ _ _ _ _ _ _ _ _ _) as [o s'] eqn:Hrun.
  unfold execute_hybrid_search in Hrun.
  rewrite (valid_query_accepted _ Hvalid) in Hrun.
  run_in Hrun.
  rewrite (@_generate_embedding_returns _ _ _ Hemb) in Hrun.
  run_in Hrun.
  match type of Hrun with
  | context [execute_search_query E ?p ?st] =>
      destruct (@execute_search_query_raises _ _ st Hstore) as (s1 & Heq & Hs);
      rewrite Heq in Hrun; clear Heq
  end.
  run_in Hrun. schedule_in Hrun. injection Hrun as <- <-.
  eexists. eexists. split; [reflexivity|].
  split; [failure_tac|].
  split; [reflexivity|]. split; [reflexivity|].
  destruct Hq as [-> _]. rewrite Hs. cbn [trace].
  now rewrite !embedding_calls_snoc.
Qed.

Lemma accepted_query_has_text (q : str) :
  negb (truthy (VStr q)) || negb (truthy (VStr (strip q))) = false ->
  strip q <> [].
Proof.
  intros H. apply orb_false_elim in H as [_ H].
  destruct (strip q); [discriminate | discriminate].
Qed.

Lemma _generate_embedding_outcome (text : str) (s : state) :
  fst (_generate_embedding E text s) = embedding_generation E text.
Proof.
  unfold embedding_generation, _generate_embedding.
  destruct (negb _); [reflexivity|].
  unfold bind, emit, lift. simpl. reflexivity.
Qed.

Lemma execute_search_query_outcome (pipeline : list val) (s : state) :
  fst (execute_search_query E pipeline s) = store_operation E pipeline.
Proof.
  unfold store_operation, execute_search_query, get_client, collection_aggregate,
    client_close, try_catch, bind, lift, ret, raise, log, emit.
  destruct (mongo_client E) as [e'|]; simpl; [reflexivity|].
  destruct (aggregate E pipeline) as [r|e']; reflexivity.
Qed.

(** C8: whatever the inputs and whatever the services do, the call returns
    a value: a [Failure] or a [Success].  It is a [Success] only when the
    query has text, the embedding call, the store operation and the
    formatter all returned; every other run ends in a [Failure]. *)
Theorem execute_hybrid_search_never_raises
    (text_query : str) (min_price max_price : option val)
    (bedrooms bathrooms property_type location_keywords : option str)
    (mls_genuine : option bool) (limit : Z) (vector_search_index : str)
    (event_loop rtvi_instance : option handle) (s : state) :
  exists r s',
    execute_hybrid_search E text_query min_price max_price bedrooms bathrooms
      property_type location_keywords mls_genuine limit vector_search_index
      event_loop rtvi_instance s = (Return r, s')
    /\ (is_failure r \/ is_success r)
    /\ (is_success r ->
        strip text_query <> []
        /\ exists embedding_vector results formatted,
             embedding_generation E (strip text_query) = Return embedding_vector
             /\ store_operation E
                  (build_search_pipeline embedding_vector
                     (build_match_conditions min_price max_price bedrooms
                        bathrooms property_type location_keywords mls_genuine)
                     limit vector_search_index) = Return results
             /\ format_search_results results = Return formatted
             /\ lookup (lit "properties") r = Some (VList formatted)).
Proof.
  destruct s as [tk uu dl tr].
  destruct (execute_hybrid_search _ _ _ _ _ _ _ _ _ _ _ _ _ _) as [o s'] eqn:Hrun.
  unfold execute_hybrid_search in Hrun.
  destruct (negb (truthy (VStr text_query))
            || negb (truthy (VStr (strip text_query)))) eqn:Hguard.
  { run_in Hrun. schedule_in Hrun. injection Hrun as <- <-.
    eexists. eexists. split; [reflexivity|]. split; [left; failure_tac|].
    intros (Hdone & _). discriminate Hdone. }
  apply accepted_query_has_text in Hguard.
  run_in Hrun.
  match type of Hrun with
  | context [_generate_embedding E ?t ?st] =>
      pose proof (_generate_embedding_outcome t st) as Hemb;
      destruct (_generate_embedding E t st) as [[v|e] [tk1 uu1 dl1 tr1]]
  end; simpl in Hemb; symmetry in Hemb; run_in Hrun.
  2:{ schedule_in Hrun. injection Hrun as <- <-.
      eexists. eexists. split; [reflexivity|]. split; [left; failure_tac|].
      intros (Hdone & _). discriminate Hdone. }
  match type of Hrun with
  | context [execute_search_query E ?p ?st] =>
      pose proof (execute_search_query_outcome p st) as Hstore;
      destruct (execute_search_query E p st) as [[results|e] [tk2 uu2 dl2 tr2]]
  end; simpl in Hstore; symmetry in Hstore; run_in Hrun.
  2:{ schedule_in Hrun. injection Hrun as <- <-.
      eexists. eexists. split; [reflexivity|]. split; [left; failure_tac|].
      intros (Hdone & _). discriminate Hdone. }
  destruct (format_search_results results) as [formatted|e] eqn:Hfmt.
  2:{ run_in Hrun. schedule_in Hrun. injection Hrun as <- <-.
      destruct (format_exc E e).
      all: eexists; eexists; (split; [reflexivity|]).
      all: split; [left; failure_tac | intros (Hdone & _); discriminate Hdone]. }
  destruct (omap _ formatted) as [scores|e] eqn:Hscores.
  2:{ run_in Hrun. schedule_in Hrun. injection Hrun as <- <-.
      destruct (format_exc E e).
      all: eexists; eexists; (split; [reflexivity|]).
      all: split; [left; failure_tac | intros (Hdone & _); discriminate Hdone]. }
  schedule_in Hrun. injection Hrun as <- <-.
  eexists. eexists. split; [reflexivity|].
  split; [right; repeat split|].
  intros _. split; [exact Hguard|].
  exists v, results, formatted. repeat split; auto.
Qed.

End OrchestratorFacts.

(* ================================================================= *)
(** ** Runs of the orchestrator and the dispatcher *)

Section Runs.
Import IntegralRuntime Samples.

Lemma blank_query_fails_validation_witness :
  whitespace_only (lit "   ") = true
  /\ exists r s',
       search (world (Return [1; 2; 3]) (Return [])) (lit "   ") initial
       = (Return r, s')
       /\ is_failure r
       /\ failure_stage r = Some (lit "input_validation")
       /\ embedding_calls (trace s') = embedding_calls (trace initial)
       /\ store_calls (trace s') = store_calls (trace initial).
Proof.
  split; [reflexivity|].
  exact (@blank_query_fails_validation _ (world (Return [1; 2; 3]) (Return []))
           (lit "   ") None None None None None None None 10 (lit "vector_index")
           (Some 1%nat) (Some 2%nat) initial eq_refl).
Defined.

Lemma embedding_failure_is_reported_witness :
  let E := world (Raise embedding_down) (Return []) in
  strip (lit "house") <> []
  /\ embedding_generation E (strip (lit "house")) = Raise embedding_down
  /\ exists r s',
       search E (lit "house") initial = (Return r, s')
       /\ is_failure r
       /\ failure_stage r = Some (lit "openai_api_call")
       /\ lookup (lit "error") r
          = Some (VStr (lit "OpenAI API error: Connection error."))
       /\ (exists started, lookup (lit "debug_log") r = Some (VList [VStr started]))
       /\ store_calls (trace s') = store_calls (trace initial).
Proof.
  intros E.
  assert (Hq : strip (lit "house") <> []) by (vm_compute; discriminate).
  split; [exact Hq|]. split; [reflexivity|].
  exact (@embedding_failure_is_reported _ E (lit "house") None None None None
           None None None 10 (lit "vector_index") (Some 1%nat) (Some 2%nat)
           initial embedding_down Hq eq_refl).
Defined.

(** C1 as stated fails: the stage tag of an embedding failure is not
    "embedding_generation". *)
Lemma embedding_failure_stage_tag :
  let E := world (Raise embedding_down) (Return []) in
  strip (lit "house") <> []
  /\ embedding_generation E (strip (lit "house")) = Raise embedding_down
  /\ match search E (lit "house") initial with
     | (Return r, _) =>
         failure_stage r = Some (lit "openai_api_call")
         /\ failure_stage r <> Some (lit "embedding_generation")
     | (Raise _, _) => False
     end.
Proof.
  split; [vm_compute; discriminate|]. split; [reflexivity|].
  vm_compute. split; [reflexivity | discriminate].
Qed.

Lemma store_failure_is_reported_witness :
  let E := world (Return [1; 2; 3]) (Raise store_down) in
  strip (lit "house") <> []
  /\ embedding_generation E (strip (lit "house")) = Return [1; 2; 3]
  /\ exists r s',
       search E (lit "house") initial = (Return r, s')
       /\ is_failure r
       /\ failure_stage r = Some (lit "mongodb_operation")
       /\ lookup (lit "error") r
          = Some (VStr (lit "MongoDB error: connection refused"))
       /\ embedding_calls (trace s') = S (embedding_calls (trace initial)).
Proof.
  intros E.
  assert (Hq : strip (lit "house") <> []) by (vm_compute; discriminate).
  split; [exact Hq|]. split; [reflexivity|].
  exact (@store_failure_is_reported _ E (lit "house") None None None None
           None None None 10 (lit "vector_index") (Some 1%nat) (Some 2%nat)
           initial [1; 2; 3] store_down Hq eq_refl eq_refl).
Defined.

(** C2 as stated fails: the stage tag of a store failure is not
    "data_store_operation". *)
Lemma store_failure_stage_tag :
  let E := world (Return [1; 2; 3]) (Raise store_down) in
  strip (lit "house") <> []
  /\ embedding_generation E (strip (lit "house")) = Return [1; 2; 3]
  /\ store_operation E
       (build_search_pipeline [1; 2; 3] [] 10 (lit "vector_index"))
     = Raise store_down
  /\ match search E (lit "house") initial with
     | (Return r, s') =>
         failure_stage r = Some (lit "mongodb_operation")
         /\ failure_stage r <> Some (lit "data_store_operation")
         /\ embedding_calls (trace s') = 1%nat
     | (Raise _, _) => False
     end.
Proof.
  split; [vm_compute; discriminate|]. split; [reflexivity|].
  split; [reflexivity|].
  vm_compute. split; [reflexivity|]. split; [discriminate | reflexivity].
Qed.

(** The scenario of the empty store: the outcome is a [Success] with no
    match, and the coroutine that sends this outcome pushes one envelope,
    of the error kind. *)
Lemma empty_store_scenario :
  let E := world (Return [1; 2; 3]) (Return []) in
  match search E (lit "castle on the moon") initial with
  | (Return r, _) =>
      is_success r
      /\ lookup (lit "results_found") r = Some (VInt 0)
      /\ lookup (lit "properties") r = Some (VList [])
      /\ map envelope_kind
           (pushed_frames
              (trace (snd (send_property_search_results E (Some 2%nat) r
                             (lit "castle on the moon") initial))))
         = [Some (lit "property_search_error")]
  | (Raise _, _) => False
  end.
Proof. vm_compute. repeat split. Qed.

(** A raw match the formatter cannot read: the exception is caught at the
    top level and the outcome is a [Failure] with stage "unexpected_error"
    that carries the traceback. *)
Lemma malformed_match_scenario :
  let E := world (Return [1; 2; 3]) (Return [malformed]) in
  match search E (lit "house") initial with
  | (Return r, _) =>
      failure_stage r = Some (lit "unexpected_error")
      /\ lookup (lit "search_completed") r = None
      /\ lookup (lit "full_traceback") r <> None
  | (Raise _, _) => False
  end.
Proof. vm_compute. repeat split. discriminate. Qed.

Lemma empty_success_is_sent_as_error_witness :
  let E := world (Return [1; 2; 3]) (Return []) in
  let outcome : dict :=
    [(lit "search_completed", VBool true);
     (lit "query", VStr (lit "castle on the moon"));
     (lit "results_found", VInt 0);
     (lit "properties", VList [])] in
  is_success outcome
  /\ lookup (lit "properties") outcome = Some (VList [])
  /\ exists s',
       send_property_search_results E (Some 2%nat) outcome
         (lit "castle on the moon") initial = (Return tt, s')
       /\ pushed_frames (trace s') =
          [VDict
             [(lit "type", VStr (lit "property_search_error"));
              (lit "timestamp", VFloat 0);
              (lit "search_id", VStr (lit "uuid-0"));
              (lit "query", VStr (lit "castle on the moon"));
              (lit "error", VStr (lit "No properties found"));
              (lit "failure_point", VStr (lit "unknown"))]].
Proof.
  intros E outcome.
  assert (Hs : is_success outcome) by (repeat split).
  split; [exact Hs|]. split; [reflexivity|].
  destruct (@empty_success_is_sent_as_error _ E 2%nat outcome
              (lit "castle on the moon") initial Hs eq_refl)
    as ((s' & Hrun & Hframes) & _).
  exists s'. split; [exact Hrun | exact Hframes].
Defined.

End Runs.

(* ================================================================= *)
(** ** Further properties of the query composer *)

Section ComposerMore.
Context {R : PyRuntime}.

Lemma distinct_NoDup (l : list str) : distinct l = true -> NoDup l.
Proof.
  induction l as [|k l IH]; simpl; intros H; constructor.
  - apply andb_prop in H as [H _]. intros Hin.
    apply negb_true_iff in H.
    assert (existsb (str_eqb k) l = true).
    { apply existsb_exists. exists k. split; [exact Hin | apply str_eqb_refl]. }
    congruence.
  - apply andb_prop in H as [_ H]. auto.
Qed.

(** The filter has one predicate per constrained field, the two price
    bounds sharing one, and no field path twice; without any argument it is
    empty. *)
Theorem build_match_conditions_size
    (min_price max_price : option val)
    (bedrooms bathrooms property_type location_keywords : option str)
    (mls_genuine : option bool) :
  let match_conditions :=
    build_match_conditions min_price max_price bedrooms bathrooms
      property_type location_keywords mls_genuine in
  List.length match_conditions =
    (given_price min_price max_price + given bedrooms + given bathrooms
     + given property_type + given location_keywords + given mls_genuine)%nat
  /\ NoDup (map fst match_conditions).
Proof.
  destruct min_price, max_price, bedrooms, bathrooms, property_type,
    location_keywords, mls_genuine.
  all: split; [reflexivity | apply distinct_NoDup; reflexivity].
Qed.

(** Every argument can be read back from the filter at its field path: the
    price bounds as one range, the counts as strings, the type and the
    location as escaped case-insensitive patterns, the flag as a boolean, an
    explicit [False] included; a field without argument has no entry. *)
Theorem build_match_conditions_lookup
    (min_price max_price : option val)
    (bedrooms bathrooms property_type location_keywords : option str)
    (mls_genuine : option bool) :
  let match_conditions :=
    build_match_conditions min_price max_price bedrooms bathrooms
      property_type location_keywords mls_genuine in
  lookup (lit "property_details.listed_price") match_conditions
    = price_range min_price max_price
  /\ lookup (lit "property_details.bedrooms") match_conditions
     = option_map (@VStr _) bedrooms
  /\ lookup (lit "property_details.bathrooms") match_conditions
     = option_map (@VStr _) bathrooms
  /\ lookup (lit "property_details.property_type") match_conditions
     = option_map (fun t => regex_i (re_escape t)) property_type
  /\ lookup (lit "property_details.address") match_conditions
     = option_map (fun l => regex_i (re_escape l)) location_keywords
  /\ lookup (lit "property_details.mls_is_genuine") match_conditions
     = option_map (@VBool _) mls_genuine.
Proof.
  destruct min_price, max_price, bedrooms, bathrooms, property_type,
    location_keywords, mls_genuine.
  all: repeat split.
Qed.

(** The plan is made of one-operator stages in this order: the vector
    stage first, the score stage second, the filter stage third exactly when
    the filter is not empty, then the projection, the sort by descending
    score and the final limit; so it has five or six stages.  The vector
    stage searches the path "embedding" on the given index with the given
    vector, and the filter stage carries the filter as it is. *)
Theorem build_search_pipeline_shape
    (embedding_vector : list pyfloat) (match_conditions : dict)
    (limit : Z) (vector_search_index : str) :
  let pipeline :=
    build_search_pipeline embedding_vector match_conditions limit
      vector_search_index in
  map stage_name pipeline
  = map Some
      ([lit "$vectorSearch"; lit "$addFields"]
       ++ (if truthy (VDict match_conditions) then [lit "$match"] else [])
       ++ [lit "$project"; lit "$sort"; lit "$limit"])
  /\ List.length pipeline = (if truthy (VDict match_conditions) then 6 else 5)%nat
  /\ (exists search,
        nth_error pipeline 0 = Some (VDict [(lit "$vectorSearch", VDict search)])
        /\ map fst search
           = [lit "index"; lit "path"; lit "queryVector"; lit "numCandidates";
              lit "limit"]
        /\ lookup (lit "index") search = Some (VStr vector_search_index)
        /\ lookup (lit "path") search = Some (VStr (lit "embedding"))
        /\ lookup (lit "queryVector") search
           = Some (VList (map (@VFloat _) embedding_vector)))
  /\ nth_error pipeline 1
     = Some (VDict [(lit "$addFields", VDict
          [(lit "search_score",
            VDict [(lit "$meta", VStr (lit "vectorSearchScore"))])])])
  /\ nth_error pipeline 2
     = Some (if truthy (VDict match_conditions)
             then VDict [(lit "$match", VDict match_conditions)]
             else projection)
  /\ stage_body (lit "$match") pipeline
     = (if truthy (VDict match_conditions)
        then Some (VDict match_conditions) else None)
  /\ stage_param (lit "$vectorSearch") (lit "index") pipeline
     = Some (VStr vector_search_index)
  /\ stage_param (lit "$vectorSearch") (lit "queryVector") pipeline
     = Some (VList (map (@VFloat _) embedding_vector))
  /\ stage_body (lit "$sort") pipeline
     = Some (VDict [(lit "search_score", VInt (-1))])
  /\ last pipeline VNone = VDict [(lit "$limit", VInt limit)].
Proof.
  destruct match_conditions as [|[k x] rest].
  all: split; [reflexivity|]; split; [reflexivity|].
  all: split; [eexists; split; [reflexivity|]; repeat split|].
  all: repeat split.
Qed.

(** The candidate pool of the vector stage is the smaller of 100 and ten
    times the final limit, and the intermediate limit of the same stage is
    five times the final limit.  So the pool never exceeds 100; up to a
    final limit of 10 it is ten times the limit; for a final limit from 1
    to 20 it covers the intermediate limit; above 20 it stays at 100 and is
    smaller than the intermediate limit. *)
Theorem build_search_pipeline_bounds
    (embedding_vector : list pyfloat) (match_conditions : dict)
    (limit : Z) (vector_search_index : str) :
  let pipeline :=
    build_search_pipeline embedding_vector match_conditions limit
      vector_search_index in
  let pool := Z.min 100 (limit * 10) in
  let intermediate := limit * 5 in
  stage_param (lit "$vectorSearch") (lit "numCandidates") pipeline
    = Some (VInt pool)
  /\ stage_param (lit "$vectorSearch") (lit "limit") pipeline
     = Some (VInt intermediate)
  /\ stage_body (lit "$limit") pipeline = Some (VInt limit)
  /\ pool <= 100
  /\ (limit <= 10 -> pool = 10 * limit)
  /\ (1 <= limit <= 20 -> intermediate <= pool)
  /\ (20 < limit -> pool = 100 /\ pool < intermediate).
Proof.
  intros pipeline pool intermediate. subst pipeline pool intermediate.
  split; [|split; [|split]].
  1-3: destruct match_conditions as [|[k x] rest]; reflexivity.
  repeat split; lia.
Qed.

End ComposerMore.

(* ================================================================= *)
(** ** Further properties of the search executor *)

Section ExecutorMore.
Context {R : PyRuntime}.
Variable E : env.

Lemma count_ev_snoc (P : event -> bool) (t : list event) (ev : event) :
  count_ev P (t ++ [ev]) = if P ev then S (count_ev P t) else count_ev P t.
Proof.
  unfold count_ev. rewrite filter_app, length_app. simpl.
  destruct (P ev); simpl; lia.
Qed.

(** A query the store answers: the matches come back as they are, and the
    run is one connection, one aggregation and one close, in this order. *)
Lemma execute_search_query_returns
    (pipeline : list val) (results : list dict) (s : state) :
  mongo_client E = None ->
  aggregate E pipeline = Return results ->
  execute_search_query E pipeline s =
  (Return results,
   {| ticks := ticks s; uuids := uuids s; debug_log := debug_log s;
      trace := trace s ++ [MongoConnect true; MongoAggregate pipeline; MongoClose] |}).
Proof.
  intros Hc Ha.
  unfold execute_search_query, get_client, collection_aggregate, client_close,
    try_catch, bind, lift, ret, raise, log, emit.
  rewrite Hc. simpl. rewrite Ha. simpl.
  now rewrite <- !app_assoc.
Qed.

(** The executor neither swallows nor retries: its outcome is the failure
    to connect, or else whatever the aggregation returned or raised; it
    makes one connection attempt, and one aggregation when connected.  When
    the store answers, the run is one connection, one aggregation and one
    close, in this order. *)
Theorem execute_search_query_is_transparent (pipeline : list val) (s : state) :
  let run := execute_search_query E pipeline s in
  fst run = match mongo_client E with
            | Some e => Raise e
            | None => aggregate E pipeline
            end
  /\ count_ev is_connect (trace (snd run)) = S (count_ev is_connect (trace s))
  /\ count_ev is_aggregate (trace (snd run))
     = (count_ev is_aggregate (trace s)
        + match mongo_client E with Some _ => 0 | None => 1 end)%nat
  /\ (forall results, fst run = Return results ->
      trace (snd run)
      = trace s ++ [MongoConnect true; MongoAggregate pipeline; MongoClose]).
Proof.
  unfold execute_search_query, get_client, collection_aggregate, client_close,
    try_catch, bind, lift, ret, raise, log, emit.
  destruct (mongo_client E) as [e|]; simpl.
  - rewrite !count_ev_snoc. simpl. repeat split; try lia. discriminate.
  - destruct (aggregate E pipeline) as [r|e]; simpl;
      rewrite !count_ev_snoc; simpl; repeat split; try lia; try discriminate.
    intros _ _. now rewrite <- !app_assoc.
Qed.

End ExecutorMore.

(* ================================================================= *)
(** ** Further properties of the result formatter *)

Section FormatterMore.
Context {R : PyRuntime}.

Lemma Forall2_length_eq {A B} (P : A -> B -> Prop) (l : list A) (l' : list B) :
  Forall2 P l l' -> List.length l = List.length l'.
Proof. induction 1; simpl; congruence. Qed.

(** The formatter keeps the matches in number and in order: the [i]-th
    record carries the identifier and the URL of the [i]-th match. *)
Theorem format_search_results_keeps_order (results : list dict) (out : list val) :
  format_search_results results = Return out ->
  List.length out = List.length results
  /\ Forall2
       (fun result p =>
          py_item p (lit "property_id") = Return (VStr (record_id result))
          /\ py_item p (lit "url")
             = Return (dict_get result (lit "property_url") (VStr [])))
       results out.
Proof.
  intros H. apply omap_Forall2 in H. split.
  - symmetry. eapply Forall2_length_eq. exact H.
  - eapply Forall2_impl; [|exact H]. clear. intros result p H. simpl in H.
    apply format_property_inv in H as
      (details & info & image_urls & primary & score & description
       & _ & _ & _ & _ & _ & _ & ->).
    split; reflexivity.
Qed.

(** The image list and the primary image of a match whose processing
    information is a document. *)
Lemma derive_image_urls_returns (result info : dict) :
  exists image_urls primary,
    derive_image_urls result (VDict info) = Return image_urls
    /\ (if truthy image_urls then py_first image_urls else Return (VStr []))
       = Return primary.
Proof.
  unfold derive_image_urls. simpl py_get. simpl obind.
  destruct (dict_get info (lit "images_analyzed") (VList [])) as
    [ | b | z | x | s | h | l | d ]; simpl; rewrite ?andb_false_r;
    try (eexists; eexists; split; reflexivity).
  destruct l; simpl; eexists; eexists; split; reflexivity.
Qed.

Lemma format_property_readable (result : dict) :
  (exists p, format_property result = Return p) <-> readable result = true.
Proof.
  split.
  - intros [p H].
    apply format_property_inv in H as
      (details & info & image_urls & primary & score & description
       & Hdet & Hinfo & _ & _ & Hscore & Hdesc & _).
    unfold readable. rewrite Hdet, Hinfo. simpl.
    destruct (dict_get result (lit "search_score") (VInt 0));
      simpl in Hscore; try discriminate Hscore; simpl.
    all: destruct (dict_get details (lit "mls_description") (VStr []))
      as [ | db | dz | dx | dt | dh | dl | dd ]; simpl in Hdesc |- *;
      try reflexivity.
    all: try (destruct db; simpl in Hdesc |- *; try reflexivity; discriminate Hdesc).
    all: try (destruct (negb (dz =? 0)); simpl in Hdesc |- *;
              try reflexivity; discriminate Hdesc).
    all: try (destruct (float_bool dx); simpl in Hdesc |- *;
              try reflexivity; discriminate Hdesc).
    all: try (destruct dl; simpl in Hdesc |- *; try reflexivity; discriminate Hdesc).
    all: try (destruct dd; simpl in Hdesc |- *; try reflexivity; discriminate Hdesc).
    all: try (destruct dt; reflexivity).
    all: discriminate Hdesc.
  - unfold readable, format_property.
    destruct (dict_get result (lit "property_details") (VDict []))
      as [ | | | | | | | details ]; try discriminate.
    destruct (dict_get result (lit "processing_info") (VDict []))
      as [ | | | | | | | info ]; try discriminate. simpl.
    intros H. apply andb_prop in H as [Hscore Hdesc].
    destruct (derive_image_urls_returns result info)
      as (image_urls & primary & -> & Hprim).
    simpl. rewrite Hprim. simpl.
    destruct (dict_get result (lit "search_score") (VInt 0));
      try discriminate Hscore; simpl.
    all: destruct (dict_get details (lit "mls_description") (VStr []))
      as [ | db | dz | dx | dt | dh | dl | dd ]; simpl in Hdesc |- *;
      try discriminate Hdesc; try (eexists; reflexivity).
    all: try (destruct db; simpl in Hdesc |- *;
              try discriminate Hdesc; eexists; reflexivity).
    all: try (destruct (negb (dz =? 0)); simpl in Hdesc |- *;
              try discriminate Hdesc; eexists; reflexivity).
    all: try (destruct (float_bool dx); simpl in Hdesc |- *;
              try discriminate Hdesc; eexists; reflexivity).
    all: try (destruct dt; eexists; reflexivity).
    all: try (destruct dl; simpl in Hdesc |- *;
              try discriminate Hdesc; eexists; reflexivity).
    all: try (destruct dd; simpl in Hdesc |- *;
              try discriminate Hdesc; eexists; reflexivity).
Qed.

(** The formatter returns exactly when every match is readable; it raises
    on a match whose details or processing information are not documents,
    whose score is not a number, or whose description is a true value that
    is not a string. *)
Theorem format_search_results_returns_iff (results : list dict) :
  (exists out, format_search_results results = Return out)
  <-> forallb readable results = true.
Proof.
  unfold format_search_results.
  induction results as [|r results IH]; simpl.
  - split; [reflexivity | intros _; now eexists].
  - split.
    + intros [out H].
      apply obind_Return in H as (p & Hp & H).
      apply obind_Return in H as (ps & Hps & _).
      apply andb_true_intro. split.
      * apply format_property_readable. now exists p.
      * apply IH. now exists ps.
    + intros H. apply andb_prop in H as [Hr Hrs].
      apply format_property_readable in Hr as [p ->].
      apply IH in Hrs as [ps ->]. simpl. now eexists.
Qed.

(** A match that has neither details, nor processing information, nor a
    score is formatted with the documented defaults: "N/A" for the detail
    fields and the status, "CAD" for the currency, 0 for the score, the
    empty description and the three placeholder images. *)
Theorem format_property_defaults (result : dict) :
  lookup (lit "property_details") result = None ->
  lookup (lit "processing_info") result = None ->
  lookup (lit "search_score") result = None ->
  format_property result =
  Return (VDict
    [(lit "property_id", VStr (record_id result));
     (lit "url", dict_get result (lit "property_url") (VStr []));
     (lit "image_urls", VList (placeholder_urls (record_id result)));
     (lit "primary_image",
        VStr (lit "https://images.realtor.com/property/" ++ record_id result
              ++ lit "/main.jpg"));
     (lit "address", VStr (lit "N/A"));
     (lit "price", VStr (lit "N/A"));
     (lit "currency", VStr (lit "CAD"));
     (lit "bedrooms", VStr (lit "N/A"));
     (lit "bathrooms", VStr (lit "N/A"));
     (lit "property_type", VStr (lit "N/A"));
     (lit "mls_number", VStr (lit "N/A"));
     (lit "mls_genuine", VStr (lit "N/A"));
     (lit "search_score", VInt 0);
     (lit "status", VStr (lit "N/A"));
     (lit "description", VStr [])]).
Proof.
  intros Hd Hi Hs.
  unfold format_property, derive_image_urls, record_id, dict_get.
  rewrite Hd, Hi, Hs. reflexivity.
Qed.

End FormatterMore.

(* ================================================================= *)
(** ** The connection test *)

Section ConnectionTestFacts.
Context {R : PyRuntime}.
Variable E : env.

(** The connection test never raises.  It answers [True] exactly when the
    client connects and the ping succeeds, and then the connection is
    closed again; when the ping fails it answers [False] after one error
    log and the connection it opened stays open. *)
Theorem test_connection_outcome (ping : option exn) (s : state) :
  exists answer s',
    test_connection E ping s = (Return answer, s')
    /\ answer = match mongo_client E, ping with
                | None, None => true
                | _, _ => false
                end
    /\ open_connections (trace s')
       = open_connections (trace s)
         + match mongo_client E, ping with
           | None, Some _ => 1
           | _, _ => 0
           end
    /\ count_ev is_aggregate (trace s') = count_ev is_aggregate (trace s).
Proof.
  unfold test_connection, get_client, admin_ping, client_close,
    try_catch, bind, ret, raise, log, emit.
  destruct (mongo_client E) as [e|]; [|destruct ping as [e|]]; simpl.
  all: eexists; eexists; split; [reflexivity|]; split; [reflexivity|]; simpl.
  all: rewrite !open_connections_app, !count_ev_snoc; simpl.
  all: unfold open_connections; simpl; split; lia.
Qed.

End ConnectionTestFacts.

(* ================================================================= *)
(** ** Counting events *)

Section Counting.
Context {R : PyRuntime}.
Variable P : event -> bool.

Lemma keeps_ret {A} (a : A) : keeps P (ret a).
Proof. intros s. reflexivity. Qed.

Lemma keeps_raise {A} (e : exn) : keeps P (@raise _ A e).
Proof. intros s. reflexivity. Qed.

Lemma keeps_lift {A} (o : outcome A) : keeps P (lift o).
Proof. intros s. reflexivity. Qed.

Lemma keeps_time_time (E : env) : keeps P (time_time E).
Proof. intros s. reflexivity. Qed.

Lemma keeps_new_uuid (E : env) : keeps P (new_uuid E).
Proof. intros s. reflexivity. Qed.

Lemma keeps_emit (ev : event) : P ev = false -> keeps P (emit ev).
Proof. intros H s. simpl. rewrite count_ev_snoc. now rewrite H. Qed.

Lemma keeps_bind {A B} (c : M A) (k : A -> M B) :
  keeps P c -> (forall a, keeps P (k a)) -> keeps P (bind c k).
Proof.
  intros Hc Hk s. unfold bind. specialize (Hc s).
  destruct (c s) as [[a|e] s1]; simpl in *; [|exact Hc].
  now rewrite Hk.
Qed.

Lemma keeps_try_catch {A} (c : M A) (h : exn -> M A) :
  keeps P c -> (forall e, keeps P (h e)) -> keeps P (try_catch c h).
Proof.
  intros Hc Hh s. unfold try_catch. specialize (Hc s).
  destruct (c s) as [[a|e] s1]; simpl in *; [exact Hc|].
  now rewrite Hh.
Qed.

Lemma keeps_attempt {A} (c : M A) : keeps P c -> keeps P (attempt c).
Proof.
  intros Hc s. unfold attempt. specialize (Hc s).
  now destruct (c s) as [o s1].
Qed.

Lemma grows_keeps {A} (n : nat) (c : M A) : keeps P c -> grows P n c.
Proof. intros H s. rewrite H. lia. Qed.

Lemma grows_emit (ev : event) : grows P 1 (emit ev).
Proof.
  intros s. simpl. rewrite count_ev_snoc. destruct (P ev); lia.
Qed.

(** A step that adds nothing, then a continuation. *)
Lemma grows_after {A B} (n : nat) (c : M A) (k : A -> M B) :
  keeps P c -> (forall a, grows P n (k a)) -> grows P n (bind c k).
Proof.
  intros Hc Hk s. unfold bind. specialize (Hc s).
  destruct (c s) as [[a|e] s1]; simpl in *; [|lia].
  specialize (Hk a s1). lia.
Qed.

(** A step, then a continuation that adds nothing. *)
Lemma grows_before {A B} (n : nat) (c : M A) (k : A -> M B) :
  grows P n c -> (forall a, keeps P (k a)) -> grows P n (bind c k).
Proof.
  intros Hc Hk s. unfold bind. specialize (Hc s).
  destruct (c s) as [[a|e] s1]; simpl in *; [|exact Hc].
  now rewrite Hk.
Qed.

Lemma grows_try_catch {A} (n : nat) (c : M A) (h : exn -> M A) :
  grows P n c -> (forall e, keeps P (h e)) -> grows P n (try_catch c h).
Proof.
  intros Hc Hh s. unfold try_catch. specialize (Hc s).
  destruct (c s) as [[a|e] s1]; simpl in *; [exact Hc|].
  now rewrite Hh.
Qed.

Lemma grows_attempt {A} (n : nat) (c : M A) : grows P n c -> grows P n (attempt c).
Proof.
  intros Hc s. unfold attempt. specialize (Hc s).
  now destruct (c s) as [o s1].
Qed.

End Counting.

#[local] Hint Resolve keeps_ret keeps_raise keeps_lift keeps_time_time
  keeps_new_uuid keeps_attempt : py.

(** Decomposes a goal [keeps P c] along the structure of [c]. *)
Ltac keeps_step :=
  cbv beta zeta;
  lazymatch goal with
  | |- keeps _ (bind _ _) => apply keeps_bind; [|intros ?]
  | |- keeps _ (try_catch _ _) => apply keeps_try_catch; [|intros ?]
  | |- keeps _ (try_timeout _ _) => unfold try_timeout
  | |- keeps _ (attempt _) => apply keeps_attempt
  | |- keeps _ (log _ _) => apply keeps_emit; reflexivity
  | |- keeps _ (emit _) => apply keeps_emit; reflexivity
  | |- keeps _ (match ?x with _ => _ end) => destruct x
  | |- keeps _ _ => solve [auto with py]
  end.

Ltac keeps_tac := repeat keeps_step.

(* ================================================================= *)
(** ** Further properties of the notification dispatcher *)

Section DispatcherMore.
Context {R : PyRuntime}.
Variable E : env.

Lemma wait_for_push_grows (rtvi : handle) (data : val) (t : Z) :
  grows is_push 1 (wait_for_push E rtvi data t).
Proof.
  unfold wait_for_push. apply grows_before; [apply grows_emit|].
  intros []. keeps_tac.
Qed.

Lemma send_property_search_error_pushes
    (rtvi_instance : option handle) (search_data : dict) (text_query : str) :
  grows is_push 1
    (send_property_search_error E rtvi_instance search_data text_query).
Proof.
  unfold send_property_search_error.
  apply grows_try_catch; [|intros e; keeps_tac].
  destruct rtvi_instance as [rtvi|]; [|apply grows_keeps; keeps_tac].
  apply grows_after; [keeps_tac|intros timestamp].
  apply grows_after; [keeps_tac|intros search_id]. cbv zeta.
  unfold try_timeout. apply grows_try_catch.
  - apply grows_before; [apply wait_for_push_grows | intros []; keeps_tac].
  - intros e. keeps_tac.
Qed.

Lemma send_property_search_results_pushes
    (rtvi_instance : option handle) (search_data : dict) (text_query : str) :
  grows is_push 1
    (send_property_search_results E rtvi_instance search_data text_query).
Proof.
  unfold send_property_search_results.
  apply grows_try_catch; [|intros e; keeps_tac].
  destruct rtvi_instance as [rtvi|]; [|apply grows_keeps; keeps_tac].
  destruct (_ && _); [|apply send_property_search_error_pushes].
  apply grows_after; [keeps_tac|intros timestamp].
  apply grows_after; [keeps_tac|intros search_id].
  apply grows_after; [keeps_tac|intros properties].
  apply grows_after; [keeps_tac|intros showing].
  apply grows_after; [keeps_tac|intros props].
  apply grows_after; [keeps_tac|intros messages]. cbv zeta.
  unfold try_timeout. apply grows_try_catch.
  - apply grows_before; [apply wait_for_push_grows | intros []; keeps_tac].
  - intros e. keeps_tac.
Qed.

Lemma send_property_search_error_submits
    (rtvi_instance : option handle) (search_data : dict) (text_query : str) :
  keeps is_submit
    (send_property_search_error E rtvi_instance search_data text_query).
Proof. unfold send_property_search_error, wait_for_push. keeps_tac. Qed.

Lemma send_property_search_results_submits
    (rtvi_instance : option handle) (search_data : dict) (text_query : str) :
  keeps is_submit
    (send_property_search_results E rtvi_instance search_data text_query).
Proof.
  unfold send_property_search_results, wait_for_push.
  apply keeps_try_catch; [|intros e; keeps_tac].
  destruct rtvi_instance as [rtvi|]; [|keeps_tac].
  destruct (_ && _); [keeps_tac|apply send_property_search_error_submits].
Qed.

(** What one scheduling call does to the trace: it returns, it makes no
    embedding or store call, it submits one coroutine when both handles are
    there and the loop accepts it and none otherwise, and it hands at most
    one frame to the session. *)
Lemma schedule_rtvi_message_effect
    (event_loop rtvi_instance : option handle) (search_data : dict)
    (text_query : str) (s : state) :
  exists s',
    schedule_rtvi_message E event_loop rtvi_instance search_data text_query s
    = (Return tt, s')
    /\ quiet s s'
    /\ count_ev is_submit (trace s')
       = (count_ev is_submit (trace s)
          + match event_loop, rtvi_instance with
            | Some loop, Some _ =>
                match run_coroutine_threadsafe E loop with
                | None => 1
                | Some _ => 0
                end
            | _, _ => 0
            end)%nat
    /\ (count_ev is_push (trace s') <= count_ev is_push (trace s) + 1)%nat
    /\ (count_ev is_submit (trace s') = count_ev is_submit (trace s) ->
        count_ev is_push (trace s') = count_ev is_push (trace s)).
Proof.
  destruct (schedule_rtvi_message_safe E event_loop rtvi_instance search_data
              text_query s) as ([] & s' & Hrun & Hq).
  exists s'. split; [exact Hrun|]. split; [exact Hq|].
  replace s' with
    (snd (schedule_rtvi_message E event_loop rtvi_instance search_data text_query s))
    by now rewrite Hrun.
  clear Hrun Hq s'.
  unfold schedule_rtvi_message.
  destruct event_loop as [loop|]; [destruct rtvi_instance as [rtvi|]|].
  2,3: simpl; rewrite !count_ev_snoc; simpl; repeat split; lia.
  unfold submit.
  destruct (run_coroutine_threadsafe E loop) as [e|].
  - simpl. rewrite !count_ev_snoc. simpl. repeat split; lia.
  - pose proof (send_property_search_results_submits (Some rtvi) search_data
                  text_query) as Hsub.
    pose proof (send_property_search_results_pushes (Some rtvi) search_data
                  text_query) as Hpush.
    destruct s as [tk uu dl tr].
    cbv beta iota zeta delta
      [bind ret try_catch attempt emit log debug_log trace ticks uuids].
    match goal with
    | |- context [send_property_search_results E ?h ?d ?q ?st] =>
        specialize (Hsub st); specialize (Hpush st);
        destruct (send_property_search_results E h d q st) as [o [tk1 uu1 dl1 tr1]]
    end.
    cbn [snd trace] in Hsub, Hpush. rewrite count_ev_snoc in Hsub, Hpush.
    cbn [is_submit is_push] in Hsub, Hpush.
    destruct o; cbn [snd trace]; rewrite !count_ev_snoc; cbn [is_submit is_push].
    all: repeat split; lia.
Qed.

(** The dispatcher never raises back to its caller and tries at most one
    transmission: whatever the outcome, the handles, the loop and the
    session do, it submits at most one coroutine and hands at most one
    frame to the session, a push that timed out or failed is not repeated,
    and it calls neither the embedding service nor the store. *)
Theorem dispatch_tries_once
    (event_loop rtvi_instance : option handle) (search_data : dict)
    (text_query : str) (s : state) :
  exists s',
    schedule_rtvi_message E event_loop rtvi_instance search_data text_query s
    = (Return tt, s')
    /\ (count_ev is_submit (trace s') <= count_ev is_submit (trace s) + 1)%nat
    /\ (count_ev is_push (trace s') <= count_ev is_push (trace s) + 1)%nat
    /\ embedding_calls (trace s') = embedding_calls (trace s)
    /\ store_calls (trace s') = store_calls (trace s).
Proof.
  destruct (schedule_rtvi_message_effect event_loop rtvi_instance search_data
              text_query s) as (s' & Hrun & [Hq1 Hq2] & Hsub & Hpush & _).
  exists s'. repeat split; auto.
  rewrite Hsub.
  destruct event_loop, rtvi_instance; try lia.
  destruct (run_coroutine_threadsafe E h); lia.
Qed.

(** Without an event loop or without a session the dispatcher is a no-op:
    it logs one warning and submits and sends nothing. *)
Theorem dispatch_without_handles
    (event_loop rtvi_instance : option handle) (search_data : dict)
    (text_query : str) (s : state) :
  event_loop = None \/ rtvi_instance = None ->
  schedule_rtvi_message E event_loop rtvi_instance search_data text_query s =
  (Return tt,
   {| ticks := ticks s; uuids := uuids s; debug_log := debug_log s;
      trace := trace s ++
        [Log WARNING
           (warning_sign ++ lit " Event loop or RTVI instance not available")] |}).
Proof.
  unfold schedule_rtvi_message.
  intros [-> | ->]; [|destruct event_loop]; reflexivity.
Qed.

(** When the event loop refuses the coroutine, the dispatcher logs the
    error and returns: nothing is submitted, nothing reaches the session
    and the caller sees no exception. *)
Theorem dispatch_when_loop_refuses
    (loop rtvi : handle) (search_data : dict) (text_query : str) (s : state)
    (e : exn) :
  run_coroutine_threadsafe E loop = Some e ->
  schedule_rtvi_message E (Some loop) (Some rtvi) search_data text_query s =
  (Return tt,
   {| ticks := ticks s; uuids := uuids s; debug_log := debug_log s;
      trace := trace s ++
        [Log ERROR
           (cross_mark ++ lit " Error scheduling RTVI message: " ++ exn_str e)] |}).
Proof.
  intros H. unfold schedule_rtvi_message, submit. rewrite H. reflexivity.
Qed.

Lemma filter_snoc (P : event -> bool) (t : list event) (ev : event) :
  filter P (t ++ [ev]) = filter P t ++ (if P ev then [ev] else []).
Proof. rewrite filter_app. simpl. now destruct (P ev). Qed.

(** A [Failure] outcome reaches the session as one envelope of the error
    kind that carries the outcome's own message and stage tag, sent with
    the error timeout, whether the push completes, times out or raises. *)
Theorem failure_is_sent_with_its_stage
    (rtvi : handle) (search_data : dict) (text_query msg stage : str)
    (s : state) :
  lookup (lit "search_completed") search_data = None ->
  lookup (lit "error") search_data = Some (VStr msg) ->
  lookup (lit "failure_point") search_data = Some (VStr stage) ->
  exists s',
    send_property_search_results E (Some rtvi) search_data text_query s
    = (Return tt, s')
    /\ filter is_push (trace s') =
       filter is_push (trace s) ++
       [PushFrame rtvi
          (VDict
             [(lit "type", VStr (lit "property_search_error"));
              (lit "timestamp", VFloat (clock E (ticks s)));
              (lit "search_id", VStr (uuid4 E (uuids s)));
              (lit "query", VStr text_query);
              (lit "error", VStr msg);
              (lit "failure_point", VStr stage)])
          RTVI_ERROR_TIMEOUT].
Proof.
  intros Hdone Herr Hstage. destruct s as [tk uu dl tr].
  cbn [ticks uuids].
  unfold send_property_search_results, send_property_search_error, dict_get.
  rewrite Hdone, Herr, Hstage. cbn [truthy andb].
  cbv beta iota zeta delta
    [bind ret raise try_catch try_timeout lift emit log time_time new_uuid
     wait_for_push debug_log trace ticks uuids].
  destruct (push_frame E rtvi _) as [ | | e]; [| |destruct (is_timeout e)].
  all: cbv beta iota zeta delta [debug_log trace ticks uuids].
  all: eexists; split; [reflexivity|]; cbn [trace].
  all: rewrite !filter_snoc; cbn [is_push]; now rewrite !app_nil_r.
Qed.

(** Every record the formatter produces has the fields a results message
    reads. *)
Lemma property_message_of_formatted (result : dict) (p : val) :
  format_property result = Return p ->
  exists m, property_message p = Return m.
Proof.
  intros H.
  apply format_property_inv in H as
    (details & info & image_urls & primary & score & description
     & _ & _ & _ & _ & _ & _ & ->).
  eexists. reflexivity.
Qed.

Lemma property_messages_of_formatted (results : list dict) (out : list val) :
  format_search_results results = Return out ->
  exists messages,
    omap property_message out = Return messages
    /\ List.length messages = List.length out.
Proof.
  intros H. apply omap_Forall2 in H.
  induction H as [|r p rs ps Hp _ IH]; simpl.
  - now exists [].
  - destruct (property_message_of_formatted _ Hp) as [m ->].
    destruct IH as (ms & -> & Hlen). simpl.
    exists (m :: ms). simpl. now rewrite Hlen.
Qed.

(** Formatter and dispatcher fit together: a completed outcome whose
    properties are the formatter's records of at least one match is sent as
    one envelope of the results kind, with the message timeout; it shows as
    many properties as there are records and has one entry for each. *)
Theorem formatted_results_are_sent
    (rtvi : handle) (search_data : dict) (text_query : str) (s : state)
    (results : list dict) (out : list val) :
  format_search_results results = Return out ->
  results <> [] ->
  truthy (dict_get search_data (lit "search_completed") VNone) = true ->
  lookup (lit "properties") search_data = Some (VList out) ->
  exists s' messages,
    send_property_search_results E (Some rtvi) search_data text_query s
    = (Return tt, s')
    /\ omap property_message out = Return messages
    /\ List.length messages = List.length results
    /\ List.length out = List.length results
    /\ filter is_push (trace s') =
       filter is_push (trace s) ++
       [PushFrame rtvi
          (VDict
             [(lit "type", VStr (lit "property_search_results"));
              (lit "timestamp", VFloat (clock E (ticks s)));
              (lit "search_id", VStr (uuid4 E (uuids s)));
              (lit "query", VStr text_query);
              (lit "summary", VDict
                 [(lit "total_found",
                     dict_get search_data (lit "results_found") (VInt 0));
                  (lit "showing", VInt (Z.of_nat (List.length out)));
                  (lit "execution_time",
                     dict_get search_data (lit "execution_time_seconds") (VInt 0));
                  (lit "search_type",
                     dict_get search_data (lit "search_type") (VStr (lit "hybrid")))]);
              (lit "filters_applied",
                 dict_get search_data (lit "filters_applied") (VDict []));
              (lit "properties", VList messages)])
          RTVI_MESSAGE_TIMEOUT].
Proof.
  intros Hfmt Hne Hdone Hprops.
  destruct (property_messages_of_formatted _ Hfmt) as (messages & Hmsgs & Hlen).
  assert (Hout : List.length out = List.length results).
  { apply omap_Forall2 in Hfmt. symmetry. eapply Forall2_length_eq. exact Hfmt. }
  assert (Htruthy : truthy (dict_get search_data (lit "properties") VNone) = true).
  { unfold dict_get. rewrite Hprops. destruct out; [|reflexivity].
    destruct results; [now elim Hne | discriminate Hout]. }
  assert (Hitem : py_item (VDict search_data) (lit "properties") = Return (VList out)).
  { simpl. now rewrite Hprops. }
  destruct s as [tk uu dl tr]. cbn [ticks uuids].
  unfold send_property_search_results.
  rewrite Hdone, Htruthy, Hitem. cbn [andb].
  cbv beta iota zeta delta
    [bind ret raise try_catch try_timeout lift emit log time_time new_uuid
     wait_for_push py_len py_iter debug_log trace ticks uuids].
  rewrite Hmsgs.
  cbv beta iota zeta delta [debug_log trace ticks uuids].
  destruct (push_frame E rtvi _) as [ | | e]; [| |destruct (is_timeout e)].
  all: cbv beta iota zeta delta [debug_log trace ticks uuids].
  all: eexists; exists messages; split; [reflexivity|]; cbn [trace].
  all: split; [reflexivity|]; split; [congruence|]; split; [exact Hout|].
  all: rewrite !filter_snoc; cbn [is_push]; now rewrite !app_nil_r.
Qed.

(** A property that lacks a field of the results message is not repaired:
    the exception is logged and swallowed, and nothing at all reaches the
    session, neither a results envelope nor an error envelope. *)
Theorem malformed_properties_are_dropped
    (rtvi : handle) (search_data : dict) (text_query : str) (s : state)
    (props : list val) (e : exn) :
  truthy (dict_get search_data (lit "search_completed") VNone) = true ->
  lookup (lit "properties") search_data = Some (VList props) ->
  omap property_message props = Raise e ->
  send_property_search_results E (Some rtvi) search_data text_query s =
  (Return tt,
   {| ticks := S (ticks s); uuids := S (uuids s); debug_log := debug_log s;
      trace := trace s ++
        [Log ERROR
           (cross_mark ++ lit " Error sending RTVI search results: "
            ++ exn_str e)] |}).
Proof.
  intros Hdone Hprops Hmsgs.
  assert (Htruthy : truthy (dict_get search_data (lit "properties") VNone) = true).
  { unfold dict_get. rewrite Hprops. destruct props; [discriminate Hmsgs|reflexivity]. }
  assert (Hitem : py_item (VDict search_data) (lit "properties") = Return (VList props)).
  { simpl. now rewrite Hprops. }
  destruct s as [tk uu dl tr]. cbn [ticks uuids debug_log trace].
  unfold send_property_search_results.
  rewrite Hdone, Htruthy, Hitem. cbn [andb].
  cbv beta iota zeta delta
    [bind ret raise try_catch try_timeout lift emit log time_time new_uuid
     wait_for_push py_len py_iter debug_log trace ticks uuids].
  rewrite Hmsgs. reflexivity.
Qed.

End DispatcherMore.

(* ================================================================= *)
(** ** Computations that only append to the trace *)

Section Appending.
Context {R : PyRuntime}.
Variable P : event -> bool.

Lemma adds_only_ret {A} (a : A) : adds_only P (ret a).
Proof. intros s. exists []. simpl. now rewrite app_nil_r. Qed.

Lemma adds_only_raise {A} (e : exn) : adds_only P (@raise _ A e).
Proof. intros s. exists []. simpl. now rewrite app_nil_r. Qed.

Lemma adds_only_lift {A} (o : outcome A) : adds_only P (lift o).
Proof. intros s. exists []. simpl. now rewrite app_nil_r. Qed.

Lemma adds_only_time_time (E : env) : adds_only P (time_time E).
Proof. intros s. exists []. simpl. now rewrite app_nil_r. Qed.

Lemma adds_only_new_uuid (E : env) : adds_only P (new_uuid E).
Proof. intros s. exists []. simpl. now rewrite app_nil_r. Qed.

Lemma adds_only_emit (ev : event) : P ev = true -> adds_only P (emit ev).
Proof. intros H s. exists [ev]. simpl. now rewrite H. Qed.

Lemma adds_only_bind {A B} (c : M A) (k : A -> M B) :
  adds_only P c -> (forall a, adds_only P (k a)) -> adds_only P (bind c k).
Proof.
  intros Hc Hk s. unfold bind. destruct (Hc s) as (evs & Ht & Hp).
  destruct (c s) as [[a|e] s1]; simpl in *; [|now exists evs].
  destruct (Hk a s1) as (evs' & Ht' & Hp').
  exists (evs ++ evs'). rewrite Ht', Ht, app_assoc, forallb_app, Hp, Hp'.
  now split.
Qed.

Lemma adds_only_try_catch {A} (c : M A) (h : exn -> M A) :
  adds_only P c -> (forall e, adds_only P (h e)) -> adds_only P (try_catch c h).
Proof.
  intros Hc Hh s. unfold try_catch. destruct (Hc s) as (evs & Ht & Hp).
  destruct (c s) as [[a|e] s1]; simpl in *; [now exists evs|].
  destruct (Hh e s1) as (evs' & Ht' & Hp').
  exists (evs ++ evs'). rewrite Ht', Ht, app_assoc, forallb_app, Hp, Hp'.
  now split.
Qed.

Lemma adds_only_attempt {A} (c : M A) : adds_only P c -> adds_only P (attempt c).
Proof.
  intros Hc s. unfold attempt. destruct (Hc s) as (evs & Ht & Hp).
  destruct (c s) as [o s1]. now exists evs.
Qed.

End Appending.

#[local] Hint Resolve adds_only_ret adds_only_raise adds_only_lift
  adds_only_time_time adds_only_new_uuid adds_only_attempt : py.

(** Decomposes a goal [adds_only P c] along the structure of [c]. *)
Ltac adds_only_step :=
  cbv beta zeta;
  lazymatch goal with
  | |- adds_only _ (bind _ _) => apply adds_only_bind; [|intros ?]
  | |- adds_only _ (try_catch _ _) => apply adds_only_try_catch; [|intros ?]
  | |- adds_only _ (try_timeout _ _) => unfold try_timeout
  | |- adds_only _ (attempt _) => apply adds_only_attempt
  | |- adds_only _ (log _ _) => apply adds_only_emit; reflexivity
  | |- adds_only _ (emit _) => apply adds_only_emit; reflexivity
  | |- adds_only _ (match ?x with _ => _ end) => destruct x
  | |- adds_only _ _ => solve [auto with py]
  end.

Ltac adds_only_tac := repeat adds_only_step.

Section DispatcherTrace.
Context {R : PyRuntime}.
Variable E : env.

Lemma send_property_search_error_appends
    (rtvi_instance : option handle) (search_data : dict) (text_query : str) :
  adds_only is_notification
    (send_property_search_error E rtvi_instance search_data text_query).
Proof. unfold send_property_search_error, wait_for_push. adds_only_tac. Qed.

Lemma send_property_search_results_appends
    (rtvi_instance : option handle) (search_data : dict) (text_query : str) :
  adds_only is_notification
    (send_property_search_results E rtvi_instance search_data text_query).
Proof.
  unfold send_property_search_results, wait_for_push.
  apply adds_only_try_catch; [|intros e; adds_only_tac].
  destruct rtvi_instance as [rtvi|]; [|adds_only_tac].
  destruct (_ && _); [adds_only_tac|apply send_property_search_error_appends].
Qed.

Lemma schedule_rtvi_message_appends
    (event_loop rtvi_instance : option handle) (search_data : dict)
    (text_query : str) :
  adds_only is_notification
    (schedule_rtvi_message E event_loop rtvi_instance search_data text_query).
Proof.
  unfold schedule_rtvi_message, submit.
  destruct event_loop as [loop|]; [destruct rtvi_instance as [rtvi|]|];
    [|adds_only_tac..].
  apply adds_only_try_catch; [|intros e; adds_only_tac].
  apply adds_only_bind; [|intros ?; adds_only_tac].
  destruct (run_coroutine_threadsafe E loop); [adds_only_tac|].
  apply adds_only_bind; [adds_only_tac|intros ?].
  apply adds_only_bind; [|intros ?; adds_only_tac].
  apply adds_only_attempt, send_property_search_results_appends.
Qed.

Lemma count_ev_app (P : event -> bool) (t u : list event) :
  count_ev P (t ++ u) = (count_ev P t + count_ev P u)%nat.
Proof. unfold count_ev. now rewrite filter_app, length_app. Qed.

(** One scheduling step, in terms of the events it appends. *)
Lemma schedule_rtvi_message_events
    (event_loop rtvi_instance : option handle) (search_data : dict)
    (text_query : str) (s : state) :
  exists s' evs,
    schedule_rtvi_message E event_loop rtvi_instance search_data text_query s
    = (Return tt, s')
    /\ trace s' = trace s ++ evs
    /\ forallb is_notification evs = true
    /\ count_ev is_submit evs = schedulable E event_loop rtvi_instance
    /\ (count_ev is_push evs <= schedulable E event_loop rtvi_instance)%nat.
Proof.
  destruct (schedule_rtvi_message_effect E event_loop rtvi_instance search_data
              text_query s) as (s' & Hrun & _ & Hsub & Hpush & Hnone).
  destruct (schedule_rtvi_message_appends event_loop rtvi_instance search_data
              text_query s) as (evs & Ht & Hp).
  rewrite Hrun in Ht. simpl in Ht.
  exists s', evs. split; [exact Hrun|]. split; [exact Ht|]. split; [exact Hp|].
  rewrite Ht, !count_ev_app in *. unfold schedulable.
  destruct event_loop as [loop|]; [destruct rtvi_instance as [rtvi|]|];
    [destruct (run_coroutine_threadsafe E loop)|..].
  all: split; [lia|]; try lia.
  all: assert (Hsame : (count_ev is_push (trace s) + count_ev is_push evs
                        = count_ev is_push (trace s))%nat) by (apply Hnone; lia).
  all: lia.
Qed.

Lemma _schedule_error_message_events
    (event_loop rtvi_instance : option handle) (error_result : dict)
    (text_query : str) (s : state) :
  exists s' evs,
    _schedule_error_message E event_loop rtvi_instance error_result text_query s
    = (Return tt, s')
    /\ trace s' = trace s ++ evs
    /\ forallb is_notification evs = true
    /\ count_ev is_submit evs = schedulable E event_loop rtvi_instance
    /\ (count_ev is_push evs <= schedulable E event_loop rtvi_instance)%nat.
Proof.
  unfold _schedule_error_message.
  destruct event_loop as [loop|]; [destruct rtvi_instance as [rtvi|]|].
  2,3: exists s, []; unfold schedulable, count_ev; simpl; rewrite app_nil_r;
       repeat split; lia.
  destruct (schedule_rtvi_message_events (Some loop) (Some rtvi) error_result
              text_query s) as (s' & evs & Hrun & H).
  exists s', evs. unfold try_catch. rewrite Hrun. split; [reflexivity | exact H].
Qed.

(** Events of the dispatcher are no calls to the services. *)
Lemma notifications_are_no_calls (P : event -> bool) (evs : list event) :
  (forall ev, is_notification ev = true -> P ev = false) ->
  forallb is_notification evs = true ->
  filter P evs = [].
Proof.
  intros HP. induction evs as [|ev evs IH]; simpl; [reflexivity|].
  intros H. apply andb_prop in H as [Hev H].
  rewrite (HP ev Hev). auto.
Qed.

Lemma notifications_service (evs : list event) :
  forallb is_notification evs = true -> filter is_service_call evs = [].
Proof. apply notifications_are_no_calls. now intros []. Qed.

Lemma notifications_embedding (evs : list event) :
  forallb is_notification evs = true -> count_ev is_embedding_call evs = 0%nat.
Proof.
  intros H. unfold count_ev.
  rewrite (notifications_are_no_calls is_embedding_call evs); [reflexivity| |exact H].
  now intros [].
Qed.

Lemma notifications_connect (evs : list event) :
  forallb is_notification evs = true -> count_ev is_connect evs = 0%nat.
Proof.
  intros H. unfold count_ev.
  rewrite (notifications_are_no_calls is_connect evs); [reflexivity| |exact H].
  now intros [].
Qed.

Lemma notifications_aggregate (evs : list event) :
  forallb is_notification evs = true -> count_ev is_aggregate evs = 0%nat.
Proof.
  intros H. unfold count_ev.
  rewrite (notifications_are_no_calls is_aggregate evs); [reflexivity| |exact H].
  now intros [].
Qed.

End DispatcherTrace.

(* ================================================================= *)
(** ** Further properties of the orchestrator *)

(** Runs the deterministic steps of a computation, the calls to the
    services included. *)
Ltac run_all_in H :=
  cbv beta iota zeta delta
    [bind ret raise try_catch attempt lift emit log new_debug_log
     append_debug_log read_debug_log time_time log_debug
     _generate_embedding execute_search_query get_client collection_aggregate
     client_close debug_log trace ticks uuids] in H.

(** Replaces a scheduling step by its result and the events it appends. *)
Ltac notify_in H :=
  let evs := fresh "evs" in
  let Heq := fresh "Heq" in
  let Ht := fresh "Ht" in
  let Hn := fresh "Hn" in
  let Hsub := fresh "Hsub" in
  let Hpush := fresh "Hpush" in
  match type of H with
  | context [_schedule_error_message ?E ?a ?b ?r ?t ?st] =>
      destruct (_schedule_error_message_events E a b r t st)
        as (? & evs & Heq & Ht & Hn & Hsub & Hpush);
      rewrite Heq in H; clear Heq
  | context [schedule_rtvi_message ?E ?a ?b ?r ?t ?st] =>
      destruct (schedule_rtvi_message_events E a b r t st)
        as (? & evs & Heq & Ht & Hn & Hsub & Hpush);
      rewrite Heq in H; clear Heq
  end.

(** Ends a run at its scheduling step and counts the events of the whole
    trace. *)
Ltac count_done H :=
  notify_in H; injection H as <- <-;
  eexists; eexists; (split; [reflexivity|]);
  lazymatch goal with
  | Ht : trace _ = _ ++ ?evs, Hn : forallb is_notification ?evs = true |- _ =>
      rewrite Ht; cbn [trace]; rewrite !count_ev_app;
      rewrite (notifications_embedding _ Hn), (notifications_connect _ Hn),
        (notifications_aggregate _ Hn);
      unfold count_ev in *;
      cbn [filter List.length is_embedding_call is_connect is_aggregate
           is_submit is_push];
      repeat split; lia
  end.

Section OrchestratorMore.
Context {R : PyRuntime}.
Variable E : env.

(** Every formatted record has a score to list. *)
Lemma scores_of_formatted (results : list dict) (formatted : list val) :
  format_search_results results = Return formatted ->
  exists scores,
    omap (fun prop => py_item prop (lit "search_score")) formatted = Return scores
    /\ List.length scores = List.length formatted.
Proof.
  intros H. apply omap_Forall2 in H.
  induction H as [|r p rs ps Hp _ IH]; simpl.
  - now exists [].
  - apply format_property_inv in Hp as
      (details & info & image_urls & primary & score & description
       & _ & _ & _ & _ & _ & _ & ->).
    destruct IH as (scores & -> & Hlen).
    exists (score :: scores). split; [reflexivity | simpl; now rewrite Hlen].
Qed.

(** Whatever the inputs and the services do, one invocation calls the
    embedding service at most once, connects to the store at most once and
    queries it at most once, and it makes exactly one notification attempt
    when one can be scheduled (both handles given, the loop accepting) and
    none otherwise; at most one frame reaches the session. *)
Theorem execute_hybrid_search_calls_each_service_once
    (text_query : str) (min_price max_price : option val)
    (bedrooms bathrooms property_type location_keywords : option str)
    (mls_genuine : option bool) (limit : Z) (vector_search_index : str)
    (event_loop rtvi_instance : option handle) (s : state) :
  exists r s',
    execute_hybrid_search E text_query min_price max_price bedrooms bathrooms
      property_type location_keywords mls_genuine limit vector_search_index
      event_loop rtvi_instance s = (Return r, s')
    /\ (count_ev is_embedding_call (trace s')
        <= count_ev is_embedding_call (trace s) + 1)%nat
    /\ (count_ev is_connect (trace s') <= count_ev is_connect (trace s) + 1)%nat
    /\ (count_ev is_aggregate (trace s')
        <= count_ev is_aggregate (trace s) + 1)%nat
    /\ count_ev is_submit (trace s')
       = (count_ev is_submit (trace s)
          + schedulable E event_loop rtvi_instance)%nat
    /\ (count_ev is_push (trace s')
        <= count_ev is_push (trace s)
           + schedulable E event_loop rtvi_instance)%nat.
Proof.
  destruct s as [tk uu dl tr].
  destruct (execute_hybrid_search _ _ _ _ _ _ _ _ _ _ _ _ _ _) as [o s'] eqn:Hrun.
  unfold execute_hybrid_search in Hrun. run_all_in Hrun.
  destruct (negb (truthy (VStr text_query))
            || negb (truthy (VStr (strip text_query)))).
  { count_done Hrun. }
  destruct (negb _); run_all_in Hrun.
  { count_done Hrun. }
  destruct (embeddings_create E (strip text_query)) as [v|e0]; run_all_in Hrun.
  2:{ count_done Hrun. }
  destruct (mongo_client E) as [e1|]; run_all_in Hrun.
  { count_done Hrun. }
  match type of Hrun with
  | context [aggregate E ?p] => destruct (aggregate E p) as [results|e2]
  end; run_all_in Hrun.
  2:{ count_done Hrun. }
  destruct (format_search_results results) as [formatted|e3]; run_all_in Hrun.
  2:{ count_done Hrun. }
  destruct (omap _ formatted) as [scores|e4]; run_all_in Hrun.
  2:{ count_done Hrun. }
  count_done Hrun.
Qed.

(** Without an API key the embedding step fails before any request is
    made: the outcome is the [Failure] of the embedding stage with the
    message of the missing key, and neither the embedding service nor the
    store is called. *)
Theorem missing_api_key_fails_without_a_call
    (text_query : str) (min_price max_price : option val)
    (bedrooms bathrooms property_type location_keywords : option str)
    (mls_genuine : option bool) (limit : Z) (vector_search_index : str)
    (event_loop rtvi_instance : option handle) (s : state) :
  strip text_query <> [] ->
  OPENAI_API_KEY E = None \/ OPENAI_API_KEY E = Some [] ->
  exists r s',
    execute_hybrid_search E text_query min_price max_price bedrooms bathrooms
      property_type location_keywords mls_genuine limit vector_search_index
      event_loop rtvi_instance s = (Return r, s')
    /\ is_failure r
    /\ failure_stage r = Some (lit "openai_api_call")
    /\ lookup (lit "error") r
       = Some (VStr (lit "OpenAI API error: OPENAI_API_KEY not found"))
    /\ filter is_service_call (trace s') = filter is_service_call (trace s).
Proof.
  intros Hvalid Hkey. destruct s as [tk uu dl tr].
  assert (Hno : negb match OPENAI_API_KEY E with
                     | Some k => truthy (VStr k)
                     | None => false
                     end = true)
    by (destruct Hkey as [-> | ->]; reflexivity).
  destruct (execute_hybrid_search _ _ _ _ _ _ _ _ _ _ _ _ _ _) as [o s'] eqn:Hrun.
  unfold execute_hybrid_search in Hrun.
  rewrite (valid_query_accepted _ Hvalid) in Hrun.
  run_all_in Hrun. rewrite Hno in Hrun. run_all_in Hrun.
  notify_in Hrun. injection Hrun as <- <-.
  eexists. eexists. split; [reflexivity|].
  split; [failure_tac|]. split; [reflexivity|]. split; [reflexivity|].
  rewrite Ht. cbn [trace]. rewrite !filter_app, (notifications_service _ Hn).
  cbn [filter is_service_call is_embedding_call is_store_call orb].
  now rewrite !app_nil_r.
Qed.

(** The successful run.  When the query has text and every stage returns,
    the outcome is a [Success] that carries the query as it was given, the
    dimension of the vector, as many results as the store returned and one
    formatted record and one score for each; the services were called in
    this order and no more: one embedding request for the trimmed query,
    then one connection, one aggregation of the composed pipeline and one
    close. *)
Theorem successful_search_outcome
    (text_query : str) (min_price max_price : option val)
    (bedrooms bathrooms property_type location_keywords : option str)
    (mls_genuine : option bool) (limit : Z) (vector_search_index : str)
    (event_loop rtvi_instance : option handle) (s : state)
    (embedding_vector : list pyfloat) (results : list dict)
    (formatted : list val) :
  let pipeline :=
    build_search_pipeline embedding_vector
      (build_match_conditions min_price max_price bedrooms bathrooms
         property_type location_keywords mls_genuine)
      limit vector_search_index in
  strip text_query <> [] ->
  embedding_generation E (strip text_query) = Return embedding_vector ->
  mongo_client E = None ->
  aggregate E pipeline = Return results ->
  format_search_results results = Return formatted ->
  exists r s' scores,
    execute_hybrid_search E text_query min_price max_price bedrooms bathrooms
      property_type location_keywords mls_genuine limit vector_search_index
      event_loop rtvi_instance s = (Return r, s')
    /\ is_success r
    /\ lookup (lit "query") r = Some (VStr text_query)
    /\ lookup (lit "embedding_dimensions") r
       = Some (VInt (Z.of_nat (List.length embedding_vector)))
    /\ lookup (lit "results_found") r
       = Some (VInt (Z.of_nat (List.length results)))
    /\ lookup (lit "properties") r = Some (VList formatted)
    /\ lookup (lit "top_similarity_scores") r = Some (VList scores)
    /\ List.length formatted = List.length results
    /\ List.length scores = List.length results
    /\ filter is_service_call (trace s') =
       filter is_service_call (trace s) ++
       [EmbeddingsCreate (strip text_query); MongoConnect true;
        MongoAggregate pipeline; MongoClose].
Proof.
  intros pipeline Hvalid Hemb Hcon Hagg Hfmt. destruct s as [tk uu dl tr].
  destruct (scores_of_formatted _ Hfmt) as (scores & Hsc & Hlen).
  assert (Hout : List.length formatted = List.length results).
  { pose proof Hfmt as H. apply omap_Forall2 in H.
    symmetry. eapply Forall2_length_eq. exact H. }
  destruct (execute_hybrid_search _ _ _ _ _ _ _ _ _ _ _ _ _ _) as [o s'] eqn:Hrun.
  unfold execute_hybrid_search in Hrun.
  rewrite (valid_query_accepted _ Hvalid) in Hrun.
  run_in Hrun.
  rewrite (@_generate_embedding_returns _ _ _ _ _ Hemb) in Hrun.
  run_in Hrun.
  fold pipeline in Hrun.
  rewrite (@execute_search_query_returns _ E pipeline results _ Hcon Hagg) in Hrun.
  run_in Hrun. rewrite Hfmt in Hrun. run_in Hrun.
  rewrite Hsc in Hrun. run_in Hrun.
  notify_in Hrun. injection Hrun as <- <-.
  eexists. eexists. exists scores. split; [reflexivity|].
  split; [repeat split|]. do 5 (split; [reflexivity|]).
  split; [exact Hout|].
  split; [transitivity (List.length formatted); [exact Hlen | exact Hout]|].
  rewrite Ht. cbn [trace]. rewrite !filter_app, (notifications_service _ Hn).
  cbn [filter is_service_call is_embedding_call is_store_call orb].
  now rewrite !app_nil_r, <- !app_assoc.
Qed.

End OrchestratorMore.

(* ================================================================= *)
(** ** Runs of the further properties *)

Section MoreRuns.
Import IntegralRuntime Samples MoreSamples.

Lemma format_search_results_keeps_order_witness :
  exists p q,
    format_search_results [bungalow; bare] = Return [p; q]
    /\ py_item p (lit "property_id") = Return (VStr (lit "65a1f0c2"))
    /\ py_item q (lit "property_id") = Return (VStr (lit "65a1f0c3")).
Proof.
  eexists. eexists. split; [vm_compute; reflexivity|].
  destruct (@format_search_results_keeps_order _ [bungalow; bare] _ eq_refl)
    as [_ H].
  inversion H as [|? ? ? ? Hp H']; subst. inversion H' as [|? ? ? ? Hq _]; subst.
  split; [apply Hp | apply Hq].
Defined.

Lemma format_property_defaults_witness :
  lookup (lit "property_details") bare = None
  /\ lookup (lit "processing_info") bare = None
  /\ lookup (lit "search_score") bare = None
  /\ exists p,
       format_property bare = Return p
       /\ py_item p (lit "address") = Return (VStr (lit "N/A"))
       /\ py_item p (lit "currency") = Return (VStr (lit "CAD"))
       /\ py_item p (lit "search_score") = Return (VInt 0).
Proof.
  do 3 (split; [reflexivity|]).
  eexists. split.
  - exact (@format_property_defaults _ bare eq_refl eq_refl eq_refl).
  - repeat split.
Defined.

Lemma dispatch_without_handles_witness :
  let E := world (Return [1; 2; 3]) (Return []) in
  (Some 1%nat = None \/ @None handle = None)
  /\ pushed_frames
       (trace (snd (schedule_rtvi_message E (Some 1%nat) None store_failure
                      (lit "house") initial))) = [].
Proof.
  intros E. split; [now right|].
  exact (f_equal (fun run => pushed_frames (trace (snd run)))
           (@dispatch_without_handles _ E (Some 1%nat) None store_failure
              (lit "house") initial (or_intror eq_refl))).
Defined.

Lemma dispatch_when_loop_refuses_witness :
  let E := world_with_closed_loop in
  run_coroutine_threadsafe E 1%nat = Some loop_closed
  /\ pushed_frames
       (trace (snd (schedule_rtvi_message E (Some 1%nat) (Some 2%nat)
                      store_failure (lit "house") initial))) = [].
Proof.
  intros E. split; [reflexivity|].
  exact (f_equal (fun run => pushed_frames (trace (snd run)))
           (@dispatch_when_loop_refuses _ E 1%nat 2%nat store_failure
              (lit "house") initial loop_closed eq_refl)).
Defined.

Lemma failure_is_sent_with_its_stage_witness :
  let E := world (Return [1; 2; 3]) (Return []) in
  lookup (lit "search_completed") store_failure = None
  /\ lookup (lit "error") store_failure
     = Some (VStr (lit "MongoDB error: connection refused"))
  /\ lookup (lit "failure_point") store_failure
     = Some (VStr (lit "mongodb_operation"))
  /\ exists s',
       send_property_search_results E (Some 2%nat) store_failure (lit "house")
         initial = (Return tt, s')
       /\ filter is_push (trace s') =
          [PushFrame 2%nat
             (VDict
                [(lit "type", VStr (lit "property_search_error"));
                 (lit "timestamp", VFloat 0);
                 (lit "search_id", VStr (lit "uuid-0"));
                 (lit "query", VStr (lit "house"));
                 (lit "error", VStr (lit "MongoDB error: connection refused"));
                 (lit "failure_point", VStr (lit "mongodb_operation"))])
             RTVI_ERROR_TIMEOUT].
Proof.
  intros E. do 3 (split; [reflexivity|]).
  exact (@failure_is_sent_with_its_stage _ E 2%nat store_failure (lit "house")
           _ _ initial eq_refl eq_refl eq_refl).
Defined.

Lemma formatted_results_are_sent_witness :
  let E := world (Return [1; 2; 3]) (Return [bungalow]) in
  format_search_results [bungalow] = Return [bungalow_record]
  /\ [bungalow] <> []
  /\ truthy (dict_get one_result (lit "search_completed") VNone) = true
  /\ lookup (lit "properties") one_result = Some (VList [bungalow_record])
  /\ exists s' messages,
       send_property_search_results E (Some 2%nat) one_result (lit "house")
         initial = (Return tt, s')
       /\ omap property_message [bungalow_record] = Return messages
       /\ List.length messages = 1%nat.
Proof.
  intros E.
  assert (Hfmt : format_search_results [bungalow] = Return [bungalow_record])
    by (vm_compute; reflexivity).
  assert (Hne : [bungalow] <> []) by discriminate.
  split; [exact Hfmt|]. split; [exact Hne|]. do 2 (split; [reflexivity|]).
  destruct (@formatted_results_are_sent _ E 2%nat one_result (lit "house")
              initial [bungalow] [bungalow_record] Hfmt Hne eq_refl eq_refl)
    as (s' & messages & Hrun & Hmsgs & Hlen & _).
  exists s', messages. repeat split; assumption.
Defined.

Lemma malformed_properties_are_dropped_witness :
  let E := world (Return [1; 2; 3]) (Return []) in
  let props := [VDict [(lit "property_id", VStr (lit "65a1f0c2"))]] in
  truthy (dict_get broken_result (lit "search_completed") VNone) = true
  /\ lookup (lit "properties") broken_result = Some (VList props)
  /\ omap property_message props = Raise (Exn "KeyError" (lit "'url'"))
  /\ pushed_frames
       (trace (snd (send_property_search_results E (Some 2%nat) broken_result
                      (lit "house") initial))) = [].
Proof.
  intros E props. do 3 (split; [reflexivity|]).
  exact (f_equal (fun run => pushed_frames (trace (snd run)))
           (@malformed_properties_are_dropped _ E 2%nat broken_result
              (lit "house") initial props _ eq_refl eq_refl eq_refl)).
Defined.

Lemma missing_api_key_fails_without_a_call_witness :
  let E := world_with_empty_key in
  strip (lit "house") <> []
  /\ (OPENAI_API_KEY E = None \/ OPENAI_API_KEY E = Some [])
  /\ exists r s',
       search E (lit "house") initial = (Return r, s')
       /\ is_failure r
       /\ failure_stage r = Some (lit "openai_api_call")
       /\ lookup (lit "error") r
          = Some (VStr (lit "OpenAI API error: OPENAI_API_KEY not found"))
       /\ filter is_service_call (trace s')
          = filter is_service_call (trace initial).
Proof.
  intros E.
  assert (Hq : strip (lit "house") <> []) by (vm_compute; discriminate).
  split; [exact Hq|]. split; [now right|].
  exact (@missing_api_key_fails_without_a_call _ E (lit "house") None None None
           None None None None 10 (lit "vector_index") (Some 1%nat) (Some 2%nat)
           initial Hq (or_intror eq_refl)).
Defined.

Lemma successful_search_outcome_witness :
  let E := world (Return [1; 2; 3]) (Return [bungalow]) in
  let pipeline :=
    build_search_pipeline [1; 2; 3]
      (build_match_conditions None None None None None None None)
      10 (lit "vector_index") in
  strip (lit " house ") <> []
  /\ embedding_generation E (strip (lit " house ")) = Return [1; 2; 3]
  /\ mongo_client E = None
  /\ aggregate E pipeline = Return [bungalow]
  /\ format_search_results [bungalow] = Return [bungalow_record]
  /\ exists r s',
       search E (lit " house ") initial = (Return r, s')
       /\ is_success r
       /\ lookup (lit "query") r = Some (VStr (lit " house "))
       /\ lookup (lit "results_found") r = Some (VInt 1)
       /\ filter is_service_call (trace s') =
          [EmbeddingsCreate (lit "house"); MongoConnect true;
           MongoAggregate pipeline; MongoClose].
Proof.
  intros E pipeline.
  assert (Hq : strip (lit " house ") <> []) by (vm_compute; discriminate).
  assert (Hfmt : format_search_results [bungalow] = Return [bungalow_record])
    by (vm_compute; reflexivity).
  split; [exact Hq|]. do 3 (split; [reflexivity|]). split; [exact Hfmt|].
  destruct (@successful_search_outcome _ E (lit " house ") None None None None
              None None None 10 (lit "vector_index") (Some 1%nat) (Some 2%nat)
              initial [1; 2; 3] [bungalow] [bungalow_record]
              Hq eq_refl eq_refl eq_refl Hfmt)
    as (r & s' & scores & Hrun & Hs & Hquery & _ & Hfound & _ & _ & _ & _ & Htrace).
  exists r, s'. repeat split; try assumption; apply Hs.
Defined.

End MoreRuns.

(* ================================================================= *)
(** ** The search handler of a session *)

Section HandlerFacts.
Import Bot.
Context {R : PyRuntime}.
Variable B : bot_env.

Lemma replace_first_length (p : tool -> bool) (new : tool) (l : list tool) :
  List.length (snd (replace_first p new l)) = List.length l.
Proof.
  induction l as [|t l IH]; simpl; [reflexivity|].
  destruct (p t); simpl; [reflexivity|].
  destruct (replace_first p new l) as [found l']. simpl in *. now rewrite IH.
Qed.

Lemma replace_first_missing (p : tool -> bool) (new : tool) (l : list tool) :
  existsb p l = false -> replace_first p new l = (None, l).
Proof.
  induction l as [|t l IH]; simpl; [reflexivity|].
  intros H. apply orb_false_elim in H as [Ht Hl].
  rewrite Ht, (IH Hl). reflexivity.
Qed.

Lemma replace_first_found (p : tool -> bool) (new : tool) (l : list tool) :
  existsb p l = true ->
  exists original, fst (replace_first p new l) = Some original
                   /\ p original = true
                   /\ In new (snd (replace_first p new l)).
Proof.
  induction l as [|t l IH]; simpl; [discriminate|].
  destruct (p t) eqn:Ht; simpl.
  - intros _. exists t. repeat split; auto.
  - intros H. destruct (IH H) as (o & Ho & Hp & Hin).
    destruct (replace_first p new l) as [found l']. simpl in *.
    exists o. auto.
Qed.

(** Putting the wrapper in and taking it out again gives the list back,
    when the wrapper is a new object. *)
Lemma replace_first_round_trip
    (p : tool -> bool) (wrapper original : tool) (l : list tool) :
  Forall (fun t => same_tool t wrapper = false) l ->
  fst (replace_first p wrapper l) = Some original ->
  snd (replace_first (fun t => same_tool t wrapper) original
         (snd (replace_first p wrapper l))) = l.
Proof.
  induction l as [|t l IH]; simpl; [discriminate|].
  intros Hnew. inversion Hnew as [|? ? Ht Hl]; subst.
  destruct (p t) eqn:Hp; simpl.
  - intros H. injection H as <-. unfold same_tool at 1.
    now rewrite Nat.eqb_refl.
  - destruct (replace_first p wrapper l) as [found l'] eqn:Hr. simpl in *.
    intros H. rewrite Ht. specialize (IH Hl H).
    destruct (replace_first (fun t0 => same_tool t0 wrapper) original l').
    simpl in *. now rewrite IH.
Qed.

Lemma known_is_new (b : bot) (loop : handle) :
  known b ->
  Forall (fun t => same_tool t (WithContext (objects b) loop) = false) (tools b).
Proof.
  unfold known. apply Forall_impl. intros t Ht.
  unfold same_tool. simpl. apply Nat.eqb_neq. lia.
Qed.

(** Counts the registered search tools of a list. *)
Lemma replace_first_consumes (wrapper : tool) (l : list tool) :
  is_search_tool wrapper = false ->
  existsb is_search_tool l = true ->
  S (List.length (filter is_search_tool
                    (snd (replace_first is_search_tool wrapper l))))
  = List.length (filter is_search_tool l).
Proof.
  intros Hw. induction l as [|t l IH]; simpl; [discriminate|].
  destruct (is_search_tool t) eqn:Ht; simpl.
  - intros _. now rewrite Hw.
  - intros H. specialize (IH H).
    destruct (replace_first is_search_tool wrapper l) as [found l'].
    simpl in *. now rewrite Ht.
Qed.

(** A search that succeeds leaves the tool list of the agent as it was:
    the wrapper installed for the run is taken out again.  The agent ran on
    a list of the same length, and its message went to the callback. *)
Theorem handler_restores_tools (query : str) (b : bot) (message : val) :
  let wrapper := WithContext (objects b) (get_event_loop B) in
  let during := snd (replace_first is_search_tool wrapper (tools b)) in
  known b ->
  agent B during query = Return message ->
  result_callback B message = None ->
  exists b',
    handle_property_search_queries B query b = (Ok tt, b')
    /\ tools b' = tools b
    /\ List.length during = List.length (tools b)
    /\ agent_calls (events b') = agent_calls (events b) ++ [during]
    /\ callbacks (events b') = callbacks (events b) ++ [message].
Proof.
  intros wrapper during Hknown Hagent Hcb.
  pose proof (known_is_new (get_event_loop B) Hknown) as Hnew.
  unfold handle_property_search_queries, st_try, st_bind, st_ret, st_raise,
    record, new_context_tool, install, run_agent, restore, call_back.
  destruct b as [l n evs]. simpl in *. fold wrapper.
  pose proof (fun original =>
                @replace_first_round_trip is_search_tool wrapper original l Hnew)
    as Hrt.
  destruct (replace_first is_search_tool wrapper l) as [found l'] eqn:Hr.
  simpl in *. subst during. rewrite Hagent.
  assert (Hlen : List.length l' = List.length l).
  { pose proof (replace_first_length is_search_tool wrapper l) as H.
    now rewrite Hr in H. }
  destruct found as [original|]; simpl; rewrite Hcb; simpl.
  - eexists. split; [reflexivity|]. simpl.
    split; [exact (Hrt original eq_refl)|]. split; [exact Hlen|].
    unfold agent_calls, callbacks. rewrite !flat_map_app. simpl.
    now rewrite !app_nil_r.
  - eexists. split; [reflexivity|]. simpl.
    assert (l' = l) as ->.
    { destruct (existsb is_search_tool l) eqn:Hex.
      - destruct (replace_first_found is_search_tool wrapper l Hex)
          as (o & Ho & _). rewrite Hr in Ho. discriminate Ho.
      - rewrite (replace_first_missing is_search_tool wrapper l Hex) in Hr.
        now injection Hr as <-. }
    split; [reflexivity|]. split; [reflexivity|].
    unfold agent_calls, callbacks. rewrite !flat_map_app. simpl.
    now rewrite !app_nil_r.
Qed.

(** A search that fails is answered with the apology, and the tool list
    is not restored: the wrapper of the failed call stays in the place of
    the search tool, so one registered search tool fewer is left. *)
Theorem handler_failure_leaves_wrapper (query : str) (b : bot) (e : exn) :
  let wrapper := WithContext (objects b) (get_event_loop B) in
  let during := snd (replace_first is_search_tool wrapper (tools b)) in
  agent B during query = Raise e ->
  result_callback B (VStr apology) = None ->
  exists b',
    handle_property_search_queries B query b = (Ok tt, b')
    /\ tools b' = during
    /\ callbacks (events b') = callbacks (events b) ++ [VStr apology]
    /\ (existsb is_search_tool (tools b) = true ->
        In wrapper (tools b')
        /\ S (List.length (filter is_search_tool (tools b')))
           = List.length (filter is_search_tool (tools b))).
Proof.
  intros wrapper during Hagent Hcb.
  pose proof (replace_first_found is_search_tool wrapper (tools b)) as Hfound.
  pose proof (@replace_first_consumes wrapper (tools b) eq_refl) as Hcount.
  unfold handle_property_search_queries, st_try, st_bind, st_ret, st_raise,
    record, new_context_tool, install, run_agent, restore, call_back.
  destruct b as [l n evs]. simpl in *. fold wrapper.
  destruct (replace_first is_search_tool wrapper l) as [found l'] eqn:Hr.
  simpl in *. subst during. rewrite Hagent. simpl. rewrite Hcb. simpl.
  eexists. split; [reflexivity|]. simpl. split; [reflexivity|]. split.
  - unfold callbacks. rewrite !flat_map_app. simpl. now rewrite !app_nil_r.
  - intros Hex. split; [|now apply Hcount].
    destruct (Hfound Hex) as (o & _ & _ & Hin). exact Hin.
Qed.

(** When no tool of the agent is named "execute_hybrid_search", as after
    a failed search, the handler installs nothing: the agent runs on the
    list as it is, a wrapper left behind included, and the list stays as it
    is whether the agent answers or raises. *)
Theorem handler_without_search_tool (query : str) (b : bot) :
  existsb is_search_tool (tools b) = false ->
  let b' := snd (handle_property_search_queries B query b) in
  tools b' = tools b
  /\ agent_calls (events b') = agent_calls (events b) ++ [tools b].
Proof.
  intros Hex.
  unfold handle_property_search_queries, st_try, st_bind, st_ret, st_raise,
    record, new_context_tool, install, run_agent, restore, call_back.
  destruct b as [l n evs]. simpl in *.
  rewrite (replace_first_missing is_search_tool _ l Hex). simpl.
  destruct (agent B l query) as [message|e]; simpl.
  - destruct (result_callback B message); simpl.
    + destruct (result_callback B (VStr apology)); simpl; split; try reflexivity;
        unfold agent_calls; rewrite !flat_map_app; simpl; now rewrite !app_nil_r.
    + split; [reflexivity|].
      unfold agent_calls. rewrite !flat_map_app. simpl. now rewrite !app_nil_r.
  - destruct (result_callback B (VStr apology)); simpl; split; try reflexivity;
      unfold agent_calls; rewrite !flat_map_app; simpl; now rewrite !app_nil_r.
Qed.

(** The handler answers every query: it calls the agent once and the
    callback once or, when the first callback raised, twice.  The only
    exception that can leave it is one the callback raises on the apology;
    with a callback that does not raise it returns after exactly one
    callback.  New objects stay below the counter. *)
Theorem handler_always_answers (query : str) (b : bot) :
  let run := handle_property_search_queries B query b in
  let b' := snd run in
  List.length (agent_calls (events b'))
    = S (List.length (agent_calls (events b)))
  /\ (List.length (callbacks (events b)) < List.length (callbacks (events b'))
      <= List.length (callbacks (events b)) + 2)%nat
  /\ (forall e, fst run = Err e -> result_callback B (VStr apology) = Some e)
  /\ ((forall m, result_callback B m = None) ->
      fst run = Ok tt
      /\ List.length (callbacks (events b'))
         = S (List.length (callbacks (events b))))
  /\ (known b -> known b').
Proof.
  unfold handle_property_search_queries, st_try, st_bind, st_ret, st_raise,
    record, new_context_tool, install, run_agent, restore, call_back, known.
  destruct b as [l n evs]. simpl.
  set (wrapper := WithContext n (get_event_loop B)).
  pose proof (known_is_new (b := {| tools := l; objects := n; events := evs |})
                (get_event_loop B)) as Hnew.
  pose proof (fun original Hk =>
                @replace_first_round_trip is_search_tool wrapper original l
                  (Hnew Hk)) as Hrt.
  assert (Hkeep : (Forall (fun t => tool_ident t < n) l ->
                   Forall (fun t => tool_ident t < S n)
                     (snd (replace_first is_search_tool wrapper l)))%nat).
  { clear. intros H. induction H as [|t l Ht Hl IH]; simpl; [constructor|].
    destruct (is_search_tool t); simpl.
    - constructor; [simpl; lia|]. eapply Forall_impl; [|exact Hl].
      intros; simpl in *; lia.
    - destruct (replace_first is_search_tool wrapper l). simpl in *.
      constructor; [lia | exact IH]. }
  assert (Hweak : (Forall (fun t => tool_ident t < n) l ->
                   Forall (fun t => tool_ident t < S n) l)%nat).
  { apply Forall_impl. intros. lia. }
  destruct (replace_first is_search_tool wrapper l) as [found l'] eqn:Hr.
  simpl in *.
  destruct (agent B l' query) as [message|e]; simpl.
  - destruct found as [original|]; simpl.
    all: destruct (result_callback B message) as [e1|] eqn:H1; simpl.
    all: try destruct (result_callback B (VStr apology)) as [e2|] eqn:H2; simpl.
    all: unfold agent_calls, callbacks; rewrite ?flat_map_app; simpl;
         rewrite ?app_nil_r, ?length_app; simpl.
    all: repeat split; try lia; try congruence.
    all: try (intros ? Herr; congruence).
    all: try (intros Hall; rewrite Hall in *; congruence).
    all: try (intros Hk; rewrite (Hrt original Hk eq_refl); auto).
    all: auto.
  - destruct (result_callback B (VStr apology)) as [e2|] eqn:H2; simpl.
    all: unfold agent_calls, callbacks; rewrite ?flat_map_app; simpl;
         rewrite ?app_nil_r, ?length_app; simpl.
    all: repeat split; try lia; try congruence.
    all: try (intros Hall; rewrite Hall in *; congruence).
    all: auto.
Qed.

End HandlerFacts.

Section BotRuns.
Import IntegralRuntime Bot BotSamples.

Lemma handler_restores_tools_witness :
  exists b',
    handle_property_search_queries answering (lit "homes in Toronto")
      bot_with_two_tools = (Ok tt, b')
    /\ tools b' = tools bot_with_two_tools
    /\ agent_calls (events b')
       = [[Registered (lit "get_weather") 0; WithContext 2 7%nat]]
    /\ callbacks (events b') = [summary].
Proof.
  assert (Hknown : known bot_with_two_tools).
  { repeat constructor. }
  destruct (@handler_restores_tools _ answering (lit "homes in Toronto")
              bot_with_two_tools summary Hknown eq_refl eq_refl)
    as (b' & Hrun & Htools & _ & Hcalls & Hcb).
  exists b'. repeat split; assumption.
Defined.

Lemma handler_failure_leaves_wrapper_witness :
  exists b',
    handle_property_search_queries failing (lit "homes in Toronto") new_bot
      = (Ok tt, b')
    /\ tools b' = [WithContext 1 7%nat]
    /\ callbacks (events b') = [VStr apology].
Proof.
  destruct (@handler_failure_leaves_wrapper _ failing (lit "homes in Toronto")
              new_bot _ eq_refl eq_refl)
    as (b' & Hrun & Htools & Hcb & _).
  exists b'. repeat split; assumption.
Defined.

Lemma handler_without_search_tool_witness :
  let b' := snd (handle_property_search_queries answering (lit "condos")
                   bot_after_failure) in
  tools b' = [WithContext 1 7%nat]
  /\ agent_calls (events b') = [[WithContext 1 7%nat]].
Proof.
  exact (@handler_without_search_tool _ answering (lit "condos")
           bot_after_failure eq_refl).
Defined.

End BotRuns.

(* ================================================================= *)
(** ** The web server *)

Section ServerFacts.
Import App.
Context {payload : Type}.
Variable A : @app_env payload.

Ltac server_unfold :=
  unfold rtvi_connect, get_status, start, create_room_and_token, set_job,
    rest_helper, call, call_get, print, note, st_try, st_bind, st_ret,
    st_raise in *.

Lemma truthy_text (o : option str) : truthy o = true -> text o <> [].
Proof. destruct o as [[|c u]|]; simpl; intros H; congruence. Qed.

Lemma get_item_set_item (d : list (str * job)) (k : str) (v : job) :
  get_item (set_item d k v) k = Some v.
Proof.
  induction d as [|[k' v'] d IH]; simpl.
  - now rewrite str_eqb_refl.
  - destruct (str_eqb k' k) eqn:Hk; simpl; rewrite Hk; auto.
Qed.

Lemma get_item_set_item_other (d : list (str * job)) (k k0 : str) (v : job) :
  k0 <> k -> get_item (set_item d k v) k0 = get_item d k0.
Proof.
  intros Hne. induction d as [|[k' v'] d IH]; simpl.
  - destruct (str_eqb k k0) eqn:Hk; [|reflexivity].
    apply str_eqb_eq in Hk. congruence.
  - destruct (str_eqb k' k) eqn:Hk; simpl.
    + destruct (str_eqb k' k0) eqn:Hk0; [|reflexivity].
      apply str_eqb_eq in Hk, Hk0. congruence.
    + now rewrite IH.
Qed.

Lemma set_item_length (d : list (str * job)) (k : str) (v : job) :
  List.length (set_item d k v)
  = match get_item d k with
    | Some _ => List.length d
    | None => S (List.length d)
    end.
Proof.
  induction d as [|[k' v'] d IH]; simpl; [reflexivity|].
  destruct (str_eqb k' k); simpl; [reflexivity|].
  rewrite IH. now destruct (get_item d k).
Qed.

(** With a room and a token configured in the environment, the
    credentials are these two, and no service is called: the state is left
    as it is, whether or not the helper of the room service exists. *)
Theorem configured_credentials_need_no_service (s : server) :
  truthy (DAILY_SAMPLE_ROOM_URL A) = true ->
  truthy (DAILY_SAMPLE_ROOM_TOKEN A) = true ->
  create_room_and_token A s
  = (Ok (text (DAILY_SAMPLE_ROOM_URL A), text (DAILY_SAMPLE_ROOM_TOKEN A)), s).
Proof.
  intros Hu Ht. server_unfold. rewrite Hu, Ht. simpl. reflexivity.
Qed.

(** The credentials that [create_room_and_token] returns are never
    empty; a configured room or token is returned as it is; the room service
    is asked for what is missing, in this order, and for the token of the
    room that is returned.  [bot_jobs] is not touched. *)
Theorem create_room_and_token_returns
    (s s' : server) (room_url token : str) :
  create_room_and_token A s = (Ok (room_url, token), s') ->
  room_url <> [] /\ token <> []
  /\ (truthy (DAILY_SAMPLE_ROOM_URL A) = true ->
      room_url = text (DAILY_SAMPLE_ROOM_URL A))
  /\ (truthy (DAILY_SAMPLE_ROOM_TOKEN A) = true ->
      token = text (DAILY_SAMPLE_ROOM_TOKEN A))
  /\ out s' = out s
              ++ (if truthy (DAILY_SAMPLE_ROOM_URL A) then [] else [CreateRoom])
              ++ (if truthy (DAILY_SAMPLE_ROOM_TOKEN A) then []
                  else [GetToken room_url])
  /\ bot_jobs s' = bot_jobs s.
Proof.
  server_unfold. destruct s as [jobs helper evs]. simpl.
  destruct (truthy (DAILY_SAMPLE_ROOM_URL A)) eqn:Hu; simpl.
  - destruct (truthy (DAILY_SAMPLE_ROOM_TOKEN A)) eqn:Ht; simpl.
    + intros H. injection H as <- <- <-. simpl. rewrite app_nil_r.
      repeat split; auto using truthy_text.
    + destruct helper; simpl; [|discriminate].
      destruct (get_token A evs _) as [tk|e]; simpl; [|discriminate].
      destruct (truthy tk) eqn:Htk; simpl; [|discriminate].
      intros H. injection H as <- <- <-. simpl.
      repeat split; auto using truthy_text. discriminate.
  - destruct helper; simpl; [|discriminate].
    destruct (create_room A evs) as [room|e]; simpl; [|discriminate].
    destruct (truthy room) eqn:Hroom; simpl; [|discriminate].
    destruct (truthy (DAILY_SAMPLE_ROOM_TOKEN A)) eqn:Ht; simpl.
    + intros H. injection H as <- <- <-. simpl.
      repeat split; auto using truthy_text. discriminate.
    + destruct (get_token A _ _) as [tk|e]; simpl; [|discriminate].
      destruct (truthy tk) eqn:Htk; simpl; [|discriminate].
      intros H. injection H as <- <- <-. simpl. rewrite <- app_assoc.
      repeat split; auto using truthy_text; discriminate.
Qed.

Lemma create_room_and_token_keeps_jobs (s : server) :
  bot_jobs (snd (create_room_and_token A s)) = bot_jobs s
  /\ match fst (create_room_and_token A s) with
     | Ok _ => True
     | Err (HTTPException status_code _) => status_code = 500%Z
     | Err (Other _) => True
     end
  /\ exists evs, out (snd (create_room_and_token A s)) = out s ++ evs
                 /\ filter is_spawn evs = [].
Proof.
  server_unfold. destruct s as [jobs helper evs]. simpl.
  destruct (truthy (DAILY_SAMPLE_ROOM_URL A)); simpl.
  - destruct (truthy (DAILY_SAMPLE_ROOM_TOKEN A)); simpl.
    + repeat split. exists []. now rewrite app_nil_r.
    + destruct helper; simpl.
      * destruct (get_token A evs _) as [tk|e]; simpl.
        -- destruct (truthy tk); simpl; repeat split; eexists; split;
             try reflexivity; reflexivity.
        -- repeat split; eexists; split; try reflexivity; reflexivity.
      * repeat split. exists []. now rewrite app_nil_r.
  - destruct helper; simpl.
    + destruct (create_room A evs) as [room|e]; simpl.
      * destruct (truthy room); simpl.
        -- destruct (truthy (DAILY_SAMPLE_ROOM_TOKEN A)); simpl.
           ++ repeat split; eexists; split; try reflexivity; reflexivity.
           ++ destruct (get_token A _ _) as [tk|e]; simpl.
              ** destruct (truthy tk); simpl; repeat split;
                   rewrite <- app_assoc; eexists; split;
                   try reflexivity; reflexivity.
              ** repeat split; rewrite <- app_assoc; eexists; split;
                   try reflexivity; reflexivity.
        -- repeat split; eexists; split; try reflexivity; reflexivity.
      * repeat split; eexists; split; try reflexivity; reflexivity.
    + repeat split. exists []. now rewrite app_nil_r.
Qed.

Lemma create_room_and_token_nonempty
    (s s' : server) (room_url token : str) :
  create_room_and_token A s = (Ok (room_url, token), s') ->
  room_url <> [] /\ token <> [].
Proof.
  server_unfold. destruct s as [jobs helper evs]. simpl.
  destruct (truthy (DAILY_SAMPLE_ROOM_URL A)) eqn:Hu; simpl.
  - destruct (truthy (DAILY_SAMPLE_ROOM_TOKEN A)) eqn:Ht; simpl.
    + intros H. injection H as <- <- <-. auto using truthy_text.
    + destruct helper; simpl; [|discriminate].
      destruct (get_token A evs _) as [tk|e]; simpl; [|discriminate].
      destruct (truthy tk) eqn:Htk; simpl; [|discriminate].
      intros H. injection H as <- <- <-. auto using truthy_text.
  - destruct helper; simpl; [|discriminate].
    destruct (create_room A evs) as [room|e]; simpl; [|discriminate].
    destruct (truthy room) eqn:Hroom; simpl; [|discriminate].
    destruct (truthy (DAILY_SAMPLE_ROOM_TOKEN A)) eqn:Ht; simpl.
    + intros H. injection H as <- <- <-. auto using truthy_text.
    + destruct (get_token A _ _) as [tk|e]; simpl; [|discriminate].
      destruct (truthy tk) eqn:Htk; simpl; [|discriminate].
      intros H. injection H as <- <- <-. auto using truthy_text.
Qed.

Lemma start_keeps_or_registers (s : server) :
  match start A s with
  | (Ok (room_url, token), s') =>
      room_url <> [] /\ token <> []
      /\ get_item (bot_jobs s') room_url <> None
  | (Err _, s') => bot_jobs s' = bot_jobs s
  end.
Proof.
  destruct (create_room_and_token_keeps_jobs s) as (Hjobs & _).
  pose proof (@create_room_and_token_nonempty s) as Hne.
  unfold start, st_bind, st_ret, set_job, call.
  destruct (create_room_and_token A s) as [[[room_url token]|e] s1]; simpl in *;
    [|exact Hjobs].
  destruct (Hne _ _ _ eq_refl) as [Hu Ht].
  destruct (spawn A (out s1) room_url token) as [function_call|e]; simpl;
    [|exact Hjobs].
  repeat split; auto. rewrite get_item_set_item. discriminate.
Qed.

(** [start] stores the function call it spawned under the room of the
    credentials it returns, and leaves every other entry of [bot_jobs] as it
    was: a room that already had an entry keeps one entry, with the new call
    in the place of the old one.  A start that fails leaves [bot_jobs] as it
    was. *)
Theorem start_registers_the_job (s : server) :
  match start A s with
  | (Ok (room_url, token), s') =>
      exists function_call history,
        spawn A history room_url token = Return function_call
        /\ get_item (bot_jobs s') room_url = Some function_call
        /\ (forall k, k <> room_url ->
                      get_item (bot_jobs s') k = get_item (bot_jobs s) k)
        /\ List.length (bot_jobs s')
           = match get_item (bot_jobs s) room_url with
             | Some _ => List.length (bot_jobs s)
             | None => S (List.length (bot_jobs s))
             end
        /\ exists evs, out s' = out s ++ evs
                       /\ filter is_spawn evs = [Spawn room_url token]
  | (Err _, s') => bot_jobs s' = bot_jobs s
  end.
Proof.
  destruct (create_room_and_token_keeps_jobs s) as (Hjobs & _ & evs & Hout & Hsp).
  unfold start, st_bind, st_ret, set_job, call.
  destruct (create_room_and_token A s) as [[[room_url token]|e] s1]; simpl in *;
    [|exact Hjobs].
  destruct (spawn A (out s1) room_url token) as [function_call|e] eqn:Hspawn;
    simpl; [|exact Hjobs].
  exists function_call, (out s1). rewrite Hjobs.
  split; [exact Hspawn|]. split; [apply get_item_set_item|].
  split; [intros k Hk; now apply get_item_set_item_other|].
  split; [apply set_item_length|].
  exists (evs ++ [Spawn room_url token]). rewrite Hout, <- app_assoc.
  split; [reflexivity|]. rewrite filter_app, Hsp. reflexivity.
Qed.

Lemma cancel_each_effect (jobs : list job) (s : server) :
  exists s',
    cancel_each A jobs s = (Ok tt, s')
    /\ bot_jobs s' = bot_jobs s
    /\ cancelled (out s')
       = cancelled (out s)
         ++ flat_map (fun j : job => match j with Some f => [f] | None => [] end)
              jobs.
Proof.
  revert s. induction jobs as [|j jobs IH]; intros s; simpl.
  - exists s. now rewrite app_nil_r.
  - unfold st_bind, st_try, st_ret, call_cancel, print, note.
    destruct j as [f|]; simpl.
    + destruct (cancel A (out s) f) as [e|]; simpl.
      * match goal with |- context [cancel_each A jobs ?s1] =>
          destruct (IH s1) as (s' & Hrun & Hjobs & Hc) end.
        exists s'. rewrite Hrun. split; [reflexivity|]. split; [exact Hjobs|].
        rewrite Hc. simpl. unfold cancelled. rewrite ?flat_map_app. simpl.
        rewrite ?app_nil_r, <- ?app_assoc. reflexivity.
      * match goal with |- context [cancel_each A jobs ?s1] =>
          destruct (IH s1) as (s' & Hrun & Hjobs & Hc) end.
        exists s'. rewrite Hrun. split; [reflexivity|]. split; [exact Hjobs|].
        rewrite Hc. simpl. unfold cancelled. rewrite ?flat_map_app. simpl.
        rewrite ?app_nil_r, <- ?app_assoc. reflexivity.
    + destruct (IH s) as (s' & Hrun & Hjobs & Hc).
      exists s'. now rewrite Hrun.
Qed.

(** [cleanup] never raises: whatever [cancel] does, it cancels every
    function call stored in [bot_jobs] once, in the order of insertion, and
    leaves [bot_jobs] as it is (the entries are not removed). *)
Theorem cleanup_cancels_each_job_once (s : server) :
  exists s',
    cleanup A s = (Ok tt, s')
    /\ bot_jobs s' = bot_jobs s
    /\ cancelled (out s') = cancelled (out s) ++ function_calls (bot_jobs s).
Proof.
  unfold cleanup.
  destruct (cancel_each_effect (map snd (bot_jobs s)) s) as (s' & Hrun & Hj & Hc).
  exists s'. split; [exact Hrun|]. split; [exact Hj|].
  rewrite Hc. f_equal. unfold function_calls. generalize (bot_jobs s).
  intros d. induction d as [|[k v] d IH]; simpl; [reflexivity|].
  now rewrite IH.
Qed.

(** A request that names services, one of which is not the supported
    one, is refused with status 400 before anything is started: no room, no
    token, no bot, and [bot_jobs] as it was. *)
Theorem connect_rejects_other_services (d : ConnectData) (s : server) :
  services d <> [] ->
  get_item (services d) (lit "llm") <> Some (lit "openai")
  \/ get_item (services d) (lit "tts") <> Some (lit "cartesia") ->
  exists s',
    rtvi_connect A (Some d) s
    = (Err (HTTPException 400
              (lit "This backend only supports OpenAI LLM and Cartesia TTS")),
       s')
    /\ bot_jobs s' = bot_jobs s
    /\ filter is_service (out s') = filter is_service (out s).
Proof.
  intros Hne Hwrong.
  assert (Hd : differs (get_item (services d) (lit "llm")) (lit "openai")
               || differs (get_item (services d) (lit "tts")) (lit "cartesia")
               = true).
  { apply orb_true_iff.
    destruct Hwrong as [H|H]; [left|right];
      (destruct (get_item (services d) _) as [v|]; simpl; [|reflexivity];
       destruct (str_eqb v _) eqn:Hv; [|reflexivity];
       apply str_eqb_eq in Hv; subst; congruence). }
  assert (Hn : nonempty (services d) = true).
  { destruct (services d); [congruence | reflexivity]. }
  unfold rtvi_connect, st_bind, st_try, st_raise, st_ret, print, note.
  rewrite Hn, Hd. simpl.
  eexists. split; [reflexivity|]. simpl. split; [reflexivity|].
  rewrite !filter_app. simpl. now rewrite !app_nil_r.
Qed.

(** Whatever the request and the services do, /connect answers with
    credentials that are not empty and registered in [bot_jobs], or fails
    with status 400 or 500: no other exception leaves the endpoint.  Status
    400 is given only to a request that names services; a request without a
    body or with an empty services dictionary is not validated.  A failure
    leaves [bot_jobs] as it was. *)
Theorem connect_answers_or_fails_with_400_or_500
    (data : option ConnectData) (s : server) :
  match rtvi_connect A data s with
  | (Ok body, s') =>
      exists room_url token,
        body = [(lit "room_url", room_url); (lit "token", token)]
        /\ room_url <> [] /\ token <> []
        /\ get_item (bot_jobs s') room_url <> None
  | (Err (HTTPException status_code _), s') =>
      bot_jobs s' = bot_jobs s
      /\ (status_code = 400%Z \/ status_code = 500%Z)
      /\ (status_code = 400%Z ->
          exists d, data = Some d /\ services d <> [])
  | (Err (Other _), _) => False
  end.
Proof.
  pose proof start_keeps_or_registers as Hstart.
  assert (Htry : forall s0,
    match st_try
            (st_bind (start A) (fun credentials =>
               let (room_url, token) := credentials : str * str in
               st_bind (print (check_mark ++ lit " Bot started successfully"))
                 (fun _ => st_bind (print (pin ++ lit " Room: " ++ room_url))
                    (fun _ => st_ret [(lit "room_url", room_url);
                                      (lit "token", token)]))))
            (fun e =>
               st_bind (print (cross_mark ++ lit " Failed to start bot: "
                               ++ app_str A e))
                 (fun _ => st_raise
                    (HTTPException 500
                       (lit "Failed to start bot: " ++ app_str A e)))) s0
    with
    | (Ok body, s') =>
        exists room_url token,
          body = [(lit "room_url", room_url); (lit "token", token)]
          /\ room_url <> [] /\ token <> []
          /\ get_item (bot_jobs s') room_url <> None
    | (Err (HTTPException status_code _), s') =>
        bot_jobs s' = bot_jobs s0 /\ status_code = 500%Z
    | (Err (Other _), _) => False
    end).
  { intros s0. specialize (Hstart s0).
    unfold st_try, st_bind at 1.
    destruct (start A s0) as [[[room_url token]|e] s1]; simpl.
    - destruct Hstart as (Hu & Ht & Hget).
      exists room_url, token. repeat split; auto.
    - unfold print, note, st_bind, st_raise. simpl. auto. }
  unfold rtvi_connect.
  unfold st_bind at 1. unfold print at 1, note at 1.
  unfold st_bind at 1. unfold print at 1, note at 1.
  unfold st_bind at 1.
  match goal with |- context [st_try ?c ?h] => set (body := st_try c h) in * end.
  destruct data as [d|]; simpl.
  - destruct (services d) as [|kv l] eqn:Hs; simpl.
    + match goal with |- context [body ?s0] => specialize (Htry s0) end.
      destruct (body _) as [[b|[c dt|e]] s']; simpl in *; auto.
      destruct Htry as [Hj Hc]. split; [exact Hj|]. split; [now right|].
      intros H4; subst; lia.
    + unfold st_bind at 1. unfold print at 1, note at 1.
      destruct (differs _ _ || differs _ _); simpl.
      * unfold st_raise. simpl. split; [reflexivity|]. split; [now left|].
        intros _. exists d. rewrite Hs. split; [reflexivity | discriminate].
      * match goal with |- context [body ?s0] => specialize (Htry s0) end.
        destruct (body _) as [[b|[c dt|e]] s']; simpl in *; auto.
        destruct Htry as [Hj Hc]. split; [exact Hj|]. split; [now right|].
        intros H4; subst; lia.
  - match goal with |- context [body ?s0] => specialize (Htry s0) end.
    destruct (body _) as [[b|[c dt|e]] s']; simpl in *; auto.
    destruct Htry as [Hj Hc]. split; [exact Hj|]. split; [now right|].
    intros H4; subst; lia.
Qed.

(** /status is decided by the function call of the identifier and by
    how its [get] ends: the answer is "finished" with the result of the call
    as code, "finished" with code 404 when the output has expired, "running"
    with code 202 when [get] times out; when [get] raises anything else,
    when the lookup raises, and when there is no function call, the endpoint
    fails with status 500.  Status 404 never leaves it: the exception with
    status 404 is raised inside the guarded block and reported as status
    500, its text in the detail.  [bot_jobs] is not touched. *)
Theorem get_status_outcomes (fid : str) (s : server) :
  let answer (status : str) (code : code_value) : result app_exn status_response :=
    Ok {| bot_id := fid; status := status; code := code;
          structure := lit "refactored" |} in
  let failure (text : str) : result app_exn status_response :=
    Err (HTTPException 500 (lit "Error checking bot status: " ++ text)) in
  fst (get_status A fid s)
  = match from_id A (out s) fid with
    | Return (Some func) =>
        match get A (out s ++ [FromId fid]) func with
        | Got result => answer (lit "finished") (Result result)
        | OutputExpiredError => answer (lit "finished") (Code 404)
        | TimeoutError => answer (lit "running") (Code 202)
        | GetRaised e => failure (exn_str e)
        end
    | Return None =>
        failure (http_str A 404
                   (lit "Bot with process id: " ++ fid ++ lit " not found"))
    | Raise e => failure (exn_str e)
    end
  /\ bot_jobs (snd (get_status A fid s)) = bot_jobs s
  /\ (forall status_code detail,
        fst (get_status A fid s) = Err (HTTPException status_code detail) ->
        status_code = 500%Z)
  /\ (forall e, fst (get_status A fid s) <> Err (Other e)).
Proof.
  intros answer failure. subst answer failure.
  server_unfold. destruct s as [jobs helper evs]. simpl.
  destruct (from_id A evs fid) as [[f|]|e]; simpl.
  - destruct (get A (evs ++ [FromId fid]) f) eqn:Hget; simpl.
    all: repeat split; try discriminate.
    all: intros c d H; injection H as <- _; reflexivity.
  - repeat split; try discriminate.
    intros c d H. injection H as <- _. reflexivity.
  - repeat split; try discriminate.
    intros c d H. injection H as <- _. reflexivity.
Qed.

End ServerFacts.

Section ServerRuns.
Import App AppSamples.

Lemma configured_credentials_need_no_service_witness :
  create_room_and_token fixed_room before_startup
  = (Ok (lit "https://example.daily.co/demo", lit "demo-token"), before_startup).
Proof.
  exact (@configured_credentials_need_no_service _ fixed_room before_startup
           eq_refl eq_refl).
Defined.

Lemma create_room_and_token_returns_witness :
  let run := create_room_and_token room_per_bot idle in
  fst run = Ok (lit "https://example.daily.co/room-0",
                lit "token-for-https://example.daily.co/room-0")
  /\ out (snd run)
     = [CreateRoom; GetToken (lit "https://example.daily.co/room-0")].
Proof.
  split; [reflexivity|].
  destruct (@create_room_and_token_returns _ room_per_bot idle
              (snd (create_room_and_token room_per_bot idle))
              (lit "https://example.daily.co/room-0")
              (lit "token-for-https://example.daily.co/room-0") eq_refl)
    as (_ & _ & _ & _ & H & _).
  exact H.
Defined.

Lemma connect_rejects_other_services_witness :
  exists s',
    rtvi_connect fixed_room (Some other_llm) idle
    = (Err (HTTPException 400
              (lit "This backend only supports OpenAI LLM and Cartesia TTS")),
       s')
    /\ bot_jobs s' = []
    /\ filter is_service (out s') = [].
Proof.
  assert (Hne : services other_llm <> []) by discriminate.
  assert (Hllm : get_item (services other_llm) (lit "llm")
                 <> Some (lit "openai")) by discriminate.
  exact (@connect_rejects_other_services _ fixed_room other_llm idle Hne
           (or_introl Hllm)).
Defined.

End ServerRuns.
